(** * gohtml: query model, units and protocol client

    A shallow embedding of the Go packages [sizes], [selector], [content]
    and [client] of unitechio/gohtml, and the properties of the builder,
    the validators, the unit conversions and the conversion call that
    the specification states about them.

    Conventions of the embedding:
    - Go's [int], [uint] and [time.Duration] values are integers in [Z] (or
      [N] for the unsigned selector kind); the code only compares and stores
      them, so no wrap-around arithmetic occurs.
    - [float64] is the kernel's binary64 type [float]; Go's [<] is [ltb].
    - [string] is [String.string], [[]byte] is [list byte]; the conversions
      [string(b)] and [[]byte(s)] keep the bytes.
    - a Go [error] is a message with an optional wrapped error ([%w]);
      [nil] is [None] in [option error].
    - a function returning [(T, error)] returns [result T]. *)

From Stdlib Require Import ZArith NArith List String Ascii Strings.Byte.
From Stdlib Require Import Floats DecimalString Lia.
From stdpp Require Import gmap strings.

Set Warnings "-inexact-float,-register-all".
Open Scope Z_scope.

(** ** Go runtime: errors, results, formatting, time *)

Inductive error : Type :=
| errors_New (msg : string)
| fmt_Errorf_w (msg : string) (wrapped : error).

(** [err.Error()]: the message; for [fmt.Errorf("... %w", e)] the stored
    message already contains [e]'s message at the verb's place. *)
Definition Error (e : error) : string :=
  match e with
  | errors_New msg => msg
  | fmt_Errorf_w msg _ => msg
  end.

Definition error_eqb (a b : error) : bool :=
  match a, b with
  | errors_New x, errors_New y => String.eqb x y
  | _, _ => false
  end.

(** [errors.Is(e, target)] for a sentinel made by [errors.New]: walks the
    chain of wrapped errors.  Sentinels are compared by message here (Go
    compares the pointers); every sentinel of the package has a message
    of its own. *)
Fixpoint errors_Is (e target : error) : bool :=
  match e with
  | errors_New _ => error_eqb e target
  | fmt_Errorf_w _ inner => errors_Is inner target
  end.

Inductive result (A : Type) : Type :=
| Ok (a : A)
| Err (e : error).
Arguments Ok {A} a.
Arguments Err {A} e.

(** [strconv.Itoa] and the verb [%d]. *)
Definition Itoa (n : Z) : string := NilZero.string_of_int (Z.to_int n).

(** [strings.HasSuffix] and [strings.TrimSuffix]. *)
Definition strings_HasSuffix (s suffix : string) : bool :=
  (String.length suffix <=? String.length s)%nat
  && String.eqb
       (substring (String.length s - String.length suffix)
                  (String.length suffix) s)
       suffix.

Definition strings_TrimSuffix (s suffix : string) : string :=
  if strings_HasSuffix s suffix
  then substring 0 (String.length s - String.length suffix) s
  else s.

(** [strings.Trim] for a cutset of ASCII characters: the leading and the
    trailing bytes that are in the cutset are removed. *)
Fixpoint strings_inCutset (c : ascii) (cutset : string) : bool :=
  match cutset with
  | EmptyString => false
  | String d rest => Ascii.eqb c d || strings_inCutset c rest
  end.

Fixpoint strings_TrimLeft (s cutset : string) : string :=
  match s with
  | EmptyString => EmptyString
  | String c rest => if strings_inCutset c cutset then strings_TrimLeft rest cutset else s
  end.

Fixpoint strings_TrimRight (s cutset : string) : string :=
  match s with
  | EmptyString => EmptyString
  | String c rest =>
      match strings_TrimRight rest cutset with
      | EmptyString => if strings_inCutset c cutset then EmptyString else String c EmptyString
      | kept => String c kept
      end
  end.

Definition strings_Trim (s cutset : string) : string :=
  strings_TrimLeft (strings_TrimRight s cutset) cutset.

Module time.
(** [time.Duration]: nanoseconds in an int64. *)
Definition Duration := Z.
Definition Nanosecond : Duration := 1.
Definition Millisecond : Duration := 1000000.
Definition Second : Duration := 1000 * Millisecond.
Definition Minute : Duration := 60 * Second.
End time.

(** ** Package sizes *)

Module sizes.

(** [type Millimeter float64], [type Inch float64], [type Point float64]. *)
Definition Millimeter := float.
Definition Inch := float.
Definition Point := float.

(** Conversion constants.  [mmToInch] is a typed [float64] constant,
    the others are untyped and take the nearest [float64] where they are
    used. *)
Definition mmToInch : float := (1 / 25.4)%float.
Definition inchToMm : float := 25.4%float.
Definition pointToMm : float := 0.3528%float.
Definition inchToPoint : float := (1.0 / 64)%float.
Definition mmToPoint : float := (1.0 / pointToMm)%float.
Definition pointToInch : float := 0.0139%float.

Definition Millimeter_Millimeters (m : Millimeter) : Millimeter := m.
Definition Millimeter_Inches (m : Millimeter) : Inch := (m * mmToInch)%float.
Definition Millimeter_Points (m : Millimeter) : Point := (m * mmToPoint)%float.

Definition Inch_Millimeters (i : Inch) : Millimeter := (i * inchToMm)%float.
Definition Inch_Inches (i : Inch) : Inch := i.
Definition Inch_Points (i : Inch) : Point := (i * inchToPoint)%float.

Definition Point_Millimeters (p : Point) : Millimeter := (p * pointToMm)%float.
Definition Point_Inches (p : Point) : Inch := (p * pointToInch)%float.
Definition Point_Points (p : Point) : Point := p.

(** The interface [Length], closed over its three implementations; the
    [nil] interface value is [None] in [option Length]. *)
Inductive Length : Type :=
| of_Millimeter (m : Millimeter)
| of_Inch (i : Inch)
| of_Point (p : Point).

Definition Millimeters (l : Length) : Millimeter :=
  match l with
  | of_Millimeter m => Millimeter_Millimeters m
  | of_Inch i => Inch_Millimeters i
  | of_Point p => Point_Millimeters p
  end.

Definition Inches (l : Length) : Inch :=
  match l with
  | of_Millimeter m => Millimeter_Inches m
  | of_Inch i => Inch_Inches i
  | of_Point p => Point_Inches p
  end.

Definition Points (l : Length) : Point :=
  match l with
  | of_Millimeter m => Millimeter_Points m
  | of_Inch i => Inch_Points i
  | of_Point p => Point_Points p
  end.

(** [type Orientation bool]. *)
Definition Orientation := bool.
Definition Portrait : Orientation := false.
Definition Landscape : Orientation := true.

(** [type PageSize int] with the [iota] enumeration. *)
Definition PageSize := Z.
Definition Undefined : PageSize := 0.
Definition A0 : PageSize := 1.
Definition A1 : PageSize := 2.
Definition A2 : PageSize := 3.
Definition A3 : PageSize := 4.
Definition A4 : PageSize := 5.
Definition A5 : PageSize := 6.
Definition A6 : PageSize := 7.
Definition A7 : PageSize := 8.
Definition A8 : PageSize := 9.
Definition A9 : PageSize := 10.
Definition A10 : PageSize := 11.
Definition B0 : PageSize := 12.
Definition B1 : PageSize := 13.
Definition B2 : PageSize := 14.
Definition B3 : PageSize := 15.
Definition B4 : PageSize := 16.
Definition B5 : PageSize := 17.
Definition B6 : PageSize := 18.
Definition B7 : PageSize := 19.
Definition B8 : PageSize := 20.
Definition B9 : PageSize := 21.
Definition B10 : PageSize := 22.
Definition Letter : PageSize := 23.

Definition pageSizeNames : string :=
  "UndefinedA0A1A2A3A4A5A6A7A8A9A10B0B1B2B3B4B5B6B7B8B9B10Letter".
Definition pageSizeIdx : list Z :=
  [0; 9; 11; 13; 15; 17; 19; 21; 23; 25; 27; 29; 32; 34; 36; 38; 40; 42;
   44; 46; 48; 50; 52; 55; 61].
Definition pageSizes : list PageSize :=
  [0; 1; 2; 3; 4; 5; 6; 7; 8; 9; 10; 11; 12; 13; 14; 15; 16; 17; 18; 19;
   20; 21; 22; 23].

(** [pageSizeIdx[i]]; every use below is guarded so that [i] is in
    range (Go panics outside). *)
Definition idx (i : Z) : Z := nth (Z.to_nat i) pageSizeIdx 0.

(** The slice expression [s[lo:hi]]. *)
Definition slice (s : string) (lo hi : Z) : string :=
  substring (Z.to_nat lo) (Z.to_nat (hi - lo)) s.

(** The name cut out of [pageSizeNames] for index [i], as [init] and
    [String] both do. *)
Definition nameAt (i : Z) : string :=
  slice pageSizeNames (idx i) (idx (i + 1)).

(** [init]: [for i := range pageSizes { pageSizeMap[name] = PageSize(i) }],
    run on the empty map. *)
Definition init (m : gmap string PageSize) : gmap string PageSize :=
  fold_left (fun acc i => <[nameAt i := i]> acc)
            (map Z.of_nat (seq 0 (length pageSizes))) m.

Definition pageSizeMap : gmap string PageSize := init ∅.

Definition PageSize_String (p : PageSize) : string :=
  if (p <? 0) || (p >=? Z.of_nat (length pageSizeIdx) - 1)
  then "PageSize(" ++ Itoa p ++ ")"
  else nameAt p.

Definition PageSizeString (s : string) : result PageSize :=
  match pageSizeMap !! s with
  | Some val => Ok val
  | None => Err (errors_New (s ++ " does not belong to PageSize values"))
  end.

Definition PageSizeValues : list PageSize := pageSizes.

Definition IsAPageSize (p : PageSize) : bool :=
  existsb (fun v => p =? v) pageSizes.

(** [PageSize.MarshalText], [PageSize.UnmarshalText], [UnmarshalPageSize]
    and [PageSize.Set].  A method on a pointer receiver returns the
    value behind the receiver after the call, with the error. *)
Definition PageSize_MarshalText (p : PageSize) : result (list byte) :=
  Ok (list_byte_of_string (PageSize_String p)).

Definition PageSize_UnmarshalText (text : list byte) (p : PageSize)
  : PageSize * option error :=
  match PageSizeString (string_of_list_byte text) with
  | Err err => (p, Some err)
  | Ok val => (val, None)
  end.

Definition UnmarshalPageSize (pageSize : string) : result PageSize :=
  let ps : PageSize := 0 in
  match PageSize_UnmarshalText (list_byte_of_string pageSize) ps with
  | (_, Some err) =>
      Err (fmt_Errorf_w ("provided invalid page size: " ++ Error err) err)
  | (ps, None) => Ok ps
  end.

Definition PageSize_Set (s : string) (p : PageSize) : PageSize * option error :=
  match UnmarshalPageSize s with
  | Err err => (p, Some err)
  | Ok val => (val, None)
  end.

Definition PageSize_Type (p : PageSize) : string := "page-size".

(** [PageSize.Dimensions]: the [switch] over the enumeration. *)
Definition Dimensions (p : PageSize) : Millimeter * Millimeter :=
  if p =? A0 then (841, 1189)%float
  else if p =? A1 then (594, 841)%float
  else if p =? A2 then (420, 594)%float
  else if p =? A3 then (297, 420)%float
  else if p =? A4 then (210, 297)%float
  else if p =? A5 then (148, 210)%float
  else if p =? A6 then (105, 148)%float
  else if p =? A7 then (74, 105)%float
  else if p =? A8 then (52, 74)%float
  else if p =? A9 then (37, 52)%float
  else if p =? A10 then (26, 37)%float
  else if p =? B0 then (1000, 1414)%float
  else if p =? B1 then (707, 1000)%float
  else if p =? B2 then (500, 707)%float
  else if p =? B3 then (353, 500)%float
  else if p =? B4 then (250, 353)%float
  else if p =? B5 then (176, 250)%float
  else if p =? B6 then (125, 176)%float
  else if p =? B7 then (88, 125)%float
  else if p =? B8 then (66, 88)%float
  else if p =? B9 then (44, 62)%float
  else if p =? B10 then (31, 44)%float
  else if p =? Letter then (215.9, 279.4)%float
  else (0, 0)%float.

(** [Orientation.String], [Orientation.Set] and [Orientation.Type]. *)
Definition Orientation_String (o : Orientation) : string :=
  if Bool.eqb o Portrait then "portrait" else "landscape".

Definition Orientation_Set (s : string) (o : Orientation)
  : Orientation * option error :=
  if String.eqb s "portrait" then (Portrait, None)
  else if String.eqb s "landscape" then (Landscape, None)
  else (o, Some (errors_New ("invalid orientation: '" ++ s ++ "'"))).

Definition Orientation_Type (o : Orientation) : string := "orientation".

Section Parsing.

(** [strconv.ParseFloat(s, 64)] and [strings.TrimSpace], left to their
    packages. *)
Variable ParseFloat : string -> result float.
Variable TrimSpace : string -> string.

Definition parseMillimeter (s : string) : result Millimeter :=
  let s := TrimSpace (strings_TrimSuffix s "mm") in
  match ParseFloat s with
  | Err err => Err (fmt_Errorf_w ("invalid millimeter value: " ++ Error err) err)
  | Ok val => Ok val
  end.

Definition parseInch (s : string) : result Inch :=
  let s := TrimSpace (strings_TrimSuffix s "in") in
  match ParseFloat s with
  | Err err => Err (fmt_Errorf_w ("invalid inch value: " ++ Error err) err)
  | Ok val => Ok val
  end.

Definition parsePoint (s : string) : result Point :=
  let s := TrimSpace (strings_Trim s "pt") in
  match ParseFloat s with
  | Err err => Err err
  | Ok val => Ok val
  end.

Definition UnmarshalLength (length : string) : result Length :=
  if strings_HasSuffix length "mm" then
    match parseMillimeter length with
    | Ok m => Ok (of_Millimeter m)
    | Err err => Err err
    end
  else if strings_HasSuffix length "in" then
    match parseInch length with
    | Ok i => Ok (of_Inch i)
    | Err err => Err err
    end
  else if strings_HasSuffix length "pt" then
    match parsePoint length with
    | Ok p => Ok (of_Point p)
    | Err err => Err err
    end
  else Err (errors_New ("invalid length input: " ++ length)).

Definition UnmarshalInch (unit : string) : result Inch :=
  if strings_HasSuffix unit "mm" then
    match parseMillimeter unit with
    | Err err => Err err
    | Ok mm => Ok (Millimeter_Inches mm)
    end
  else if strings_HasSuffix unit "in" then parseInch unit
  else Err (errors_New ("invalid inch input: " ++ unit)).

(** [LengthFlag.Set]: the [Length] field after the call, with the
    error. *)
Definition LengthFlag_Set (s : string) (lf : option Length)
  : option Length * option error :=
  if String.eqb s "undefined" then (None, None)
  else
    match UnmarshalLength s with
    | Err err => (lf, Some err)
    | Ok val => (Some val, None)
    end.

End Parsing.


End sizes.

(** ** Package selector *)

Module selector.

(** [type ByType uint] with the [iota] enumeration. *)
Definition ByType := N.
Definition ByUndefined : ByType := 0%N.
Definition ByID : ByType := 1%N.
Definition ByQueryAll : ByType := 2%N.
Definition ByQuery : ByType := 3%N.
Definition ByNodeID : ByType := 4%N.
Definition ByJSPath : ByType := 5%N.
Definition BySearch : ByType := 6%N.

Definition Validate (b : ByType) : option error :=
  if (ByID <=? b)%N && (b <=? BySearch)%N
  then None
  else Some (errors_New "invalid by selector").

End selector.

(** ** Package content *)

Module content.

(** The interface [Content]: three getters.  An implementation is the
    record of what its methods return. *)
Record Content : Type := {
  ContentType : string;
  Method : string;
  Data : list byte
}.

(** [*StringContent]. *)
Definition StringContent (html : string) : Content :=
  {| ContentType := "text/html";
     Method := "html";
     Data := list_byte_of_string html |}.

Definition NewStringContent (html : string) : result Content :=
  Ok (StringContent html).

(** [*htmlFile] and [*zipDirectory], over the buffer they hold. *)
Definition htmlFile (buffer : list byte) : Content :=
  {| ContentType := "text/html"; Method := "html"; Data := buffer |}.

Definition zipDirectory (buffer : list byte) : Content :=
  {| ContentType := "application/zip"; Method := "dir"; Data := buffer |}.

(** [*webURL]. *)
Definition webURL (path : string) : Content :=
  {| ContentType := "text/plain";
     Method := "web";
     Data := list_byte_of_string path |}.

(** *** Files, directories and the zip writer *)

(** An entry of a directory listing: its name, whether it is a
    directory, and what [Info()] returns, the name of the [FileInfo] or
    an error. *)
Record DirEntry : Type := {
  DirEntry_Name : string;
  IsDir : bool;
  Info : result string
}.

(** What the constructors leave to other packages: [os.ReadDir],
    [os.ReadFile] (also for [os.Open] followed by a full read),
    [url.Parse], the names [zip.Writer.Create] refuses, and the bytes the
    buffer holds after [zip.Writer.Close] for the entries written. *)
Record Sys : Type := {
  os_ReadDir : string -> result (list DirEntry);
  os_ReadFile : string -> result (list byte);
  url_Parse : string -> option error;
  zip_Create : string -> option error;
  zip_Close : list (string * list byte) -> result (list byte)
}.

(** [zipBasePaths]: the local path and the path in the archive, and the
    content of the [strings.Builder] handed back. *)
Definition zipBasePaths (name dirPath basePath : string) (isDir : bool)
           (builder : string) : string * string * string :=
  let builder := (builder ++ dirPath)%string in
  let builder :=
    if negb (strings_HasSuffix dirPath "/") then (builder ++ "/")%string
    else builder in
  let builder := (builder ++ name)%string in
  let builder := if isDir then (builder ++ "/")%string else builder in
  let localPath := builder in
  let builder := ""%string in
  let builder := (builder ++ basePath)%string in
  let builder := (builder ++ name)%string in
  let builder := if isDir then (builder ++ "/")%string else builder in
  let zipPath := builder in
  let builder := ""%string in
  (localPath, zipPath, builder).

(** The loop of [zipPath] over the entries of one directory; [zipPath]
    stands for the recursive call.  The state is the list of entries the
    writer holds; [None] means the recursion ran out of depth. *)
Fixpoint zipPath_range
         (sys : Sys)
         (zipPath : string -> string -> list (string * list byte) ->
                    option (option error * list (string * list byte)))
         (dirPath basePath : string) (entries : list DirEntry)
         (builder : string) (z : list (string * list byte))
  : option (option error * list (string * list byte)) :=
  match entries with
  | [] => Some (None, z)
  | entry :: rest =>
      match Info entry with
      | Err err => Some (Some err, z)
      | Ok info =>
          let '(filePath, zipName, builder) :=
            zipBasePaths info dirPath basePath (IsDir entry) builder in
          if IsDir entry then
            match zipPath filePath zipName z with
            | None => None
            | Some (Some err, z') => Some (Some err, z')
            | Some (None, z') =>
                zipPath_range sys zipPath dirPath basePath rest builder z'
            end
          else
            match os_ReadFile sys filePath with
            | Err err => Some (Some err, z)
            | Ok data =>
                match zip_Create sys zipName with
                | Some err => Some (Some err, z)
                | None =>
                    zipPath_range sys zipPath dirPath basePath rest builder
                                  (z ++ [(zipName, data)])
                end
            end
      end
  end.

(** [zipPath], to the depth [depth] of nested directories. *)
Fixpoint zipPath (sys : Sys) (depth : nat) (dirPath basePath : string)
         (z : list (string * list byte))
  : option (option error * list (string * list byte)) :=
  match depth with
  | O => None
  | S depth' =>
      match os_ReadDir sys dirPath with
      | Err err =>
          Some (Some (fmt_Errorf_w
                        ("reading directory '" ++ dirPath ++ "' failed: "
                         ++ Error err) err), z)
      | Ok entries =>
          zipPath_range sys (zipPath sys depth') dirPath basePath entries "" z
      end
  end.

(** [NewZipDirectory]: the walk from the empty path in the archive, then
    [Close]. *)
Definition NewZipDirectory (sys : Sys) (depth : nat) (dirPath : string)
  : option (result Content) :=
  match zipPath sys depth dirPath "" [] with
  | None => None
  | Some (Some err, _) => Some (Err err)
  | Some (None, z) =>
      match zip_Close sys z with
      | Err err => Some (Err err)
      | Ok buffer => Some (Ok (zipDirectory buffer))
      end
  end.

Definition NewHTMLFile (sys : Sys) (path : string) : result Content :=
  match os_ReadFile sys path with
  | Err err => Err err
  | Ok buffer => Ok (htmlFile buffer)
  end.

Definition NewWebURL (sys : Sys) (path : string) : result Content :=
  match url_Parse sys path with
  | Some err => Err err
  | None => Ok (webURL path)
  end.


End content.

(** ** net/http, io and the decoders, as far as the client uses them *)

(** A byte stream ([io.ReadCloser]): the bytes it delivers and how it
    ends, [None] for a clean end of file. *)
Record Stream : Type := {
  Stream_bytes : list byte;
  Stream_err : option error
}.

(** [io.ReadAll]: what was read, and the error that stopped the read. *)
Definition io_ReadAll (r : Stream) : list byte * option error :=
  (Stream_bytes r, Stream_err r).

Module http.

Definition StatusCreated : Z := 201.
Definition StatusBadRequest : Z := 400.
Definition StatusUnauthorized : Z := 401.
Definition StatusNotFound : Z := 404.
Definition StatusRequestTimeout : Z := 408.
Definition StatusNotImplemented : Z := 501.

Definition StatusOK : Z := 200.
Definition StatusInternalServerError : Z := 500.
Definition StatusBadGateway : Z := 502.


(** [http.Header]; [net/http] brings names to their canonical form on
    both sides, the map here is keyed by the name as the client writes
    it. *)
Definition Header_Get (h : gmap string (list string)) (key : string) : string :=
  match h !! key with
  | Some (v :: _) => v
  | _ => ""
  end.

Definition Header_Set (h : gmap string (list string)) (key value : string)
  : gmap string (list string) :=
  <[key := [value]]> h.

(** [http.Client], reduced to the field the package writes. *)
Record Client : Type := { Timeout : time.Duration }.

Record Request : Type := {
  Request_Method : string;
  Request_URL : string;
  Request_Header : gmap string (list string);
  Request_Body : list byte
}.

Definition Request_setHeader (key value : string) (r : Request) : Request :=
  {| Request_Method := Request_Method r;
     Request_URL := Request_URL r;
     Request_Header := Header_Set (Request_Header r) key value;
     Request_Body := Request_Body r |}.

Record Response : Type := {
  StatusCode : Z;
  Response_Header : gmap string (list string);
  Response_Body : Stream
}.

End http.

(** ** Package client *)

(** [if err := check; err != nil { return err }; rest]: the first error
    wins. *)
Notation "'check' c ';;' k" :=
  (match c with Some e => Some e | None => k end)
  (at level 10, c at level 99, k at level 200, only parsing).

(** [x, err := call; if err != nil { return nil, err }; rest]. *)
Notation "'do' x '<-' c ';;' k" :=
  (match c with Ok x => k | Err e => Err e end)
  (at level 10, x name, c at level 99, k at level 200, only parsing).

Module client.

(** *** Sentinel errors *)

Definition ErrMissingData : error := errors_New "missing input data".
Definition ErrContentType : error := errors_New "invalid content type".
Definition ErrContentTypeDeclared : error :=
  errors_New "content type is already declared".

Definition ErrNotFound : error := errors_New "not found".
Definition ErrBadRequest : error := errors_New "bad request".
Definition ErrNotImplemented : error := errors_New "not implemented".
Definition ErrInternalError : error := errors_New "internal server error".
Definition ErrBadGateway : error := errors_New "bad gateway".
Definition ErrUnauthorized : error := errors_New "unauthorized".
Definition ErrTimedOut : error := errors_New "request timed out".

(** *** Data model *)

Record Options : Type := {
  HTTPS : bool;
  Hostname : string;
  Port : Z;
  DefaultTimeout : time.Duration;
  Prefix : string
}.

(** [type Option func(o *Options)]: the options after the call. *)
Definition Option := Options -> Options.

Record PageParameters : Type := {
  PaperWidth : option sizes.Length;
  PaperHeight : option sizes.Length;
  PageSize : option sizes.PageSize;
  Orientation : sizes.Orientation;
  MarginTop : option sizes.Length;
  MarginBottom : option sizes.Length;
  MarginLeft : option sizes.Length;
  MarginRight : option sizes.Length
}.

Record BySelector : Type := {
  Selector : string;
  By : selector.ByType
}.

Record RenderParameters : Type := {
  WaitTime : time.Duration;
  WaitReady : list BySelector;
  WaitVisible : list BySelector
}.

Record Query : Type := {
  Content : list byte;
  ContentType : string;
  URL : string;
  Method : string;
  Query_PageParameters : PageParameters;
  Query_RenderParameters : RenderParameters;
  TimeoutDuration : time.Duration
}.

Record QueryBuilder : Type := {
  query : Query;
  err : option error
}.

Record PDFResponse : Type := {
  ID : string;
  Data : list byte
}.

(** [Client.Client] is a [*http.Client]; the record holds the client it
    points to. *)
Record Client : Type := {
  Client_Options : Options;
  Client_Client : http.Client
}.

Record generatePDFRequestV1 : Type := {
  v1_Content : list byte;
  v1_ContentType : string;
  v1_ContentURL : string;
  v1_Method : string;
  v1_ExpiresAt : Z;
  v1_TimeoutDuration : Z;
  v1_PageParameters : PageParameters;
  v1_RenderParameters : RenderParameters
}.

(** *** Zero values and field assignments *)

Definition zero_PageParameters : PageParameters :=
  {| PaperWidth := None; PaperHeight := None; PageSize := None;
     Orientation := false; MarginTop := None; MarginBottom := None;
     MarginLeft := None; MarginRight := None |}.

Definition zero_RenderParameters : RenderParameters :=
  {| WaitTime := 0; WaitReady := []; WaitVisible := [] |}.

Definition zero_Query : Query :=
  {| Content := []; ContentType := ""; URL := ""; Method := "";
     Query_PageParameters := zero_PageParameters;
     Query_RenderParameters := zero_RenderParameters;
     TimeoutDuration := 0 |}.

Definition set_PaperWidth (v : option sizes.Length) (p : PageParameters) :=
  {| PaperWidth := v; PaperHeight := PaperHeight p; PageSize := PageSize p;
     Orientation := Orientation p; MarginTop := MarginTop p;
     MarginBottom := MarginBottom p; MarginLeft := MarginLeft p;
     MarginRight := MarginRight p |}.

Definition set_PaperHeight (v : option sizes.Length) (p : PageParameters) :=
  {| PaperWidth := PaperWidth p; PaperHeight := v; PageSize := PageSize p;
     Orientation := Orientation p; MarginTop := MarginTop p;
     MarginBottom := MarginBottom p; MarginLeft := MarginLeft p;
     MarginRight := MarginRight p |}.

Definition set_PageSize (v : option sizes.PageSize) (p : PageParameters) :=
  {| PaperWidth := PaperWidth p; PaperHeight := PaperHeight p; PageSize := v;
     Orientation := Orientation p; MarginTop := MarginTop p;
     MarginBottom := MarginBottom p; MarginLeft := MarginLeft p;
     MarginRight := MarginRight p |}.

Definition set_Orientation (v : sizes.Orientation) (p : PageParameters) :=
  {| PaperWidth := PaperWidth p; PaperHeight := PaperHeight p;
     PageSize := PageSize p; Orientation := v; MarginTop := MarginTop p;
     MarginBottom := MarginBottom p; MarginLeft := MarginLeft p;
     MarginRight := MarginRight p |}.

Definition set_MarginTop (v : option sizes.Length) (p : PageParameters) :=
  {| PaperWidth := PaperWidth p; PaperHeight := PaperHeight p;
     PageSize := PageSize p; Orientation := Orientation p; MarginTop := v;
     MarginBottom := MarginBottom p; MarginLeft := MarginLeft p;
     MarginRight := MarginRight p |}.

Definition set_MarginBottom (v : option sizes.Length) (p : PageParameters) :=
  {| PaperWidth := PaperWidth p; PaperHeight := PaperHeight p;
     PageSize := PageSize p; Orientation := Orientation p;
     MarginTop := MarginTop p; MarginBottom := v;
     MarginLeft := MarginLeft p; MarginRight := MarginRight p |}.

Definition set_MarginLeft (v : option sizes.Length) (p : PageParameters) :=
  {| PaperWidth := PaperWidth p; PaperHeight := PaperHeight p;
     PageSize := PageSize p; Orientation := Orientation p;
     MarginTop := MarginTop p; MarginBottom := MarginBottom p;
     MarginLeft := v; MarginRight := MarginRight p |}.

Definition set_MarginRight (v : option sizes.Length) (p : PageParameters) :=
  {| PaperWidth := PaperWidth p; PaperHeight := PaperHeight p;
     PageSize := PageSize p; Orientation := Orientation p;
     MarginTop := MarginTop p; MarginBottom := MarginBottom p;
     MarginLeft := MarginLeft p; MarginRight := v |}.

Definition set_WaitTime (d : time.Duration) (r : RenderParameters) :=
  {| WaitTime := d; WaitReady := WaitReady r; WaitVisible := WaitVisible r |}.

Definition set_WaitReady (l : list BySelector) (r : RenderParameters) :=
  {| WaitTime := WaitTime r; WaitReady := l; WaitVisible := WaitVisible r |}.

Definition set_WaitVisible (l : list BySelector) (r : RenderParameters) :=
  {| WaitTime := WaitTime r; WaitReady := WaitReady r; WaitVisible := l |}.

(** [q.query.PageParameters.F = v], [q.query.RenderParameters.F = v] and
    [q.query.TimeoutDuration = d] on the builder's draft. *)
Definition on_PageParameters (f : PageParameters -> PageParameters)
           (q : QueryBuilder) : QueryBuilder :=
  {| query :=
       {| Content := Content (query q); ContentType := ContentType (query q);
          URL := URL (query q); Method := Method (query q);
          Query_PageParameters := f (Query_PageParameters (query q));
          Query_RenderParameters := Query_RenderParameters (query q);
          TimeoutDuration := TimeoutDuration (query q) |};
     err := err q |}.

Definition on_RenderParameters (f : RenderParameters -> RenderParameters)
           (q : QueryBuilder) : QueryBuilder :=
  {| query :=
       {| Content := Content (query q); ContentType := ContentType (query q);
          URL := URL (query q); Method := Method (query q);
          Query_PageParameters := Query_PageParameters (query q);
          Query_RenderParameters := f (Query_RenderParameters (query q));
          TimeoutDuration := TimeoutDuration (query q) |};
     err := err q |}.

Definition set_TimeoutDuration (d : time.Duration) (q : QueryBuilder)
  : QueryBuilder :=
  {| query :=
       {| Content := Content (query q); ContentType := ContentType (query q);
          URL := URL (query q); Method := Method (query q);
          Query_PageParameters := Query_PageParameters (query q);
          Query_RenderParameters := Query_RenderParameters (query q);
          TimeoutDuration := d |};
     err := err q |}.

(** [q.err = e]. *)
Definition set_err (e : error) (q : QueryBuilder) : QueryBuilder :=
  {| query := query q; err := Some e |}.

(** The assignments of [SetContent]'s two successful branches. *)
Definition set_content (data : list byte) (contentType method : string)
           (q : QueryBuilder) : QueryBuilder :=
  {| query :=
       {| Content := data; ContentType := contentType;
          URL := URL (query q); Method := method;
          Query_PageParameters := Query_PageParameters (query q);
          Query_RenderParameters := Query_RenderParameters (query q);
          TimeoutDuration := TimeoutDuration (query q) |};
     err := err q |}.

Definition set_url (url contentType method : string)
           (q : QueryBuilder) : QueryBuilder :=
  {| query :=
       {| Content := Content (query q); ContentType := contentType;
          URL := url; Method := method;
          Query_PageParameters := Query_PageParameters (query q);
          Query_RenderParameters := Query_RenderParameters (query q);
          TimeoutDuration := TimeoutDuration (query q) |};
     err := err q |}.

(** *** Client options *)

(** [o.DefaultTimeout = d], [o.Port = n], [o.HTTPS = b], [o.Hostname = s]
    and [o.Prefix = s]. *)
Definition set_DefaultTimeout (d : time.Duration) (o : Options) : Options :=
  {| HTTPS := HTTPS o; Hostname := Hostname o; Port := Port o;
     DefaultTimeout := d; Prefix := Prefix o |}.

Definition set_Port (n : Z) (o : Options) : Options :=
  {| HTTPS := HTTPS o; Hostname := Hostname o; Port := n;
     DefaultTimeout := DefaultTimeout o; Prefix := Prefix o |}.

Definition set_HTTPS (b : bool) (o : Options) : Options :=
  {| HTTPS := b; Hostname := Hostname o; Port := Port o;
     DefaultTimeout := DefaultTimeout o; Prefix := Prefix o |}.

Definition set_Hostname (s : string) (o : Options) : Options :=
  {| HTTPS := HTTPS o; Hostname := s; Port := Port o;
     DefaultTimeout := DefaultTimeout o; Prefix := Prefix o |}.

Definition set_Prefix (s : string) (o : Options) : Options :=
  {| HTTPS := HTTPS o; Hostname := Hostname o; Port := Port o;
     DefaultTimeout := DefaultTimeout o; Prefix := s |}.

Definition WithDefaultTimeout (option : time.Duration) : Option :=
  fun o => set_DefaultTimeout option o.

Definition WithPort (option : Z) : Option := fun o => set_Port option o.

Definition WithHTTPS (useHTTPS : bool) : Option := fun o => set_HTTPS useHTTPS o.

Definition WithHostname (option : string) : Option :=
  fun o => set_Hostname option o.

Definition WithPrefix (prefix : string) : Option := fun o => set_Prefix prefix o.

Module Options.
(** [func (o *Options) Addr() string]. *)
Definition Addr (o : Options) : string :=
  "http" ++ (if HTTPS o then "s" else "") ++ "://" ++ Hostname o ++ ":"
  ++ Itoa (Port o)
  ++ (if String.eqb (Prefix o) "" then "" else Prefix o).
End Options.

(** [New]: the three assignments to the copy [o], then the client built
    from it.  The transport's dial and handshake timeouts are constants
    and the log line has no effect on the result. *)
Definition New (o : Options) : Client :=
  let o := set_DefaultTimeout (time.Second * 30) o in
  let o := if Port o <=? 0 then set_Port 8080 o else o in
  let o := if String.eqb (Hostname o) "" then set_Hostname "127.0.0.1" o else o in
  {| Client_Options := o;
     Client_Client := {| http.Timeout := DefaultTimeout o |} |}.

(** *** Validation *)

Module BySelector.
Definition Validate (b : BySelector) : option error :=
  if String.eqb (Selector b) "" then Some (errors_New "provided empty selector")
  else check selector.Validate (By b) ;; None.
End BySelector.

Module RenderParameters.
(** The loop [for _, s := range rp.WaitReady] of [Validate]. *)
Fixpoint Validate_range (l : list client.BySelector) : option error :=
  match l with
  | [] => None
  | s :: rest =>
      match BySelector.Validate s with
      | Some e =>
          Some (fmt_Errorf_w
                  ("one of wait ready selector is not valid: " ++ Error e) e)
      | None => Validate_range rest
      end
  end.

Definition Validate (rp : RenderParameters) : option error :=
  if WaitTime rp >? time.Minute * 3
  then Some (errors_New "too long minimum load time. Maximum is 3 minutes")
  else Validate_range (WaitReady rp).
End RenderParameters.

Module PageParameters.
(** [if l != nil { if l.Millimeters() < 0 { return errors.New(msg) } }]. *)
Definition negative (l : option sizes.Length) (msg : string) : option error :=
  match l with
  | Some v =>
      if (sizes.Millimeters v <? 0)%float then Some (errors_New msg) else None
  | None => None
  end.

Definition Validate (p : PageParameters) : option error :=
  check negative (PaperWidth p) "negative value for PaperWidth" ;;
  check negative (PaperHeight p) "negative value for PaperHeight" ;;
  check negative (MarginTop p) "negative value for MarginTop" ;;
  check negative (MarginBottom p) "negative value for MarginBottom" ;;
  check negative (MarginLeft p) "negative value for MarginLeft" ;;
  check negative (MarginRight p) "negative value for MarginRight" ;;
  match PageSize p with
  | Some ps =>
      if negb (sizes.IsAPageSize ps) then Some (errors_New "invalid page size")
      else None
  | None => None
  end.
End PageParameters.

Module Query.
(** The [switch q.Method] of [Validate]. *)
Definition Validate_content (q : Query) : option error :=
  if String.eqb (Method q) "web" then
    if String.eqb (URL q) "" then Some ErrMissingData else None
  else if String.eqb (Method q) "dir" || String.eqb (Method q) "html" then
    if (Z.of_nat (length (Content q)) =? 0) then Some ErrMissingData
    else if String.eqb (ContentType q) "" then Some ErrContentType
    else None
  else Some (errors_New ("undefined content query method: " ++ Method q)).

Definition Validate (q : Query) : option error :=
  check Validate_content q ;;
  check PageParameters.Validate (Query_PageParameters q) ;;
  check RenderParameters.Validate (Query_RenderParameters q) ;;
  None.
End Query.

(** *** The builder *)

Definition BuildHTMLQuery : QueryBuilder :=
  {| query := zero_Query; err := None |}.

Definition DefaultPageParameters : PageParameters :=
  set_Orientation sizes.Portrait zero_PageParameters.

Module QueryBuilder.

Definition SetContent (content : content.Content) (q : QueryBuilder)
  : QueryBuilder :=
  match err q with
  | Some _ => q
  | None =>
      let method := content.Method content in
      if String.eqb method "dir" || String.eqb method "html" then
        if negb (String.eqb (ContentType (query q)) "") then
          set_err ErrContentTypeDeclared q
        else if String.eqb (content.ContentType content) "" then
          set_err (fmt_Errorf_w
                     ("empty custom content type " ++ Error ErrContentType)
                     ErrContentType) q
        else
          set_content (content.Data content) (content.ContentType content)
                      method q
      else if String.eqb method "web" then
        if negb (String.eqb (ContentType (query q)) "") then
          set_err ErrContentTypeDeclared q
        else
          set_url (string_of_list_byte (content.Data content))
                  (content.ContentType content) method q
      else
        set_err (errors_New ("invalid content method: " ++ method)) q
  end.

Definition PaperWidth (paperWidth : option sizes.Length) :=
  on_PageParameters (set_PaperWidth paperWidth).

Definition PaperHeight (paperHeight : option sizes.Length) :=
  on_PageParameters (set_PaperHeight paperHeight).

Definition PageSize (pageSize : sizes.PageSize) (q : QueryBuilder)
  : QueryBuilder :=
  if negb (pageSize =? sizes.Undefined)
  then on_PageParameters (set_PageSize (Some pageSize)) q
  else q.

Definition Orientation (orientation : sizes.Orientation) :=
  on_PageParameters (set_Orientation orientation).

Definition Portrait := on_PageParameters (set_Orientation sizes.Portrait).

Definition Landscape := on_PageParameters (set_Orientation sizes.Landscape).

Definition MarginTop (marginTop : option sizes.Length) :=
  on_PageParameters (set_MarginTop marginTop).

Definition MarginBottom (marginBottom : option sizes.Length) :=
  on_PageParameters (set_MarginBottom marginBottom).

Definition MarginLeft (marginLeft : option sizes.Length) :=
  on_PageParameters (set_MarginLeft marginLeft).

Definition MarginRight (marginRight : option sizes.Length) :=
  on_PageParameters (set_MarginRight marginRight).

Definition WaitTime (d : time.Duration) :=
  on_RenderParameters (set_WaitTime d).

Definition WaitReady (selector : string) (by_ : selector.ByType) :=
  on_RenderParameters
    (fun r => set_WaitReady
                (WaitReady r ++ [{| Selector := selector; By := by_ |}]) r).

Definition WaitVisible (selector : string) (by_ : selector.ByType) :=
  on_RenderParameters
    (fun r => set_WaitVisible
                (WaitVisible r ++ [{| Selector := selector; By := by_ |}]) r).

Definition TimeoutDuration (d : time.Duration) := set_TimeoutDuration d.

Definition Validate (q : QueryBuilder) : option error :=
  match err q with
  | Some e => Some e
  | None => Query.Validate (query q)
  end.

(** [Query()]: the draft, or the error of [Validate]. *)
Definition Query (q : QueryBuilder) : result client.Query :=
  match Validate q with
  | Some e => Err e
  | None => Ok (query q)
  end.

Definition Err (q : QueryBuilder) : option error := err q.

End QueryBuilder.

(** *** The conversion call *)

(** One exchange on the wire: the [http.Client] value whose [Do] ran
    (its [Timeout] bounds the exchange) and the request it sent. *)
Definition Call : Type := http.Client * http.Request.

(** What [ConvertHTML] leaves to other packages: the JSON encoder, the
    request constructor, the round trip to the server (which may answer
    by the exchanges made so far) and the two decoders. *)
Record Env : Type := {
  json_Encode : generatePDFRequestV1 -> result (list byte);
  http_NewRequest : string -> string -> list byte -> result http.Request;
  http_Do : list Call -> http.Client -> http.Request -> result http.Response;
  gzip_NewReader : Stream -> result Stream;
  flate_NewReader : Stream -> Stream
}.

Definition getGenerateRequest (env : Env) (cli : Client) (q : Query)
  : result http.Request :=
  let reqData (contentURL contentType : string) (content : list byte) :=
    {| v1_Content := content; v1_ContentType := contentType;
       v1_ContentURL := contentURL; v1_Method := Method q;
       v1_ExpiresAt := 0; v1_TimeoutDuration := TimeoutDuration q;
       v1_PageParameters := Query_PageParameters q;
       v1_RenderParameters := Query_RenderParameters q |} in
  let reqData :=
    if String.eqb (Method q) "web" then reqData (URL q) "" []
    else if String.eqb (Method q) "dir" || String.eqb (Method q) "html"
         then reqData "" (ContentType q) (Content q)
         else reqData "" "" [] in
  match json_Encode env reqData with
  | Err e => Err (errors_New ("encoding request failed: " ++ Error e))
  | Ok buf =>
      let url := (Options.Addr (Client_Options cli) ++ "/v1/pdf")%string in
      do req <- http_NewRequest env "POST" url buf ;;
      Ok (http.Request_setHeader
            "Accept-Encoding" "deflate, gzip;q=1.0, *;q=0.5"
            (http.Request_setHeader "Content-Type" "application/json" req))
  end.

(** [switch resp.StatusCode]: the value left in [httpErr]. *)
Definition httpErr (StatusCode : Z) : option error :=
  if StatusCode =? http.StatusNotFound then Some ErrNotFound
  else if StatusCode =? http.StatusBadRequest then Some ErrBadRequest
  else if StatusCode =? http.StatusNotImplemented then Some ErrNotImplemented
  else if StatusCode =? http.StatusUnauthorized then Some ErrUnauthorized
  else if StatusCode =? http.StatusRequestTimeout then Some ErrTimedOut
  else if StatusCode =? http.StatusCreated then None
  else Some ErrInternalError.

(** [switch resp.Header.Get("Content-Encoding")]: the reader, or the
    early return. *)
Definition reader (env : Env) (resp : http.Response) : result Stream :=
  let encoding := http.Header_Get (http.Response_Header resp) "Content-Encoding" in
  if String.eqb encoding "gzip" then gzip_NewReader env (http.Response_Body resp)
  else if String.eqb encoding "deflate"
       then Ok (flate_NewReader env (http.Response_Body resp))
  else if String.eqb encoding "" then Ok (http.Response_Body resp)
  else Err (errors_New
              ("unsupported Content-Encoding: " ++ encoding ++ " header")).

(** [ConvertHTML] from the status switch on, for the response [resp]. *)
Definition ConvertHTML_response (env : Env) (resp : http.Response)
  : result PDFResponse :=
  let httpErr := httpErr (http.StatusCode resp) in
  do reader <- reader env resp ;;
  let '(data, readErr) := io_ReadAll reader in
  match readErr, httpErr with
  | Some readErr, None =>
      Err (errors_New ("UniHTML server error " ++ Error readErr))
  | _, Some httpErr =>
      Err (fmt_Errorf_w (string_of_list_byte data ++ " " ++ Error httpErr)
                        httpErr)
  | None, None =>
      let jobID := http.Header_Get (http.Response_Header resp) "X-Job-ID" in
      Ok {| ID := jobID; Data := data |}
  end.

(** The local [httpClient]: a copy of [*cli.Client], with the timeout
    of the query when that is not zero. *)
Definition httpClient (cli : Client) (q : Query) : http.Client :=
  let httpClient := Client_Client cli in
  if negb (TimeoutDuration q =? 0)
  then {| http.Timeout := TimeoutDuration q |}
  else httpClient.

(** [ConvertHTML], with the state it runs in made explicit: the client
    behind the receiver and the exchanges made so far.  It returns the
    result, the client after the call and the exchanges after the call.
    The context only cancels the exchange; that is part of [http_Do]. *)
Definition ConvertHTML (env : Env) (cli : Client) (q : Query) (net : list Call)
  : result PDFResponse * Client * list Call :=
  match Query.Validate q with
  | Some e => (Err e, cli, net)
  | None =>
      match getGenerateRequest env cli q with
      | Err e => (Err e, cli, net)
      | Ok req =>
          let httpClient := httpClient cli q in
          match http_Do env net httpClient req with
          | Err e => (Err e, cli, net ++ [(httpClient, req)])
          | Ok resp =>
              (ConvertHTML_response env resp, cli, net ++ [(httpClient, req)])
          end
      end
  end.

(** [HealthCheck], with the state made explicit as for [ConvertHTML].  The
    request has no body; the exchange is made by the client's own
    [http.Client]. *)
Definition HealthCheck (env : Env) (cli : Client) (net : list Call)
  : option error * Client * list Call :=
  let address := Options.Addr (Client_Options cli) in
  let address := (address ++ "/health")%string in
  match http_NewRequest env "GET" address [] with
  | Err err => (Some err, cli, net)
  | Ok req =>
      match http_Do env net (Client_Client cli) req with
      | Err err => (Some err, cli, net ++ [(Client_Client cli, req)])
      | Ok resp =>
          let code := http.StatusCode resp in
          let result :=
            if code =? http.StatusOK then None
            else if code =? http.StatusNotFound then Some ErrNotFound
            else if code =? http.StatusInternalServerError
                 then Some ErrInternalError
            else if code =? http.StatusBadGateway then Some ErrBadGateway
            else Some ErrNotImplemented in
          (result, cli, net ++ [(Client_Client cli, req)])
      end
  end.


End client.

(** ** The document assembler (package main of the plugin) *)

Module html.

Definition ErrNoClient : error := errors_New "UniHTML client not found".
Definition ErrContentNotDefined : error :=
  errors_New "html document content not defined".

(** Modelled from the spec: [creator.Positioning] of gopdf, the relative
    (the document flows inside a container) and the absolute positioning
    mode, with its method [IsRelative]. *)
Inductive Positioning : Type :=
| PositionRelative
| PositionAbsolute.

Definition IsRelative (p : Positioning) : bool :=
  match p with
  | PositionRelative => true
  | PositionAbsolute => false
  end.

Record margins : Type := {
  Left : option sizes.Length;
  Right : option sizes.Length;
  Bottom : option sizes.Length;
  Top : option sizes.Length
}.

Record Document : Type := {
  content : option content.Content;
  Document_margins : margins;
  position : Positioning;
  posX : float;
  posY : float;
  pageSize : sizes.PageSize;
  pageWidth : option sizes.Length;
  pageHeight : option sizes.Length;
  orientation : sizes.Orientation;
  trimLast : bool;
  waitTime : time.Duration;
  waitReady : list client.BySelector;
  waitVisible : list client.BySelector;
  timeout : option time.Duration
}.

(** The plugin's [Options]. *)
Record Options : Type := {
  Hostname : string;
  Port : Z;
  Secure : bool;
  Prefix : string
}.

(** Field assignments on a document. *)
Definition set_margins (m : margins) (d : Document) : Document :=
  {| content := content d; Document_margins := m; position := position d;
     posX := posX d; posY := posY d; pageSize := pageSize d;
     pageWidth := pageWidth d; pageHeight := pageHeight d;
     orientation := orientation d; trimLast := trimLast d;
     waitTime := waitTime d; waitReady := waitReady d;
     waitVisible := waitVisible d; timeout := timeout d |}.

Definition set_position (p : Positioning) (d : Document) : Document :=
  {| content := content d; Document_margins := Document_margins d;
     position := p; posX := posX d; posY := posY d; pageSize := pageSize d;
     pageWidth := pageWidth d; pageHeight := pageHeight d;
     orientation := orientation d; trimLast := trimLast d;
     waitTime := waitTime d; waitReady := waitReady d;
     waitVisible := waitVisible d; timeout := timeout d |}.

Definition set_pageSize (ps : sizes.PageSize) (d : Document) : Document :=
  {| content := content d; Document_margins := Document_margins d;
     position := position d; posX := posX d; posY := posY d; pageSize := ps;
     pageWidth := pageWidth d; pageHeight := pageHeight d;
     orientation := orientation d; trimLast := trimLast d;
     waitTime := waitTime d; waitReady := waitReady d;
     waitVisible := waitVisible d; timeout := timeout d |}.

Definition set_waitReady (l : list client.BySelector) (d : Document) : Document :=
  {| content := content d; Document_margins := Document_margins d;
     position := position d; posX := posX d; posY := posY d;
     pageSize := pageSize d; pageWidth := pageWidth d;
     pageHeight := pageHeight d; orientation := orientation d;
     trimLast := trimLast d; waitTime := waitTime d; waitReady := l;
     waitVisible := waitVisible d; timeout := timeout d |}.

Definition set_waitVisible (l : list client.BySelector) (d : Document) : Document :=
  {| content := content d; Document_margins := Document_margins d;
     position := position d; posX := posX d; posY := posY d;
     pageSize := pageSize d; pageWidth := pageWidth d;
     pageHeight := pageHeight d; orientation := orientation d;
     trimLast := trimLast d; waitTime := waitTime d; waitReady := waitReady d;
     waitVisible := l; timeout := timeout d |}.

(** [SetMargins]: the four margins in points, and absolute positioning. *)
Definition SetMargins (left right top bottom : float) (d : Document) : Document :=
  set_position PositionAbsolute
    (set_margins {| Left := Some (sizes.of_Point left);
                    Right := Some (sizes.of_Point right);
                    Bottom := Some (sizes.of_Point bottom);
                    Top := Some (sizes.of_Point top) |} d).

(** [SetPageSize]: the document after the call, with the error. *)
Definition SetPageSize (ps : sizes.PageSize) (d : Document)
  : Document * option error :=
  if negb (sizes.IsAPageSize ps)
  then (d, Some (errors_New "provided invalid page size"))
  else (set_position PositionAbsolute (set_pageSize ps d), None).

Definition getTimeoutDuration (d : Document) : time.Duration :=
  match timeout d with
  | Some t => t
  | None => 0
  end.

(** [WaitReady(sel, by...)] and [WaitVisible(sel, by...)]: the lookup
    strategy is the first of the variadic arguments, [BySearch] without
    one. *)
Definition WaitReady (sel : string) (by_ : list selector.ByType) (d : Document)
  : Document :=
  let byType := match by_ with b :: _ => b | [] => selector.BySearch end in
  set_waitReady
    (waitReady d ++ [{| client.Selector := sel; client.By := byType |}]) d.

Definition WaitVisible (sel : string) (by_ : list selector.ByType) (d : Document)
  : Document :=
  let byType := match by_ with b :: _ => b | [] => selector.BySearch end in
  set_waitVisible
    (waitVisible d ++ [{| client.Selector := sel; client.By := byType |}]) d.

(** [validate], reading the package variable [unihtmlClient]. *)
Definition validate (unihtmlClient : option client.Client) (d : Document)
  : option error :=
  match unihtmlClient with
  | None => Some ErrNoClient
  | Some _ =>
      match content d with
      | None => Some ErrContentNotDefined
      | Some _ => None
      end
  end.

Definition getMargins (d : Document) : margins :=
  let m := Document_margins d in
  if IsRelative (position d) then
    {| Left := Some (sizes.of_Millimeter 1%float);
       Right := Some (sizes.of_Millimeter 1%float);
       Bottom := Some (sizes.of_Millimeter 1%float);
       Top := Some (sizes.of_Millimeter 1%float) |}
  else
    let top :=
      match Top m with None => Some (sizes.of_Millimeter 10%float) | t => t end in
    let bottom :=
      match Bottom m with None => Some (sizes.of_Millimeter 10%float) | b => b end in
    let left :=
      match Left m with None => Some (sizes.of_Millimeter 10%float) | l => l end in
    let right :=
      match Right m with None => Some (sizes.of_Millimeter 10%float) | r => r end in
    {| Left := left; Right := right; Bottom := bottom; Top := top |}.

(** The builder chain of [extract] and its two loops over the wait
    conditions, for the content [c] of the document. *)
Definition extract_query (c : content.Content) (d : Document)
           (w h : option sizes.Length) (m : margins) : client.QueryBuilder :=
  let query :=
    client.QueryBuilder.WaitTime (waitTime d)
      (client.QueryBuilder.TimeoutDuration (getTimeoutDuration d)
         (client.QueryBuilder.MarginBottom (Bottom m)
            (client.QueryBuilder.MarginTop (Top m)
               (client.QueryBuilder.MarginRight (Right m)
                  (client.QueryBuilder.MarginLeft (Left m)
                     (client.QueryBuilder.Orientation (orientation d)
                        (client.QueryBuilder.PaperHeight h
                           (client.QueryBuilder.PaperWidth w
                              (client.QueryBuilder.PageSize (pageSize d)
                                 (client.QueryBuilder.SetContent c
                                    client.BuildHTMLQuery)))))))))) in
  let query :=
    fold_left
      (fun q sel =>
         client.QueryBuilder.WaitReady (client.Selector sel) (client.By sel) q)
      (waitReady d) query in
  fold_left
    (fun q sel =>
       client.QueryBuilder.WaitVisible (client.Selector sel) (client.By sel) q)
    (waitVisible d) query.

Section Extract.

(** The pages of gopdf and its reader, left to that package. *)
Variable Page : Type.
Variable NewPdfReader : list byte -> result (list Page).

(** [extract], for a document with content [c] and the client [cli]
    behind [unihtmlClient]; the deadline of the context is part of the
    round trip. *)
Definition extract (env : client.Env) (cli : client.Client)
           (c : content.Content) (d : Document) (w h : option sizes.Length)
           (m : margins) (net : list client.Call)
  : result (list Page) * client.Client * list client.Call :=
  match client.QueryBuilder.Query (extract_query c d w h m) with
  | Err err => (Err err, cli, net)
  | Ok req =>
      match client.ConvertHTML env cli req net with
      | (Err err, cli', net') => (Err err, cli', net')
      | (Ok resp, cli', net') => (NewPdfReader (client.Data resp), cli', net')
      end
  end.

(** [GetPdfPages]: [validate], then [extract] with the document's own
    width and height and the margins of [getMargins].  Past [validate]
    the client and the content are there. *)
Definition GetPdfPages (env : client.Env) (unihtmlClient : option client.Client)
           (d : Document) (net : list client.Call)
  : result (list Page) * option client.Client * list client.Call :=
  match validate unihtmlClient d with
  | Some err => (Err err, unihtmlClient, net)
  | None =>
      match unihtmlClient, content d with
      | Some cli, Some c =>
          match extract env cli c d (pageWidth d) (pageHeight d)
                        (getMargins d) net with
          | (r, cli', net') => (r, Some cli', net')
          end
      | _, _ => (Err ErrNoClient, unihtmlClient, net)
      end
  end.

End Extract.

(** [ConnectOptions]: the package variable [unihtmlClient] after the call,
    the error and the exchanges. *)
Definition ConnectOptions (env : client.Env) (o : Options)
           (net : list client.Call)
  : option error * option client.Client * list client.Call :=
  let unihtmlClient :=
    client.New {| client.HTTPS := Secure o; client.Hostname := Hostname o;
                  client.Port := Port o; client.DefaultTimeout := 0;
                  client.Prefix := "" |} in
  match client.HealthCheck env unihtmlClient net with
  | (err, cli', net') => (err, Some cli', net')
  end.

(** [image.Rectangle] and [image.Image]: the bounds, and for every point
    the red, green and blue channel of [At(x, y).RGBA()]. *)
Record Rectangle : Type := {
  Min_X : Z;
  Min_Y : Z;
  Max_X : Z;
  Max_Y : Z
}.

Record Image : Type := {
  Bounds : Rectangle;
  At_RGBA : Z -> Z -> Z * Z * Z
}.

Definition MaxUint16 : Z := 65535.

(** The conversion [float64(n)] of an integer: the nearest binary64
    value. *)
Definition float64_of_int (n : Z) : float :=
  SF2Prim (binary_normalize prec emax n 0 false).

(** [math.Abs(float64(c)-float64(r))/float64(math.MaxUint16) > 0.03]. *)
Definition channelDiffers (c r : Z) : bool :=
  (0.03 <? abs (float64_of_int c - float64_of_int r) / float64_of_int MaxUint16)%float.

(** The condition of the inner loop of [detectTrimHeight] for one pixel. *)
Definition pixelHasContent (isWhite : bool) (ref px : Z * Z * Z) : bool :=
  let '(r, g, b) := ref in
  let '(cr, cg, cb) := px in
  (isWhite && negb ((cr =? r) && (cg =? g) && (cb =? b)))
  || (negb isWhite
      && (channelDiffers cr r || channelDiffers cg g || channelDiffers cb b)).

(** The inner loop: [rowHasContent] after the scan of row [y]. *)
Definition rowHasContent (img : Image) (isWhite : bool) (ref : Z * Z * Z)
           (y : Z) : bool :=
  existsb
    (fun x => pixelHasContent isWhite ref (At_RGBA img x y))
    (map (fun i => Min_X (Bounds img) + Z.of_nat i)
         (seq 0 (Z.to_nat (Max_X (Bounds img) - Min_X (Bounds img))))).

(** The outer loop, from row [y] upwards for at most [n] rows:
    [lastNonEmptyY] when the loop ends. *)
Fixpoint scanRows (img : Image) (isWhite : bool) (ref : Z * Z * Z)
         (n : nat) (y lastNonEmptyY : Z) : Z :=
  match n with
  | O => lastNonEmptyY
  | S n' =>
      if rowHasContent img isWhite ref y then lastNonEmptyY
      else scanRows img isWhite ref n' (y - 1) y
  end.

Definition detectTrimHeight (img : Image) : float :=
  let bounds := Bounds img in
  let ref := At_RGBA img (Min_X bounds) (Max_Y bounds - 1) in
  let '(r, g, b) := ref in
  let isWhite := (r =? MaxUint16) && (g =? MaxUint16) && (b =? MaxUint16) in
  let lastNonEmptyY :=
    scanRows img isWhite ref (Z.to_nat (Max_Y bounds - Min_Y bounds))
             (Max_Y bounds - 1) 0 in
  (float64_of_int (Max_Y bounds - lastNonEmptyY)
   / float64_of_int (Max_Y bounds))%float.

(** The height cut from the last page in [GeneratePageBlocks], from the
    height of the media box and the ratio of [detectTrimHeight]. *)
Definition trimHeight (d : Document) (mboxHeight trimRatio : float) : float :=
  let trimHeight := (mboxHeight * trimRatio)%float in
  let trimHeight :=
    match Bottom (Document_margins d) with
    | Some bottom => (trimHeight - sizes.Points bottom)%float
    | None => trimHeight
    end in
  if (trimHeight <? 0)%float then 0%float else trimHeight.


End html.


(** * Vocabulary of the properties

    The enumerations the statements below range over, and the concrete
    inputs they are evaluated at. *)

(** The page-size enumeration, by the names of its constants. *)
Definition enumerated : list sizes.PageSize :=
  [sizes.Undefined; sizes.A0; sizes.A1; sizes.A2; sizes.A3; sizes.A4;
   sizes.A5; sizes.A6; sizes.A7; sizes.A8; sizes.A9; sizes.A10;
   sizes.B0; sizes.B1; sizes.B2; sizes.B3; sizes.B4; sizes.B5; sizes.B6;
   sizes.B7; sizes.B8; sizes.B9; sizes.B10; sizes.Letter].

(** A draft with method "html" and neither content nor content type. *)
Definition query_html_empty : client.Query :=
  {| client.Content := []; client.ContentType := ""; client.URL := "";
     client.Method := "html";
     client.Query_PageParameters := client.zero_PageParameters;
     client.Query_RenderParameters := client.zero_RenderParameters;
     client.TimeoutDuration := 0 |}.

(** A wait condition with an empty selector. *)
Definition empty_selector : client.BySelector :=
  {| client.Selector := ""; client.By := selector.ByID |}.

(** Render parameters whose only wait condition, the empty selector,
    stands in the wait-visible list. *)
Definition render_visible_empty_selector : client.RenderParameters :=
  {| client.WaitTime := 0; client.WaitReady := [];
     client.WaitVisible := [empty_selector] |}.

(** The same condition in the wait-ready list. *)
Definition render_ready_empty_selector : client.RenderParameters :=
  {| client.WaitTime := 0; client.WaitReady := [empty_selector];
     client.WaitVisible := [] |}.

(** A wait condition is valid when its selector is not empty and its
    lookup strategy is one of [ByID] .. [BySearch]. *)
Definition valid_condition (b : client.BySelector) : Prop :=
  client.Selector b <> ""
  /\ (selector.ByID <= client.By b <= selector.BySearch)%N.

(** Options given by a caller who also asked for a 5 second default. *)
Definition options_example : client.Options :=
  {| client.HTTPS := false; client.Hostname := ""; client.Port := 0;
     client.DefaultTimeout := 5 * time.Second; client.Prefix := "" |}.


(** The six dimensions of [PageParameters], with their field and the
    name the error message gives them. *)
Inductive dimension : Type :=
| DimPaperWidth
| DimPaperHeight
| DimMarginTop
| DimMarginBottom
| DimMarginLeft
| DimMarginRight.

#[global] Instance dimension_eq_dec : EqDecision dimension.
Proof. solve_decision. Defined.

Definition dimension_get (d : dimension) (p : client.PageParameters)
  : option sizes.Length :=
  match d with
  | DimPaperWidth => client.PaperWidth p
  | DimPaperHeight => client.PaperHeight p
  | DimMarginTop => client.MarginTop p
  | DimMarginBottom => client.MarginBottom p
  | DimMarginLeft => client.MarginLeft p
  | DimMarginRight => client.MarginRight p
  end.

Definition dimension_set (d : dimension) (v : option sizes.Length)
           (p : client.PageParameters) : client.PageParameters :=
  match d with
  | DimPaperWidth => client.set_PaperWidth v p
  | DimPaperHeight => client.set_PaperHeight v p
  | DimMarginTop => client.set_MarginTop v p
  | DimMarginBottom => client.set_MarginBottom v p
  | DimMarginLeft => client.set_MarginLeft v p
  | DimMarginRight => client.set_MarginRight v p
  end.

Definition dimension_name (d : dimension) : string :=
  match d with
  | DimPaperWidth => "PaperWidth"
  | DimPaperHeight => "PaperHeight"
  | DimMarginTop => "MarginTop"
  | DimMarginBottom => "MarginBottom"
  | DimMarginLeft => "MarginLeft"
  | DimMarginRight => "MarginRight"
  end.

(** Absent, or at least zero millimeters. *)
Definition non_negative (l : option sizes.Length) : Prop :=
  match l with
  | None => True
  | Some v => (0 <=? sizes.Millimeters v)%float = true
  end.

(** Present and below zero millimeters. *)
Definition is_negative (l : option sizes.Length) : Prop :=
  match l with
  | None => False
  | Some v => (sizes.Millimeters v <? 0)%float = true
  end.

(** No page size set, or one of the enumeration. *)
Definition page_size_recognized (p : client.PageParameters) : Prop :=
  match client.PageSize p with
  | None => True
  | Some ps => In ps enumerated
  end.

(** Page parameters with a paper width of minus one inch and nothing
    else set. *)
Definition page_negative_width : client.PageParameters :=
  client.set_PaperWidth (Some (sizes.of_Inch (-1)%float))
                        client.zero_PageParameters.

(** The setter calls of the builder, with their arguments. *)
Inductive setter : Type :=
| Call_SetContent (c : content.Content)
| Call_PaperWidth (l : option sizes.Length)
| Call_PaperHeight (l : option sizes.Length)
| Call_PageSize (ps : sizes.PageSize)
| Call_Orientation (o : sizes.Orientation)
| Call_Portrait
| Call_Landscape
| Call_MarginTop (l : option sizes.Length)
| Call_MarginBottom (l : option sizes.Length)
| Call_MarginLeft (l : option sizes.Length)
| Call_MarginRight (l : option sizes.Length)
| Call_WaitTime (d : time.Duration)
| Call_WaitReady (sel : string) (by_ : selector.ByType)
| Call_WaitVisible (sel : string) (by_ : selector.ByType)
| Call_TimeoutDuration (d : time.Duration).

Definition call (s : setter) (q : client.QueryBuilder) : client.QueryBuilder :=
  match s with
  | Call_SetContent c => client.QueryBuilder.SetContent c q
  | Call_PaperWidth l => client.QueryBuilder.PaperWidth l q
  | Call_PaperHeight l => client.QueryBuilder.PaperHeight l q
  | Call_PageSize ps => client.QueryBuilder.PageSize ps q
  | Call_Orientation o => client.QueryBuilder.Orientation o q
  | Call_Portrait => client.QueryBuilder.Portrait q
  | Call_Landscape => client.QueryBuilder.Landscape q
  | Call_MarginTop l => client.QueryBuilder.MarginTop l q
  | Call_MarginBottom l => client.QueryBuilder.MarginBottom l q
  | Call_MarginLeft l => client.QueryBuilder.MarginLeft l q
  | Call_MarginRight l => client.QueryBuilder.MarginRight l q
  | Call_WaitTime d => client.QueryBuilder.WaitTime d q
  | Call_WaitReady sel by_ => client.QueryBuilder.WaitReady sel by_ q
  | Call_WaitVisible sel by_ => client.QueryBuilder.WaitVisible sel by_ q
  | Call_TimeoutDuration d => client.QueryBuilder.TimeoutDuration d q
  end.




(** The three components of what [ConvertHTML] returns in the model. *)
Definition returned (r : result client.PDFResponse * client.Client * list client.Call)
  : result client.PDFResponse := fst (fst r).

Definition client_after (r : result client.PDFResponse * client.Client * list client.Call)
  : client.Client := snd (fst r).

Definition exchanges_after (r : result client.PDFResponse * client.Client * list client.Call)
  : list client.Call := snd r.

(** The conversion call of [q] on [cli], after the exchanges [net], got
    the response [resp]: the query validated, the request [req] was built
    and the round trip returned [resp]. *)
Definition answered (env : client.Env) (cli : client.Client) (q : client.Query)
           (net : list client.Call) (req : http.Request) (resp : http.Response)
  : Prop :=
  client.Query.Validate q = None
  /\ client.getGenerateRequest env cli q = Ok req
  /\ client.http_Do env net (client.httpClient cli q) req = Ok resp.

(** The [Content-Encoding] of a response. *)
Definition encoding (resp : http.Response) : string :=
  http.Header_Get (http.Response_Header resp) "Content-Encoding".

(** The body of [resp] decodes to the stream [r]: through the gzip
    decoder, through the deflate decoder, or as it is when no encoding is
    named. *)
Definition decodes (env : client.Env) (resp : http.Response) (r : Stream) : Prop :=
  (encoding resp = "gzip"
   /\ client.gzip_NewReader env (http.Response_Body resp) = Ok r)
  \/ (encoding resp = "deflate"
      /\ client.flate_NewReader env (http.Response_Body resp) = r)
  \/ (encoding resp = "" /\ http.Response_Body resp = r).

(** The error that embeds the decoded body text and the error kind:
    [fmt.Errorf("%s %w", string(data), kind)]. *)
Definition server_error (data : list byte) (kind : error) : error :=
  fmt_Errorf_w (string_of_list_byte data ++ " " ++ Error kind) kind.

(** A stream that delivers [data] and ends cleanly. *)
Definition whole (data : list byte) : Stream :=
  {| Stream_bytes := data; Stream_err := None |}.

(** A stand-in for the gzip decoder: a body is its payload behind the
    two magic bytes 1f 8b. *)
Definition magic_NewReader (s : Stream) : result Stream :=
  match Stream_bytes s with
  | x1f :: x8b :: payload =>
      Ok {| Stream_bytes := payload; Stream_err := Stream_err s |}
  | _ => Err (errors_New "gzip: invalid header")
  end.

(** An environment for the examples: the encoder sends the content bytes,
    the request constructor accepts every URL, the server answers every
    request with [resp], and deflate is the identity. *)
Definition env_answering (resp : http.Response) : client.Env :=
  {| client.json_Encode := fun r => Ok (client.v1_Content r);
     client.http_NewRequest :=
       fun method url body =>
         Ok {| http.Request_Method := method; http.Request_URL := url;
               http.Request_Header := ∅; http.Request_Body := body |};
     client.http_Do := fun _ _ _ => Ok resp;
     client.gzip_NewReader := magic_NewReader;
     client.flate_NewReader := fun s => s |}.

Definition client_example : client.Client := client.New options_example.

(** A valid query with inline markup and the timeout override [timeout]. *)
Definition query_html (timeout : time.Duration) : client.Query :=
  {| client.Content := list_byte_of_string "<html></html>";
     client.ContentType := "text/html"; client.URL := "";
     client.Method := "html";
     client.Query_PageParameters := client.zero_PageParameters;
     client.Query_RenderParameters := client.zero_RenderParameters;
     client.TimeoutDuration := timeout |}.

(** The request [getGenerateRequest] builds for [query_html] on
    [client_example] in [env_answering]. *)
Definition request_html : http.Request :=
  {| http.Request_Method := "POST";
     http.Request_URL := "http://127.0.0.1:8080/v1/pdf";
     http.Request_Header :=
       http.Header_Set
         (http.Header_Set ∅ "Content-Type" "application/json")
         "Accept-Encoding" "deflate, gzip;q=1.0, *;q=0.5";
     http.Request_Body := list_byte_of_string "<html></html>" |}.

(** Status 404 with a body in an encoding the client does not know. *)
Definition response_404_br : http.Response :=
  {| http.StatusCode := 404;
     http.Response_Header := {[ "Content-Encoding" := ["br"] ]};
     http.Response_Body := whole (list_byte_of_string "no such page") |}.

(** Status 201 with a gzip body and a job id. *)
Definition response_201_gzip : http.Response :=
  {| http.StatusCode := 201;
     http.Response_Header :=
       <["X-Job-ID" := ["job-1"]]> {[ "Content-Encoding" := ["gzip"] ]};
     http.Response_Body := whole (x1f :: x8b :: list_byte_of_string "%PDF") |}.


(** A stand-in for [strconv.ParseFloat] that knows one literal. *)
Definition parse_twelve (s : string) : result float :=
  if String.eqb s "12" then Ok 12%float
  else Err (errors_New ("strconv.ParseFloat: parsing " ++ s ++ ": invalid syntax")).

(** A stand-in for [strings.TrimSpace] on strings without white space. *)
Definition trim_nothing (s : string) : string := s.


(** What the draft must hold for the switch on the method to pass. *)
Definition content_present (q : client.Query) : Prop :=
  (client.Method q = "web" /\ client.URL q <> "")
  \/ ((client.Method q = "html" \/ client.Method q = "dir")
      /\ client.Content q <> [] /\ client.ContentType q <> "").

(** The place of a dimension in the order [PageParameters.Validate]
    checks them. *)
Definition dimension_index (d : dimension) : nat :=
  match d with
  | DimPaperWidth => 0
  | DimPaperHeight => 1
  | DimMarginTop => 2
  | DimMarginBottom => 3
  | DimMarginLeft => 4
  | DimMarginRight => 5
  end.

(** The query a fresh builder yields for content bytes of a type and a
    method, and for a URL. *)
Definition query_of_content (data : list byte) (contentType method : string)
  : client.Query :=
  {| client.Content := data; client.ContentType := contentType;
     client.URL := ""; client.Method := method;
     client.Query_PageParameters := client.zero_PageParameters;
     client.Query_RenderParameters := client.zero_RenderParameters;
     client.TimeoutDuration := 0 |}.

Definition query_of_url (url contentType : string) : client.Query :=
  {| client.Content := []; client.ContentType := contentType;
     client.URL := url; client.Method := "web";
     client.Query_PageParameters := client.zero_PageParameters;
     client.Query_RenderParameters := client.zero_RenderParameters;
     client.TimeoutDuration := 0 |}.

(** Page parameters with a negative paper height and a negative left
    margin. *)
Definition page_two_negative : client.PageParameters :=
  client.set_MarginLeft (Some (sizes.of_Millimeter (-5)%float))
    (client.set_PaperHeight (Some (sizes.of_Point (-1)%float))
                            client.zero_PageParameters).


(** The health check of [cli], after the exchanges [net], got the
    response [resp] to the request [req]. *)
Definition health_answered (env : client.Env) (cli : client.Client)
           (net : list client.Call) (req : http.Request) (resp : http.Response)
  : Prop :=
  client.http_NewRequest env "GET"
    (client.Options.Addr (client.Client_Options cli) ++ "/health") [] = Ok req
  /\ client.http_Do env net (client.Client_Client cli) req = Ok resp.

(** The request the example environment builds for the health check of
    [client_example]. *)
Definition request_health : http.Request :=
  {| http.Request_Method := "GET";
     http.Request_URL := "http://127.0.0.1:8080/health";
     http.Request_Header := ∅; http.Request_Body := [] |}.

(** Status 204 without a body. *)
Definition response_204 : http.Response :=
  {| http.StatusCode := 204; http.Response_Header := ∅;
     http.Response_Body := whole [] |}.


(** The four sides of a page. *)
Inductive side : Type :=
| SideLeft
| SideRight
| SideBottom
| SideTop.

Definition side_get (s : side) (m : html.margins) : option sizes.Length :=
  match s with
  | SideLeft => html.Left m
  | SideRight => html.Right m
  | SideBottom => html.Bottom m
  | SideTop => html.Top m
  end.

(** A point of the image, and the colour white of [RGBA()]. *)
Definition in_bounds (img : html.Image) (x y : Z) : Prop :=
  html.Min_X (html.Bounds img) <= x < html.Max_X (html.Bounds img)
  /\ html.Min_Y (html.Bounds img) <= y < html.Max_Y (html.Bounds img).

Definition white : Z * Z * Z := (65535, 65535, 65535).

(** An image of 2 by 4 pixels, white but for a black pixel in row 1. *)
Definition image_dot : html.Image :=
  {| html.Bounds := {| html.Min_X := 0; html.Min_Y := 0;
                       html.Max_X := 2; html.Max_Y := 4 |};
     html.At_RGBA := fun x y =>
                       if (x =? 1) && (y =? 1) then (0, 0, 0) else white |}.

(** An image of 2 by 4 pixels in one grey. *)
Definition image_grey : html.Image :=
  {| html.Bounds := {| html.Min_X := 0; html.Min_Y := 0;
                       html.Max_X := 2; html.Max_Y := 4 |};
     html.At_RGBA := fun _ _ => (30000, 30000, 30000) |}.

(** A document in absolute positioning with one wait condition of each
    kind, a bottom margin and nothing else. *)
Definition document_example : html.Document :=
  {| html.content := Some (content.StringContent "<p>hello</p>");
     html.Document_margins :=
       {| html.Left := None; html.Right := None;
          html.Bottom := Some (sizes.of_Point 20%float); html.Top := None |};
     html.position := html.PositionAbsolute;
     html.posX := 0%float; html.posY := 0%float;
     html.pageSize := sizes.Undefined;
     html.pageWidth := None; html.pageHeight := None;
     html.orientation := sizes.Portrait; html.trimLast := true;
     html.waitTime := time.Second;
     html.waitReady := [{| client.Selector := "#a"; client.By := selector.ByID |}];
     html.waitVisible := [{| client.Selector := ".b"; client.By := selector.ByQuery |}];
     html.timeout := None |}.

(** The chain of setters of [extract], before its loops. *)
Definition extract_chain (c : content.Content) (d : html.Document)
           (w h : option sizes.Length) (m : html.margins)
  : client.QueryBuilder :=
  client.QueryBuilder.WaitTime (html.waitTime d)
    (client.QueryBuilder.TimeoutDuration (html.getTimeoutDuration d)
       (client.QueryBuilder.MarginBottom (html.Bottom m)
          (client.QueryBuilder.MarginTop (html.Top m)
             (client.QueryBuilder.MarginRight (html.Right m)
                (client.QueryBuilder.MarginLeft (html.Left m)
                   (client.QueryBuilder.Orientation (html.orientation d)
                      (client.QueryBuilder.PaperHeight h
                         (client.QueryBuilder.PaperWidth w
                            (client.QueryBuilder.PageSize (html.pageSize d)
                               (client.QueryBuilder.SetContent c client.BuildHTMLQuery)))))))))).



(** An image of 2 by 4 pixels, white but for a black pixel in the bottom
    row, away from the bottom-left corner. *)
Definition image_border : html.Image :=
  {| html.Bounds := {| html.Min_X := 0; html.Min_Y := 0;
                       html.Max_X := 2; html.Max_Y := 4 |};
     html.At_RGBA := fun x y =>
                       if (x =? 1) && (y =? 3) then (0, 0, 0) else white |}.

(** A directory tree: files with their bytes, directories with their
    listing in order. *)
Inductive tree : Type :=
| file (name : string) (data : list byte)
| dir (name : string) (children : list tree).

(** The entries of the archive for a tree under the archive path [base]:
    one per file, depth first, in listing order. *)
Fixpoint flatten (base : string) (t : tree) : list (string * list byte) :=
  match t with
  | file name data => [((base ++ name)%string, data)]
  | dir name children =>
      flat_map (flatten (base ++ name ++ "/")%string) children
  end.

(** The number of directory levels below a listing. *)
Fixpoint height (t : tree) : nat :=
  match t with
  | file _ _ => 0
  | dir _ children => S (list_max (map height children))
  end.

(** The local path [zipBasePaths] makes for an entry of [dirPath]. *)
Definition local_path (dirPath name : string) (isDir : bool) : string :=
  (dirPath ++ (if strings_HasSuffix dirPath "/" then "" else "/") ++ name
   ++ (if isDir then "/" else ""))%string.

(** The file system shows the listing [ts] at [dirPath]: [os.ReadDir]
    lists it, entry by entry, and [os.ReadFile] returns the bytes of each
    file at its local path. *)
Inductive shows (sys : content.Sys) : string -> list tree -> Prop :=
| shows_listing dirPath entries ts :
    content.os_ReadDir sys dirPath = Ok entries ->
    shows_entries sys dirPath entries ts ->
    shows sys dirPath ts
with shows_entries (sys : content.Sys)
  : string -> list content.DirEntry -> list tree -> Prop :=
| shows_none dirPath : shows_entries sys dirPath [] []
| shows_file dirPath name data entries ts :
    content.os_ReadFile sys (local_path dirPath name false) = Ok data ->
    shows_entries sys dirPath entries ts ->
    shows_entries sys dirPath
      ({| content.DirEntry_Name := name; content.IsDir := false;
          content.Info := Ok name |} :: entries)
      (file name data :: ts)
| shows_dir dirPath name children entries ts :
    shows sys (local_path dirPath name true) children ->
    shows_entries sys dirPath entries ts ->
    shows_entries sys dirPath
      ({| content.DirEntry_Name := name; content.IsDir := true;
          content.Info := Ok name |} :: entries)
      (dir name children :: ts).

(** A directory "site" with the file "b.txt" and the directory "c", which
    holds the file "d.txt"; the zip writer accepts every name and the
    closed archive is, for the example, the concatenation of the data. *)
Definition site_entry (name : string) (isDir : bool) : content.DirEntry :=
  {| content.DirEntry_Name := name; content.IsDir := isDir;
     content.Info := Ok name |}.

Definition site_sys : content.Sys :=
  {| content.os_ReadDir :=
       fun path =>
         if String.eqb path "site"
         then Ok [site_entry "b.txt" false; site_entry "c" true]
         else if String.eqb path "site/c/" then Ok [site_entry "d.txt" false]
         else Err (errors_New ("open " ++ path ++ ": no such file or directory"));
     content.os_ReadFile :=
       fun path =>
         if String.eqb path "site/b.txt" then Ok (list_byte_of_string "B")
         else if String.eqb path "site/c/d.txt" then Ok (list_byte_of_string "D")
         else Err (errors_New ("open " ++ path ++ ": no such file or directory"));
     content.url_Parse := fun _ => None;
     content.zip_Create := fun _ => None;
     content.zip_Close := fun z => Ok (concat (map snd z)) |}.

Definition site_tree : list tree :=
  [file "b.txt" (list_byte_of_string "B");
   dir "c" [file "d.txt" (list_byte_of_string "D")]].

(** * Properties *)

(** ** Page sizes: names and lookup *)

Section PageSizeNames.

Import sizes.

Lemma pageSizes_enumerated : pageSizes = enumerated.
Proof. reflexivity. Qed.

Lemma pageSizes_range : pageSizes = map Z.of_nat (seq 0 (length pageSizes)).
Proof. reflexivity. Qed.

Lemma enumerated_bounds (p : PageSize) : In p enumerated -> 0 <= p < 24.
Proof.
  unfold enumerated. cbn [In]. intros H.
  repeat (destruct H as [<- | H]; [vm_compute; split; congruence |]).
  contradiction.
Qed.

(** Inside the enumeration [String] takes the name from the table. *)
Lemma PageSize_String_nameAt (p : PageSize) :
  0 <= p < 24 -> PageSize_String p = nameAt p.
Proof.
  intros [Hlo Hhi]. unfold PageSize_String.
  replace (p <? 0) with false by (symmetry; apply Z.ltb_ge; lia).
  replace (p >=? Z.of_nat (length pageSizeIdx) - 1) with false; [reflexivity |].
  symmetry. rewrite Z.geb_leb. apply Z.leb_gt. cbn. lia.
Qed.

(** A key that [init] never writes is looked up as before the loop. *)
Lemma init_loop_other (s : string) (l : list Z) (m : gmap string PageSize) :
  (forall i, In i l -> nameAt i <> s) ->
  fold_left (fun acc i => <[nameAt i := i]> acc) l m !! s = m !! s.
Proof.
  revert m. induction l as [| i l IH]; intros m Hne; [reflexivity |].
  cbn [fold_left]. rewrite IH.
  - apply lookup_insert_ne. apply Hne. now left.
  - intros j Hj. apply Hne. now right.
Qed.

Lemma pageSizeMap_other (s : string) :
  (forall p, In p enumerated -> s <> PageSize_String p) ->
  pageSizeMap !! s = None.
Proof.
  intros Hne. unfold pageSizeMap, init. rewrite init_loop_other.
  - apply lookup_empty.
  - rewrite <- pageSizes_range, pageSizes_enumerated. intros i Hi Heq.
    apply (Hne i Hi). rewrite PageSize_String_nameAt; [congruence |].
    now apply enumerated_bounds.
Qed.

(** C9.  For every enumerated page size [p] (Undefined, A0-A10, B0-B10,
    Letter) [PageSizeString (p.String())] returns [p]; for a string that
    is the name of none of them, ["bogus"] among them, [PageSizeString]
    returns the error "<s> does not belong to PageSize values". *)
Theorem PageSize_name_roundtrip :
  (forall p, In p enumerated -> PageSizeString (PageSize_String p) = Ok p)
  /\ (forall s, (forall p, In p enumerated -> s <> PageSize_String p) ->
        PageSizeString s
        = Err (errors_New (s ++ " does not belong to PageSize values")))
  /\ PageSizeString "bogus"
     = Err (errors_New "bogus does not belong to PageSize values").
Proof.
  split; [| split].
  - intros p H. unfold enumerated in H. cbn [In] in H.
    repeat (destruct H as [<- | H]; [vm_compute; reflexivity |]).
    contradiction.
  - intros s Hne. unfold PageSizeString.
    now rewrite (pageSizeMap_other s Hne).
  - vm_compute. reflexivity.
Qed.

End PageSizeNames.

(** C9 at A4 and at the string "A". *)
Lemma PageSize_name_roundtrip_witness :
  sizes.PageSizeString (sizes.PageSize_String sizes.A4) = Ok sizes.A4
  /\ sizes.PageSizeString "A"
     = Err (errors_New "A does not belong to PageSize values").
Proof.
  destruct PageSize_name_roundtrip as (Hname & Hother & _). split.
  - apply Hname. vm_compute. tauto.
  - apply (Hother "A"). intros p Hp. unfold enumerated in Hp. cbn [In] in Hp.
    repeat (destruct Hp as [<- | Hp]; [vm_compute; discriminate |]).
    contradiction.
Defined.

(** ** Unit conversions *)

(** C7 (the code departs from the claim at this input).  One inch,
    converted to points and back to inches, comes back as about 0.000217
    inch: [Inch.Points] multiplies by [inchToPoint = 1/64] and
    [Point.Inches] by [pointToInch = 0.0139], whose product is far from 1.
    One inch is 0.015625 points by [Inch.Points], while the same length
    converted through millimeters is about 72 points. *)
Theorem Inch_Points_Inches_one_inch :
  sizes.Inches (sizes.of_Point (sizes.Points (sizes.of_Inch 1%float)))
  = 0.00021718749999999999%float
  /\ (sizes.Inches (sizes.of_Point (sizes.Points (sizes.of_Inch 1%float)))
      <? 0.001)%float = true
  /\ sizes.Points (sizes.of_Inch 1%float) = 0.015625%float
  /\ (71.9 <? sizes.Points (sizes.of_Millimeter
                              (sizes.Millimeters (sizes.of_Inch 1%float))))%float
     = true.
Proof. repeat split; vm_compute; reflexivity. Qed.

(** [mmToPoint] is the untyped constant [1.0 / 0.3528], that is 10000/3528
    taken to the nearest binary64 value; the quotient of the rounded
    0.3528 is the same value. *)
Lemma mmToPoint_nearest : sizes.mmToPoint = (10000 / 3528)%float.
Proof. vm_compute. reflexivity. Qed.

(** The millimeter constants are inverse to each other up to rounding:
    at 10 mm both round trips come back within 1e-14. *)
Lemma Millimeter_roundtrips_ten :
  sizes.Millimeters (sizes.of_Point (sizes.Points (sizes.of_Millimeter 10%float)))
  = 10%float
  /\ (9.99999999999999
      <? sizes.Millimeters
           (sizes.of_Inch (sizes.Inches (sizes.of_Millimeter 10%float))))%float
     = true
  /\ (sizes.Millimeters
        (sizes.of_Inch (sizes.Inches (sizes.of_Millimeter 10%float)))
      <=? 10)%float = true.
Proof. repeat split; vm_compute; reflexivity. Qed.

(** ** Client construction *)

(** The timeout of a new client does not depend on the options. *)
Lemma New_Timeout (o : client.Options) :
  http.Timeout (client.Client_Client (client.New o)) = 30 * time.Second.
Proof.
  unfold client.New.
  destruct (client.Port _ <=? 0); destruct (String.eqb _ ""); reflexivity.
Qed.

(** C10.  [New o] has the 30 second timeout whatever [o.DefaultTimeout]
    is, also when it was set through [WithDefaultTimeout]; its port is
    8080 when [o.Port <= 0] and [o.Port] otherwise; its hostname is
    "127.0.0.1" when [o.Hostname] is empty and [o.Hostname] otherwise. *)
Theorem New_defaults (o : client.Options) :
  http.Timeout (client.Client_Client (client.New o)) = 30 * time.Second
  /\ client.DefaultTimeout (client.Client_Options (client.New o))
     = 30 * time.Second
  /\ (forall d,
        http.Timeout
          (client.Client_Client (client.New (client.WithDefaultTimeout d o)))
        = 30 * time.Second)
  /\ (client.Port o <= 0 ->
      client.Port (client.Client_Options (client.New o)) = 8080)
  /\ (0 < client.Port o ->
      client.Port (client.Client_Options (client.New o)) = client.Port o)
  /\ (client.Hostname o = "" ->
      client.Hostname (client.Client_Options (client.New o)) = "127.0.0.1")
  /\ (client.Hostname o <> "" ->
      client.Hostname (client.Client_Options (client.New o))
      = client.Hostname o).
Proof.
  destruct o as [https host port dt pre].
  unfold client.New, client.WithDefaultTimeout, client.set_DefaultTimeout,
    client.set_Port, client.set_Hostname. cbn.
  destruct (port <=? 0) eqn:Hp; cbn;
    destruct (String.eqb host "") eqn:Hh; cbn;
    repeat split; intros; try reflexivity;
    try (apply Z.leb_le in Hp); try (apply Z.leb_gt in Hp);
    try (apply String.eqb_eq in Hh); try (apply String.eqb_neq in Hh);
    try lia; congruence.
Qed.

(** C10 at options with port 0, no hostname and a 5 second default. *)
Lemma New_defaults_witness :
  http.Timeout (client.Client_Client (client.New options_example))
  = 30 * time.Second
  /\ client.Port (client.Client_Options (client.New options_example)) = 8080
  /\ client.Hostname (client.Client_Options (client.New options_example))
     = "127.0.0.1".
Proof.
  pose proof (New_defaults options_example) as (Ht & _ & _ & Hp & _ & Hh & _).
  split; [exact Ht | split; [apply Hp; vm_compute; discriminate | apply Hh; reflexivity]].
Defined.

(** ** Query validation *)

Section QueryValidate.

Import client.

Lemma eqb_false (a b : string) : a <> b -> String.eqb a b = false.
Proof. apply String.eqb_neq. Qed.

Lemma content_nonempty (c : list byte) :
  c <> [] -> (Z.of_nat (length c) =? 0) = false.
Proof. destruct c; [congruence | reflexivity]. Qed.

(** Once the switch on the method passes, the result is that of the
    page-parameter check followed by the render-parameter check. *)
Lemma Validate_after_content (q : Query) :
  Query.Validate_content q = None ->
  Query.Validate q
  = match PageParameters.Validate (Query_PageParameters q) with
    | Some e => Some e
    | None => RenderParameters.Validate (Query_RenderParameters q)
    end.
Proof.
  intros H. unfold Query.Validate. rewrite H.
  destruct (PageParameters.Validate _); [reflexivity |].
  destruct (RenderParameters.Validate _); reflexivity.
Qed.

(** C3, as amended.  [Query.Validate] fails with [ErrMissingData] when the
    method is "web" and the URL is empty, and when the method is "html" or
    "dir" and the content is empty; it fails with [ErrContentType] when
    the method is "html" or "dir", the content is not empty and the
    content type is empty; for any other method it fails with "undefined
    content query method: <method>"; otherwise the content check passes
    and the result is that of the page- and render-parameter checks. *)
Theorem Query_Validate_content_check (q : Query) :
  (Method q = "web" -> URL q = "" -> Query.Validate q = Some ErrMissingData)
  /\ (Method q = "html" \/ Method q = "dir" -> Content q = [] ->
      Query.Validate q = Some ErrMissingData)
  /\ (Method q = "html" \/ Method q = "dir" -> Content q <> [] ->
      ContentType q = "" -> Query.Validate q = Some ErrContentType)
  /\ (Method q <> "web" -> Method q <> "html" -> Method q <> "dir" ->
      Query.Validate q
      = Some (errors_New ("undefined content query method: " ++ Method q)))
  /\ ((Method q = "web" /\ URL q <> "")
      \/ ((Method q = "html" \/ Method q = "dir")
          /\ Content q <> [] /\ ContentType q <> "") ->
      Query.Validate q
      = match PageParameters.Validate (Query_PageParameters q) with
        | Some e => Some e
        | None => RenderParameters.Validate (Query_RenderParameters q)
        end).
Proof.
  repeat split.
  - intros Hm Hu. unfold Query.Validate, Query.Validate_content.
    rewrite Hm, Hu. reflexivity.
  - intros Hm Hc. unfold Query.Validate, Query.Validate_content.
    destruct Hm as [Hm | Hm]; rewrite Hm, Hc; reflexivity.
  - intros Hm Hc Ht. unfold Query.Validate, Query.Validate_content.
    rewrite (content_nonempty _ Hc), Ht.
    destruct Hm as [Hm | Hm]; rewrite Hm; reflexivity.
  - intros Hw Hh Hd. unfold Query.Validate, Query.Validate_content.
    rewrite (eqb_false _ _ Hw), (eqb_false _ _ Hh), (eqb_false _ _ Hd).
    reflexivity.
  - intros H. apply Validate_after_content. unfold Query.Validate_content.
    destruct H as [[Hm Hu] | [Hm [Hc Ht]]].
    + rewrite Hm, (eqb_false _ _ Hu). reflexivity.
    + rewrite (content_nonempty _ Hc), (eqb_false _ _ Ht).
      destruct Hm as [Hm | Hm]; rewrite Hm; reflexivity.
Qed.

(** C3 as stated fails: with method "html", no content and no content
    type, validation reports [ErrMissingData], not [ErrContentType]. *)
Lemma Query_Validate_ContentType_counterexample :
  Method query_html_empty = "html"
  /\ ContentType query_html_empty = ""
  /\ Query.Validate query_html_empty = Some ErrMissingData
  /\ Some ErrMissingData <> Some ErrContentType.
Proof. repeat split. discriminate. Qed.

(** C3 at the query with method "html" and no content. *)
Lemma Query_Validate_content_check_witness :
  Query.Validate query_html_empty = Some ErrMissingData.
Proof.
  apply (Query_Validate_content_check query_html_empty);
    [left |]; reflexivity.
Defined.

End QueryValidate.

(** ** Render parameters *)

Section RenderValidate.

Import client.

Lemma BySelector_Validate_valid (b : BySelector) :
  BySelector.Validate b = None <-> valid_condition b.
Proof.
  unfold BySelector.Validate, selector.Validate, valid_condition.
  destruct (String.eqb_spec (Selector b) "") as [He | Hne].
  - split; [discriminate | intros [H _]; contradiction].
  - destruct (selector.ByID <=? By b)%N eqn:H1;
      destruct (By b <=? selector.BySearch)%N eqn:H2; cbn;
      try apply N.leb_le in H1; try apply N.leb_le in H2;
      try apply N.leb_gt in H1; try apply N.leb_gt in H2;
      (split; [first [discriminate | intros _; split; [assumption | lia]]
              | first [reflexivity | intros [_ H]; lia]]).
Qed.

Lemma Validate_range_None (l : list BySelector) :
  RenderParameters.Validate_range l = None <-> Forall valid_condition l.
Proof.
  induction l as [| b l IH]; cbn.
  - split; [constructor | reflexivity].
  - destruct (BySelector.Validate b) eqn:Hb.
    + split; [discriminate |]. intros H. inversion H as [| ? ? Hv _]; subst.
      apply BySelector_Validate_valid in Hv. congruence.
    + rewrite IH. split.
      * intros H. constructor; [now apply BySelector_Validate_valid | exact H].
      * intros H. now inversion H.
Qed.

(** What [RenderParameters.Validate] does check: the wait time against
    three minutes and the conditions of the wait-ready list. *)
Lemma RenderParameters_Validate_None (rp : RenderParameters) :
  RenderParameters.Validate rp = None
  <-> WaitTime rp <= 3 * time.Minute /\ Forall valid_condition (WaitReady rp).
Proof.
  unfold RenderParameters.Validate.
  destruct (WaitTime rp >? time.Minute * 3) eqn:Hw.
  - split; [discriminate |]. intros [H _]. apply Z.gtb_lt in Hw. lia.
  - rewrite Validate_range_None. split.
    + intros H. split; [| exact H].
      rewrite Z.gtb_ltb in Hw. apply Z.ltb_ge in Hw. lia.
    + now intros [_ H].
Qed.

(** C5 (the code departs from the claim at this input).  A wait-visible
    condition with an empty selector is itself invalid and is rejected in
    the wait-ready list, but render parameters that carry it in the
    wait-visible list validate: [Validate] never reads that list. *)
Theorem RenderParameters_Validate_skips_WaitVisible :
  BySelector.Validate empty_selector
  = Some (errors_New "provided empty selector")
  /\ RenderParameters.Validate render_ready_empty_selector
     = Some (fmt_Errorf_w
               "one of wait ready selector is not valid: provided empty selector"
               (errors_New "provided empty selector"))
  /\ RenderParameters.Validate render_visible_empty_selector = None
  /\ (forall waitTime ready visible,
        RenderParameters.Validate
          {| WaitTime := waitTime; WaitReady := ready; WaitVisible := visible |}
        = RenderParameters.Validate
            {| WaitTime := waitTime; WaitReady := ready; WaitVisible := [] |}).
Proof. repeat split. Qed.

End RenderValidate.

(** ** Page parameters *)

Section PageValidate.

Import client.

(** On binary64, [0 <= x] excludes [x < 0] (and a NaN satisfies neither). *)
Lemma leb_zero_not_ltb (x : float) :
  (0 <=? x)%float = true -> (x <? 0)%float = false.
Proof.
  rewrite leb_spec, ltb_spec.
  change (Prim2SF 0%float) with (S754_zero false).
  unfold SFleb, SFltb.
  destruct (Prim2SF x) as [s | s | | s m e]; cbn;
    try destruct s; cbn; congruence.
Qed.

Lemma negative_non_negative (l : option sizes.Length) (msg : string) :
  non_negative l -> PageParameters.negative l msg = None.
Proof.
  destruct l as [v |]; cbn; [| reflexivity].
  intros H. now rewrite (leb_zero_not_ltb _ H).
Qed.

Lemma negative_not_negative (l : option sizes.Length) (msg : string) :
  ~ is_negative l -> PageParameters.negative l msg = None.
Proof.
  destruct l as [v |]; cbn; [| reflexivity].
  intros H. destruct (sizes.Millimeters v <? 0)%float; [now elim H | reflexivity].
Qed.

Lemma negative_is_negative (l : option sizes.Length) (msg : string) :
  is_negative l -> PageParameters.negative l msg = Some (errors_New msg).
Proof.
  destruct l as [v |]; cbn; [| contradiction].
  intros H. now rewrite H.
Qed.

Lemma IsAPageSize_enumerated (ps : sizes.PageSize) :
  In ps enumerated -> sizes.IsAPageSize ps = true.
Proof.
  intros H. unfold sizes.IsAPageSize. apply existsb_exists.
  exists ps. split; [exact H | apply Z.eqb_refl].
Qed.

Lemma PageParameters_Validate_ok (p : PageParameters) :
  (forall d, non_negative (dimension_get d p)) ->
  page_size_recognized p ->
  PageParameters.Validate p = None.
Proof.
  intros Hd Hp. unfold PageParameters.Validate.
  rewrite (negative_non_negative _ _ (Hd DimPaperWidth)).
  rewrite (negative_non_negative _ _ (Hd DimPaperHeight)).
  rewrite (negative_non_negative _ _ (Hd DimMarginTop)).
  rewrite (negative_non_negative _ _ (Hd DimMarginBottom)).
  rewrite (negative_non_negative _ _ (Hd DimMarginLeft)).
  rewrite (negative_non_negative _ _ (Hd DimMarginRight)).
  unfold page_size_recognized in Hp.
  destruct (PageSize p) as [ps |]; [| reflexivity].
  now rewrite (IsAPageSize_enumerated _ Hp).
Qed.

Lemma dimension_get_set (d d' : dimension) (l : option sizes.Length)
      (p : PageParameters) :
  dimension_get d' (dimension_set d l p)
  = if decide (d' = d) then l else dimension_get d' p.
Proof. destruct d, d'; reflexivity. Qed.

Lemma PageSize_dimension_set (d : dimension) (l : option sizes.Length)
      (p : PageParameters) :
  PageSize (dimension_set d l p) = PageSize p.
Proof. destruct d; reflexivity. Qed.

(** C6.  Page parameters whose paper width, paper height and four margins
    are each absent or at least zero millimeters, and whose page size is
    absent or enumerated, validate.  When exactly one dimension is below
    zero, validation fails with "negative value for <that dimension>";
    replacing it by an absent or non-negative length, the others being
    non-negative and the page size absent or enumerated, makes validation
    succeed. *)
Theorem PageParameters_Validate_dimensions (p : PageParameters) :
  ((forall d, non_negative (dimension_get d p)) ->
   page_size_recognized p ->
   PageParameters.Validate p = None)
  /\ (forall d,
        is_negative (dimension_get d p) ->
        (forall d', d' <> d -> ~ is_negative (dimension_get d' p)) ->
        PageParameters.Validate p
        = Some (errors_New ("negative value for " ++ dimension_name d)))
  /\ (forall d l,
        non_negative l ->
        (forall d', d' <> d -> non_negative (dimension_get d' p)) ->
        page_size_recognized p ->
        PageParameters.Validate (dimension_set d l p) = None).
Proof.
  split; [apply PageParameters_Validate_ok | split].
  - intros d Hneg Hothers. unfold PageParameters.Validate.
    destruct d; cbn [dimension_get dimension_name] in *;
      repeat
        match goal with
        | |- context [PageParameters.negative ?f ?msg] =>
            first
              [ rewrite (negative_is_negative f msg Hneg); reflexivity
              | rewrite (negative_not_negative f msg);
                [| first
                     [ apply (Hothers DimPaperWidth)
                     | apply (Hothers DimPaperHeight)
                     | apply (Hothers DimMarginTop)
                     | apply (Hothers DimMarginBottom)
                     | apply (Hothers DimMarginLeft)
                     | apply (Hothers DimMarginRight) ]; discriminate ] ]
        end.
  - intros d l Hl Hothers Hp. apply PageParameters_Validate_ok.
    + intros d'. rewrite dimension_get_set.
      destruct (decide (d' = d)) as [_ | Hne]; [exact Hl | now apply Hothers].
    + unfold page_size_recognized. now rewrite PageSize_dimension_set.
Qed.

(** C6 at a paper width of minus one inch, then of 8.5 inches. *)
Lemma PageParameters_Validate_dimensions_witness :
  PageParameters.Validate page_negative_width
  = Some (errors_New "negative value for PaperWidth")
  /\ PageParameters.Validate
       (dimension_set DimPaperWidth (Some (sizes.of_Inch 8.5%float))
                      page_negative_width)
     = None.
Proof.
  destruct (PageParameters_Validate_dimensions page_negative_width)
    as (_ & Hfail & Hfix).
  split.
  - apply (Hfail DimPaperWidth).
    + vm_compute. reflexivity.
    + intros d' Hne. destruct d'; cbn; first [congruence | tauto].
  - apply Hfix.
    + vm_compute. reflexivity.
    + intros d' Hne. destruct d'; cbn; first [exact I | congruence].
    + exact I.
Defined.

End PageValidate.

(** ** The builder's sticky error *)

Section StickyError.

Import client.







End StickyError.

(** ** The conversion call *)

Section ConvertHTML.

Import client.

Variable env : Env.

(** When the call is answered, what it returns is decided by the
    response alone. *)
Lemma ConvertHTML_answered cli q net req resp :
  answered env cli q net req resp ->
  ConvertHTML env cli q net
  = (ConvertHTML_response env resp, cli, net ++ [(httpClient cli q, req)]).
Proof.
  intros (Hv & Hreq & Hdo). unfold ConvertHTML.
  now rewrite Hv, Hreq, Hdo.
Qed.

(** The reader chosen for a body that decodes. *)
Lemma reader_decodes resp r : decodes env resp r -> reader env resp = Ok r.
Proof.
  unfold decodes, encoding, reader.
  intros [[He Hr] | [[He Hr] | [He Hr]]]; rewrite He; cbn; congruence.
Qed.

(** The early return for an encoding that is not known. *)
Lemma reader_unsupported resp :
  encoding resp <> "gzip" -> encoding resp <> "deflate" -> encoding resp <> "" ->
  reader env resp
  = Err (errors_New
           ("unsupported Content-Encoding: " ++ encoding resp ++ " header")).
Proof.
  unfold encoding, reader. intros Hg Hd He.
  now rewrite (eqb_false _ _ Hg), (eqb_false _ _ Hd), (eqb_false _ _ He).
Qed.

Lemma response_decoded_error resp r kind :
  decodes env resp r ->
  httpErr (http.StatusCode resp) = Some kind ->
  ConvertHTML_response env resp = Err (server_error (Stream_bytes r) kind).
Proof.
  intros Hd Hk. unfold ConvertHTML_response.
  rewrite (reader_decodes _ _ Hd), Hk. cbn.
  destruct (Stream_err r); reflexivity.
Qed.

Lemma response_decoded_created resp r :
  decodes env resp r ->
  http.StatusCode resp = 201 ->
  Stream_err r = None ->
  ConvertHTML_response env resp
  = Ok {| ID := http.Header_Get (http.Response_Header resp) "X-Job-ID";
          Data := Stream_bytes r |}.
Proof.
  intros Hd Hs He. unfold ConvertHTML_response.
  rewrite (reader_decodes _ _ Hd), Hs. cbn. now rewrite He.
Qed.

Lemma httpErr_other code :
  code <> 201 -> code <> 400 -> code <> 401 -> code <> 404 -> code <> 408 ->
  code <> 501 -> httpErr code = Some ErrInternalError.
Proof.
  intros. unfold httpErr, http.StatusNotFound, http.StatusBadRequest,
    http.StatusNotImplemented, http.StatusUnauthorized,
    http.StatusRequestTimeout, http.StatusCreated.
  repeat
    match goal with
    | |- context [code =? ?c] =>
        rewrite (proj2 (Z.eqb_neq code c)) by assumption
    end.
  reflexivity.
Qed.

(** C2, as amended.  For every response to the conversion call whose
    body decodes (gzip with a readable header, deflate, or no encoding
    named): status 201 with a body read to its end returns the
    [PDFResponse] with the [X-Job-ID] header as ID and the decoded bytes
    as Data; 400, 401, 404, 408 and 501 return an error that embeds the
    decoded body text and wraps BadRequest, Unauthorized, NotFound,
    TimedOut and NotImplemented; any other status returns such an error
    wrapping InternalError. *)
Theorem ConvertHTML_status_mapping cli q net req resp r :
  answered env cli q net req resp ->
  decodes env resp r ->
  (http.StatusCode resp = 201 -> Stream_err r = None ->
   returned (ConvertHTML env cli q net)
   = Ok {| ID := http.Header_Get (http.Response_Header resp) "X-Job-ID";
           Data := Stream_bytes r |})
  /\ (http.StatusCode resp = 400 ->
      returned (ConvertHTML env cli q net)
      = Err (server_error (Stream_bytes r) ErrBadRequest))
  /\ (http.StatusCode resp = 401 ->
      returned (ConvertHTML env cli q net)
      = Err (server_error (Stream_bytes r) ErrUnauthorized))
  /\ (http.StatusCode resp = 404 ->
      returned (ConvertHTML env cli q net)
      = Err (server_error (Stream_bytes r) ErrNotFound))
  /\ (http.StatusCode resp = 408 ->
      returned (ConvertHTML env cli q net)
      = Err (server_error (Stream_bytes r) ErrTimedOut))
  /\ (http.StatusCode resp = 501 ->
      returned (ConvertHTML env cli q net)
      = Err (server_error (Stream_bytes r) ErrNotImplemented))
  /\ (~ In (http.StatusCode resp) [201; 400; 401; 404; 408; 501] ->
      returned (ConvertHTML env cli q net)
      = Err (server_error (Stream_bytes r) ErrInternalError)).
Proof.
  intros Ha Hd. rewrite (ConvertHTML_answered _ _ _ _ _ Ha).
  unfold returned. cbn [fst].
  repeat split.
  - intros Hs He. now apply response_decoded_created.
  - intros Hs. apply response_decoded_error; [exact Hd | now rewrite Hs].
  - intros Hs. apply response_decoded_error; [exact Hd | now rewrite Hs].
  - intros Hs. apply response_decoded_error; [exact Hd | now rewrite Hs].
  - intros Hs. apply response_decoded_error; [exact Hd | now rewrite Hs].
  - intros Hs. apply response_decoded_error; [exact Hd | now rewrite Hs].
  - intros Hs. apply response_decoded_error; [exact Hd |].
    cbn [In] in Hs. apply httpErr_other; intros Heq; apply Hs; rewrite Heq; tauto.
Qed.

(** C4.  For every response to the conversion call: when the
    [Content-Encoding] is "gzip", "deflate" or empty and the gzip decoder,
    the deflate decoder or the body itself delivers [payload], status 201
    returns [payload] as Data and an error status embeds [payload] in its
    error; any other [Content-Encoding] makes the call fail with
    "unsupported Content-Encoding: <value> header", whatever the
    status. *)
Theorem ConvertHTML_content_encoding cli q net req resp :
  answered env cli q net req resp ->
  (forall payload,
      (encoding resp = "gzip"
       /\ gzip_NewReader env (http.Response_Body resp) = Ok (whole payload))
      \/ (encoding resp = "deflate"
          /\ flate_NewReader env (http.Response_Body resp) = whole payload)
      \/ (encoding resp = "" /\ http.Response_Body resp = whole payload) ->
      (http.StatusCode resp = 201 ->
       returned (ConvertHTML env cli q net)
       = Ok {| ID := http.Header_Get (http.Response_Header resp) "X-Job-ID";
               Data := payload |})
      /\ (forall kind,
            httpErr (http.StatusCode resp) = Some kind ->
            returned (ConvertHTML env cli q net)
            = Err (server_error payload kind)))
  /\ (encoding resp <> "gzip" -> encoding resp <> "deflate" ->
      encoding resp <> "" ->
      returned (ConvertHTML env cli q net)
      = Err (errors_New
               ("unsupported Content-Encoding: " ++ encoding resp ++ " header"))).
Proof.
  intros Ha. rewrite (ConvertHTML_answered _ _ _ _ _ Ha).
  unfold returned. cbn [fst]. split.
  - intros payload Hd. change (decodes env resp (whole payload)) in Hd. split.
    + intros Hs. now apply (response_decoded_created _ _ Hd).
    + intros kind Hk. now apply (response_decoded_error _ _ _ Hd).
  - intros Hg Hd He. unfold ConvertHTML_response.
    now rewrite (reader_unsupported _ Hg Hd He).
Qed.

(** C8.  For a conversion call that reaches the wire with a query whose
    [TimeoutDuration] is not zero, the exchange is made by an
    [http.Client] with that timeout; the client is the same after the
    call; a following call with a zero-timeout query is made with the
    client's own [http.Client], whose timeout is 30 seconds when the
    client comes from [New]. *)
Theorem ConvertHTML_timeout_override cli q net req :
  Query.Validate q = None ->
  getGenerateRequest env cli q = Ok req ->
  TimeoutDuration q <> 0 ->
  exchanges_after (ConvertHTML env cli q net)
  = net ++ [({| http.Timeout := TimeoutDuration q |}, req)]
  /\ client_after (ConvertHTML env cli q net) = cli
  /\ (forall q' req',
        Query.Validate q' = None ->
        getGenerateRequest env cli q' = Ok req' ->
        TimeoutDuration q' = 0 ->
        exchanges_after
          (ConvertHTML env (client_after (ConvertHTML env cli q net)) q'
                       (exchanges_after (ConvertHTML env cli q net)))
        = (net ++ [({| http.Timeout := TimeoutDuration q |}, req)])
            ++ [(Client_Client cli, req')]
        /\ (forall o, cli = New o ->
              http.Timeout (Client_Client cli) = 30 * time.Second)).
Proof.
  intros Hv Hreq Ht.
  assert (Hc : httpClient cli q = {| http.Timeout := TimeoutDuration q |}).
  { unfold httpClient. apply Z.eqb_neq in Ht. now rewrite Ht. }
  assert (H1 : exchanges_after (ConvertHTML env cli q net)
               = net ++ [({| http.Timeout := TimeoutDuration q |}, req)]
               /\ client_after (ConvertHTML env cli q net) = cli).
  { unfold ConvertHTML. rewrite Hv, Hreq, Hc.
    destruct (http_Do env net _ req); split; reflexivity. }
  destruct H1 as [Hx Hcli]. split; [exact Hx | split; [exact Hcli |]].
  intros q' req' Hv' Hreq' Ht'. rewrite Hcli, Hx. split.
  - assert (Hc' : httpClient cli q' = Client_Client cli).
    { unfold httpClient. now rewrite Ht'. }
    unfold ConvertHTML. rewrite Hv', Hreq', Hc'.
    destruct (http_Do env _ _ req'); reflexivity.
  - intros o ->. apply New_Timeout.
Qed.

End ConvertHTML.

(** *** The conversion call on concrete responses *)

Lemma answered_example (resp : http.Response) (timeout : time.Duration) :
  answered (env_answering resp) client_example (query_html timeout) []
           request_html resp.
Proof. split; [| split]; vm_compute; reflexivity. Qed.

(** C2 as stated fails: a 404 response with [Content-Encoding: br] does
    not return an error that wraps NotFound, but the unsupported-encoding
    error. *)
Lemma ConvertHTML_status_counterexample :
  answered (env_answering response_404_br) client_example (query_html 0) []
           request_html response_404_br
  /\ http.StatusCode response_404_br = 404
  /\ returned (client.ConvertHTML (env_answering response_404_br)
                                  client_example (query_html 0) [])
     = Err (errors_New "unsupported Content-Encoding: br header")
  /\ errors_Is (errors_New "unsupported Content-Encoding: br header")
               client.ErrNotFound = false.
Proof.
  split; [apply answered_example |].
  split; [reflexivity |]. split; vm_compute; reflexivity.
Qed.

(** C2 at a 201 response with a gzip body and the job id "job-1". *)
Lemma ConvertHTML_status_mapping_witness :
  returned (client.ConvertHTML (env_answering response_201_gzip)
                               client_example (query_html 0) [])
  = Ok {| client.ID := "job-1";
          client.Data := list_byte_of_string "%PDF" |}.
Proof.
  destruct (ConvertHTML_status_mapping
              (env_answering response_201_gzip) client_example (query_html 0)
              [] request_html response_201_gzip
              (whole (list_byte_of_string "%PDF"))) as [H _].
  - split; [| split]; vm_compute; reflexivity.
  - left. split; vm_compute; reflexivity.
  - apply H; reflexivity.
Defined.

(** C4 at a 404 response with [Content-Encoding: br]. *)
Lemma ConvertHTML_content_encoding_witness :
  returned (client.ConvertHTML (env_answering response_404_br)
                               client_example (query_html 0) [])
  = Err (errors_New "unsupported Content-Encoding: br header").
Proof.
  destruct (ConvertHTML_content_encoding
              (env_answering response_404_br) client_example (query_html 0)
              [] request_html response_404_br) as [_ H].
  - split; [| split]; vm_compute; reflexivity.
  - apply H; vm_compute; discriminate.
Defined.

(** C8 at a query with a timeout of five seconds. *)
Lemma ConvertHTML_timeout_override_witness :
  exchanges_after (client.ConvertHTML (env_answering response_201_gzip)
                                      client_example
                                      (query_html (5 * time.Second)) [])
  = [({| http.Timeout := 5 * time.Second |}, request_html)].
Proof.
  destruct (ConvertHTML_timeout_override
              (env_answering response_201_gzip) client_example
              (query_html (5 * time.Second)) [] request_html) as [H _].
  - vm_compute. reflexivity.
  - vm_compute. reflexivity.
  - vm_compute. discriminate.
  - exact H.
Defined.

(** * Further properties of the code *)

(** ** Page sizes: lookup, flags and dimensions *)

Section PageSizeMore.

Import sizes.

(** What the loop of [init] leaves under a key was there before or was
    written by the loop, under the name of the value. *)
Lemma init_loop_Some (s : string) (p : PageSize) (l : list Z)
      (m : gmap string PageSize) :
  fold_left (fun acc i => <[nameAt i := i]> acc) l m !! s = Some p ->
  m !! s = Some p \/ (In p l /\ nameAt p = s).
Proof.
  revert m. induction l as [| i l IH]; intros m H; [now left |].
  cbn [fold_left] in H. destruct (IH _ H) as [Hm | [Hin Hn]].
  - destruct (decide (nameAt i = s)) as [Heq | Hne].
    + rewrite <- Heq, lookup_insert_eq in Hm. injection Hm as <-.
      right. split; [now left | exact Heq].
    + rewrite lookup_insert_ne in Hm by exact Hne. now left.
  - right. split; [now right | exact Hn].
Qed.

Lemma pageSizeMap_Some (s : string) (p : PageSize) :
  pageSizeMap !! s = Some p -> In p enumerated /\ PageSize_String p = s.
Proof.
  intros H. unfold pageSizeMap, init in H.
  apply init_loop_Some in H. destruct H as [H | [Hin Hn]].
  - rewrite lookup_empty in H. discriminate.
  - rewrite <- pageSizes_range, pageSizes_enumerated in Hin.
    split; [exact Hin |].
    rewrite PageSize_String_nameAt; [exact Hn | now apply enumerated_bounds].
Qed.

Lemma pageSizeMap_name (p : PageSize) :
  In p enumerated -> pageSizeMap !! PageSize_String p = Some p.
Proof.
  intros H. unfold enumerated in H. cbn [In] in H.
  repeat (destruct H as [<- | H]; [vm_compute; reflexivity |]).
  contradiction.
Qed.

Lemma IsAPageSize_In (p : PageSize) :
  IsAPageSize p = true <-> In p enumerated.
Proof.
  unfold IsAPageSize. rewrite existsb_exists, pageSizes_enumerated. split.
  - intros (v & Hin & Heq). apply Z.eqb_eq in Heq. now subst.
  - intros H. exists p. split; [exact H | apply Z.eqb_refl].
Qed.

(** X1.  [PageSizeString] answers only with an enumerated value, and only
    to that value's own name. *)
Theorem PageSizeString_sound (s : string) (p : PageSize) :
  PageSizeString s = Ok p -> In p enumerated /\ PageSize_String p = s.
Proof.
  unfold PageSizeString. destruct (pageSizeMap !! s) as [v |] eqn:H;
    [| discriminate].
  intros [= <-]. now apply pageSizeMap_Some.
Qed.

(** X1 at the name "B5". *)
Lemma PageSizeString_sound_witness :
  In B5 enumerated /\ PageSize_String B5 = "B5".
Proof.
  apply (PageSizeString_sound "B5" B5). vm_compute. reflexivity.
Defined.

(** X2.  [IsAPageSize p] holds exactly for the enumerated values, and
    exactly when the name [p.String()] is looked up as [p] again; for any
    other value [String] prints "PageSize(<p>)". *)
Theorem IsAPageSize_roundtrip (p : PageSize) :
  (IsAPageSize p = true <-> In p enumerated)
  /\ (IsAPageSize p = true <-> PageSizeString (PageSize_String p) = Ok p)
  /\ (IsAPageSize p = false ->
      PageSize_String p = ("PageSize(" ++ Itoa p ++ ")")%string).
Proof.
  split; [apply IsAPageSize_In | split].
  - rewrite IsAPageSize_In. split.
    + intros H. unfold PageSizeString. now rewrite (pageSizeMap_name p H).
    + intros H. unfold PageSizeString in H.
      destruct (pageSizeMap !! PageSize_String p) as [v |] eqn:Hv;
        [| discriminate].
      injection H as ->. now apply (pageSizeMap_Some _ _ Hv).
  - intros H. unfold PageSize_String.
    destruct (p <? 0) eqn:Hlo; [reflexivity |].
    destruct (p >=? Z.of_nat (length pageSizeIdx) - 1) eqn:Hhi; [reflexivity |].
    exfalso. apply Z.ltb_ge in Hlo. rewrite Z.geb_leb in Hhi.
    apply Z.leb_gt in Hhi. cbn in Hhi.
    assert (Hin : In p enumerated).
    { assert (Hp : p = Z.of_nat (Z.to_nat p)) by lia. rewrite Hp.
      rewrite <- pageSizes_enumerated, pageSizes_range.
      apply in_map, in_seq. cbn. lia. }
    apply IsAPageSize_In in Hin. congruence.
Qed.

(** X2 at the value 99. *)
Lemma IsAPageSize_roundtrip_witness : PageSize_String 99 = "PageSize(99)".
Proof.
  apply (IsAPageSize_roundtrip 99). reflexivity.
Defined.

(** X3.  [PageSize.Set] stores an enumerated value when given its name,
    whatever the flag held; a value it stores is enumerated and has the
    given name; when it fails the flag keeps its value and the error
    wraps the lookup error behind "provided invalid page size: ". *)
Theorem PageSize_Set_flag (s : string) (old : PageSize) :
  (forall p, In p enumerated -> PageSize_Set (PageSize_String p) old = (p, None))
  /\ (forall v, PageSize_Set s old = (v, None) ->
        In v enumerated /\ PageSize_String v = s)
  /\ (forall v e, PageSize_Set s old = (v, Some e) ->
        v = old
        /\ e = fmt_Errorf_w
                 ("provided invalid page size: " ++ s
                  ++ " does not belong to PageSize values")
                 (errors_New (s ++ " does not belong to PageSize values"))).
Proof.
  assert (Hset : forall t,
             PageSize_Set t old
             = match pageSizeMap !! t with
               | Some v => (v, None)
               | None =>
                   (old,
                    Some (fmt_Errorf_w
                            ("provided invalid page size: " ++ t
                             ++ " does not belong to PageSize values")
                            (errors_New
                               (t ++ " does not belong to PageSize values"))))
               end).
  { intros t. unfold PageSize_Set, UnmarshalPageSize, PageSize_UnmarshalText,
      PageSizeString.
    rewrite string_of_list_byte_of_string.
    destruct (pageSizeMap !! t); reflexivity. }
  split; [| split].
  - intros p Hp. now rewrite Hset, (pageSizeMap_name p Hp).
  - intros v H. rewrite Hset in H.
    destruct (pageSizeMap !! s) as [w |] eqn:Hw; [| discriminate].
    injection H as ->. now apply pageSizeMap_Some.
  - intros v e H. rewrite Hset in H.
    destruct (pageSizeMap !! s) as [w |] eqn:Hw; [discriminate |].
    injection H as <- <-. split; reflexivity.
Qed.

(** X3 at the name "A3" on a flag holding Letter. *)
Lemma PageSize_Set_flag_witness :
  PageSize_Set (PageSize_String A3) Letter = (A3, None).
Proof.
  apply (PageSize_Set_flag "A3" Letter). vm_compute. tauto.
Defined.

(** X4.  [Orientation.Set] reads back what [Orientation.String] prints;
    it accepts exactly "portrait" and "landscape", and on any other
    string the flag keeps its value and the error quotes the string. *)
Theorem Orientation_Set_String (s : string) (old : Orientation) :
  (forall o, Orientation_Set (Orientation_String o) old = (o, None))
  /\ (forall v, Orientation_Set s old = (v, None) -> Orientation_String v = s)
  /\ (s <> "portrait" -> s <> "landscape" ->
      Orientation_Set s old
      = (old, Some (errors_New ("invalid orientation: '" ++ s ++ "'")))).
Proof.
  split; [| split].
  - intros [|]; reflexivity.
  - intros v. unfold Orientation_Set.
    destruct (String.eqb_spec s "portrait") as [-> | _];
      [intros [= <-]; reflexivity |].
    destruct (String.eqb_spec s "landscape") as [-> | _];
      [intros [= <-]; reflexivity | discriminate].
  - intros Hp Hl. unfold Orientation_Set.
    now rewrite (proj2 (String.eqb_neq _ _) Hp), (proj2 (String.eqb_neq _ _) Hl).
Qed.

(** X4 at the string "upside-down". *)
Lemma Orientation_Set_String_witness :
  Orientation_Set "upside-down" Landscape
  = (Landscape, Some (errors_New "invalid orientation: 'upside-down'")).
Proof.
  apply (Orientation_Set_String "upside-down" Landscape); discriminate.
Defined.

(** X5.  Every enumerated page size other than [Undefined] has a positive
    width smaller than its height; [Undefined] and every value outside
    the enumeration have the dimensions (0, 0). *)
Theorem Dimensions_portrait (p : PageSize) :
  (In p enumerated -> p <> Undefined ->
   (0 <? fst (Dimensions p))%float = true
   /\ (fst (Dimensions p) <? snd (Dimensions p))%float = true)
  /\ (~ (1 <= p <= 23) -> Dimensions p = (0, 0)%float).
Proof.
  split.
  - intros H Hne. unfold enumerated in H. cbn [In] in H.
    destruct H as [<- | H]; [now elim Hne |].
    repeat (destruct H as [<- | H]; [vm_compute; split; reflexivity |]).
    contradiction.
  - intros H. unfold Dimensions, A0, A1, A2, A3, A4, A5, A6, A7, A8, A9, A10,
      B0, B1, B2, B3, B4, B5, B6, B7, B8, B9, B10, Letter.
    repeat
      match goal with
      | |- context [p =? ?c] => rewrite (proj2 (Z.eqb_neq p c)) by lia
      end.
    reflexivity.
Qed.

(** X5 at A4 and at the value 99. *)
Lemma Dimensions_portrait_witness :
  ((0 <? fst (Dimensions A4))%float = true
   /\ (fst (Dimensions A4) <? snd (Dimensions A4))%float = true)
  /\ Dimensions 99 = (0, 0)%float.
Proof.
  destruct (Dimensions_portrait A4) as [H4 _].
  destruct (Dimensions_portrait 99) as [_ H99].
  split; [apply H4; [vm_compute; tauto | discriminate] | apply H99; lia].
Defined.

End PageSizeMore.

(** ** Length literals *)

Section LengthLiterals.

Import sizes.

Variable ParseFloat : string -> result float.
Variable TrimSpace : string -> string.

(** X6.  [UnmarshalLength] fails with "invalid length input: <s>" on a
    string that ends in none of "mm", "in" and "pt"; a length it returns
    has the unit of the suffix and the value [ParseFloat] gives for the
    text before it; [LengthFlag.Set] clears the flag on "undefined" and
    leaves it unchanged when it fails. *)
Theorem UnmarshalLength_suffix (s : string) :
  (strings_HasSuffix s "mm" = false -> strings_HasSuffix s "in" = false ->
   strings_HasSuffix s "pt" = false ->
   UnmarshalLength ParseFloat TrimSpace s
   = Err (errors_New ("invalid length input: " ++ s)))
  /\ (forall l,
        UnmarshalLength ParseFloat TrimSpace s = Ok l ->
        match l with
        | of_Millimeter v =>
            strings_HasSuffix s "mm" = true
            /\ ParseFloat (TrimSpace (strings_TrimSuffix s "mm")) = Ok v
        | of_Inch v =>
            strings_HasSuffix s "in" = true
            /\ ParseFloat (TrimSpace (strings_TrimSuffix s "in")) = Ok v
        | of_Point v =>
            strings_HasSuffix s "pt" = true
            /\ ParseFloat (TrimSpace (strings_Trim s "pt")) = Ok v
        end)
  /\ (forall lf,
        LengthFlag_Set ParseFloat TrimSpace "undefined" lf = (None, None))
  /\ (forall lf v e,
        LengthFlag_Set ParseFloat TrimSpace s lf = (v, Some e) -> v = lf).
Proof.
  split; [| split; [| split]].
  - intros Hm Hi Hp. unfold UnmarshalLength. now rewrite Hm, Hi, Hp.
  - intros l. unfold UnmarshalLength, parseMillimeter, parseInch, parsePoint.
    destruct (strings_HasSuffix s "mm") eqn:Hm.
    { destruct (ParseFloat (TrimSpace (strings_TrimSuffix s "mm"))) eqn:Hv;
        [intros [= <-]; now split | discriminate]. }
    destruct (strings_HasSuffix s "in") eqn:Hi.
    { destruct (ParseFloat (TrimSpace (strings_TrimSuffix s "in"))) eqn:Hv;
        [intros [= <-]; now split | discriminate]. }
    destruct (strings_HasSuffix s "pt") eqn:Hp; [| discriminate].
    destruct (ParseFloat (TrimSpace (strings_Trim s "pt"))) eqn:Hv;
      [intros [= <-]; now split | discriminate].
  - intros lf. reflexivity.
  - intros lf v e. unfold LengthFlag_Set.
    destruct (String.eqb s "undefined"); [discriminate |].
    destruct (UnmarshalLength ParseFloat TrimSpace s); [discriminate |].
    now intros [= <- _].
Qed.

Lemma TrimLeft_cut (c : ascii) (s cutset : string) :
  strings_inCutset c cutset = true ->
  strings_TrimLeft (String c s) cutset = strings_TrimLeft s cutset.
Proof. intros H. cbn. now rewrite H. Qed.

Lemma Trim_cut (c : ascii) (s cutset : string) :
  strings_inCutset c cutset = true ->
  strings_Trim (String c s) cutset = strings_Trim s cutset.
Proof.
  intros H. unfold strings_Trim. cbn [strings_TrimRight].
  destruct (strings_TrimRight s cutset) as [| d kept] eqn:Hk.
  - rewrite H. reflexivity.
  - now apply TrimLeft_cut.
Qed.

Lemma parsePoint_leading_cut (c : ascii) (s : string) :
  c = "p"%char \/ c = "t"%char ->
  parsePoint ParseFloat TrimSpace (String c s)
  = parsePoint ParseFloat TrimSpace s.
Proof.
  intros H. unfold parsePoint. rewrite Trim_cut; [reflexivity |].
  destruct H as [-> | ->]; reflexivity.
Qed.

Lemma HasSuffix_cons (c : ascii) (s suffix : string) :
  strings_HasSuffix s suffix = true -> strings_HasSuffix (String c s) suffix = true.
Proof.
  unfold strings_HasSuffix. intros H. apply andb_true_iff in H as [Hlen Heq].
  apply Nat.leb_le in Hlen. apply andb_true_iff. split.
  - apply Nat.leb_le. cbn [String.length]. lia.
  - cbn [String.length].
    replace (S (String.length s) - String.length suffix)%nat
      with (S (String.length s - String.length suffix)) by lia.
    exact Heq.
Qed.

Lemma HasSuffix_pt_only (s : string) :
  strings_HasSuffix s "pt" = true ->
  strings_HasSuffix s "mm" = false /\ strings_HasSuffix s "in" = false.
Proof.
  unfold strings_HasSuffix. cbn [String.length]. intros H.
  apply andb_true_iff in H as [Hlen Heq]. rewrite Hlen.
  apply String.eqb_eq in Heq. rewrite Heq. split; reflexivity.
Qed.

(** X7.  For a point literal the characters 'p' and 't' are cut from both
    ends of the whole string, not only the suffix "pt": putting a 'p' or
    a 't' in front of a string that ends in "pt" does not change what
    [UnmarshalLength] returns for it. *)
Theorem UnmarshalLength_point_leading_cut (c : ascii) (s : string) :
  strings_HasSuffix s "pt" = true ->
  c = "p"%char \/ c = "t"%char ->
  UnmarshalLength ParseFloat TrimSpace (String c s)
  = UnmarshalLength ParseFloat TrimSpace s.
Proof.
  intros Hpt Hc. unfold UnmarshalLength.
  destruct (HasSuffix_pt_only s Hpt) as [Hm Hi].
  pose proof (HasSuffix_cons c s "pt" Hpt) as Hpt'.
  destruct (HasSuffix_pt_only _ Hpt') as [Hm' Hi'].
  rewrite Hm, Hi, Hpt, Hm', Hi', Hpt'.
  now rewrite parsePoint_leading_cut.
Qed.

End LengthLiterals.

(** X6 at the literal "12mm". *)
Lemma UnmarshalLength_suffix_witness :
  strings_HasSuffix "12mm" "mm" = true
  /\ parse_twelve (trim_nothing (strings_TrimSuffix "12mm" "mm")) = Ok 12%float.
Proof.
  apply (proj1 (proj2 (UnmarshalLength_suffix parse_twelve trim_nothing "12mm"))
               (sizes.of_Millimeter 12%float)).
  vm_compute. reflexivity.
Defined.

(** X7 at the literals "pt12pt" and "t12pt", which both read as 12 points. *)
Lemma UnmarshalLength_point_leading_cut_witness :
  sizes.UnmarshalLength parse_twelve trim_nothing "pt12pt"
  = sizes.UnmarshalLength parse_twelve trim_nothing "t12pt".
Proof.
  apply (UnmarshalLength_point_leading_cut
           parse_twelve trim_nothing "p"%char "t12pt").
  - vm_compute. reflexivity.
  - now left.
Defined.

(** ** The builder: content and finalizing *)

Section BuilderMore.

Import client.

Lemma list_byte_of_string_nil (s : string) :
  list_byte_of_string s = [] <-> s = "".
Proof.
  split; [| now intros ->].
  destruct s; [reflexivity | discriminate].
Qed.

Lemma zero_parameters_validate :
  PageParameters.Validate zero_PageParameters = None
  /\ RenderParameters.Validate zero_RenderParameters = None.
Proof. split; reflexivity. Qed.

(** X8.  [SetContent] on a builder without error is all or nothing: when
    it records an error the draft is unchanged, and the error is
    [ErrContentTypeDeclared], an error wrapping [ErrContentType], or
    "invalid content method: <method>"; when it records none, the method
    is "dir", "html" or "web", the draft has the method and content type
    of the content, and its page parameters, render parameters and
    timeout are unchanged. *)
Theorem SetContent_all_or_nothing (c : content.Content) (q : QueryBuilder) :
  err q = None ->
  (forall e,
      err (QueryBuilder.SetContent c q) = Some e ->
      query (QueryBuilder.SetContent c q) = query q
      /\ (e = ErrContentTypeDeclared
          \/ e = fmt_Errorf_w "empty custom content type invalid content type"
                              ErrContentType
          \/ e = errors_New ("invalid content method: " ++ content.Method c)))
  /\ (err (QueryBuilder.SetContent c q) = None ->
      (content.Method c = "dir" \/ content.Method c = "html"
       \/ content.Method c = "web")
      /\ Method (query (QueryBuilder.SetContent c q)) = content.Method c
      /\ ContentType (query (QueryBuilder.SetContent c q))
         = content.ContentType c
      /\ Query_PageParameters (query (QueryBuilder.SetContent c q))
         = Query_PageParameters (query q)
      /\ Query_RenderParameters (query (QueryBuilder.SetContent c q))
         = Query_RenderParameters (query q)
      /\ TimeoutDuration (query (QueryBuilder.SetContent c q))
         = TimeoutDuration (query q)).
Proof.
  intros He. unfold QueryBuilder.SetContent. rewrite He.
  destruct (String.eqb_spec (content.Method c) "dir") as [Hd | Hd];
    [| destruct (String.eqb_spec (content.Method c) "html") as [Hh | Hh];
       [| destruct (String.eqb_spec (content.Method c) "web") as [Hw | Hw]]];
    cbn [orb];
    destruct (String.eqb (ContentType (query q)) "");
    destruct (String.eqb (content.ContentType c) "") eqn:Hct;
    cbn [negb];
    (split; [intros e Hx | intros Hx]); cbn in Hx;
    try (rewrite He in Hx); try discriminate.
  all: try (injection Hx as <-; split;
            [ reflexivity
            | first [ left; reflexivity
                    | right; left; reflexivity
                    | right; right; reflexivity ] ]).
  all: repeat split; try reflexivity; tauto.
Qed.

(** X8 at a content with the method "ftp". *)
Lemma SetContent_all_or_nothing_witness :
  query (QueryBuilder.SetContent
           {| content.ContentType := "text/html"; content.Method := "ftp";
              content.Data := [] |} BuildHTMLQuery)
  = query BuildHTMLQuery.
Proof.
  apply (proj1 (SetContent_all_or_nothing
                  {| content.ContentType := "text/html";
                     content.Method := "ftp"; content.Data := [] |}
                  BuildHTMLQuery eq_refl)
               (errors_New "invalid content method: ftp")).
  reflexivity.
Defined.

(** X9.  A fresh builder given content of method "html" or "dir" with a
    content type yields, when finalized, the query with that content,
    type and method when the content has bytes, and [ErrMissingData] when
    it has none; for inline markup that is exactly the empty string. *)
Theorem Query_of_data_content (c : content.Content) :
  content.Method c = "html" \/ content.Method c = "dir" ->
  content.ContentType c <> "" ->
  (content.Data c <> [] ->
   QueryBuilder.Query (QueryBuilder.SetContent c BuildHTMLQuery)
   = Ok (query_of_content (content.Data c) (content.ContentType c)
                          (content.Method c)))
  /\ (content.Data c = [] ->
      QueryBuilder.Query (QueryBuilder.SetContent c BuildHTMLQuery)
      = Err ErrMissingData)
  /\ (forall html,
        c = content.StringContent html ->
        (QueryBuilder.Query (QueryBuilder.SetContent c BuildHTMLQuery)
         = Err ErrMissingData <-> html = "")).
Proof.
  intros Hm Ht.
  assert (Hset : QueryBuilder.SetContent c BuildHTMLQuery
                 = {| query := query_of_content (content.Data c)
                                 (content.ContentType c) (content.Method c);
                      err := None |}).
  { unfold QueryBuilder.SetContent. cbn [err BuildHTMLQuery].
    rewrite (eqb_false _ _ Ht).
    destruct Hm as [Hm | Hm]; rewrite Hm; reflexivity. }
  assert (Hnonempty : content.Data c <> [] ->
            QueryBuilder.Query (QueryBuilder.SetContent c BuildHTMLQuery)
            = Ok (query_of_content (content.Data c) (content.ContentType c)
                                   (content.Method c))).
  { intros Hd. rewrite Hset.
    unfold QueryBuilder.Query, QueryBuilder.Validate, Query.Validate,
      Query.Validate_content. cbn [err query query_of_content Method Content
      ContentType Query_PageParameters Query_RenderParameters].
    rewrite (content_nonempty _ Hd), (eqb_false _ _ Ht).
    destruct Hm as [Hm | Hm]; rewrite Hm; reflexivity. }
  assert (Hempty : content.Data c = [] ->
            QueryBuilder.Query (QueryBuilder.SetContent c BuildHTMLQuery)
            = Err ErrMissingData).
  { intros Hd. rewrite Hset.
    unfold QueryBuilder.Query, QueryBuilder.Validate, Query.Validate,
      Query.Validate_content. cbn [err query query_of_content Method Content
      ContentType Query_PageParameters Query_RenderParameters].
    rewrite Hd. destruct Hm as [Hm | Hm]; rewrite Hm; reflexivity. }
  split; [exact Hnonempty | split; [exact Hempty |]].
  intros html ->. cbn [content.Data content.StringContent] in *. split.
  - intros H. apply list_byte_of_string_nil.
    destruct (list_byte_of_string html) eqn:Hb; [reflexivity |].
    rewrite Hnonempty in H; [discriminate | discriminate].
  - intros ->. now apply Hempty.
Qed.

(** X9 at the inline markup "<p>hello</p>". *)
Lemma Query_of_data_content_witness :
  QueryBuilder.Query
    (QueryBuilder.SetContent (content.StringContent "<p>hello</p>")
                             BuildHTMLQuery)
  = Ok (query_of_content (list_byte_of_string "<p>hello</p>") "text/html"
                         "html").
Proof.
  apply (Query_of_data_content (content.StringContent "<p>hello</p>"));
    [now left | discriminate | discriminate].
Defined.

(** X10.  A fresh builder given content of method "web" yields, when
    finalized, the query whose URL is the content's bytes read as a
    string, and [ErrMissingData] when there are none; for a URL reference
    the URL is the path it was made from. *)
Theorem Query_of_web_content (c : content.Content) :
  content.Method c = "web" ->
  (content.Data c <> [] ->
   QueryBuilder.Query (QueryBuilder.SetContent c BuildHTMLQuery)
   = Ok (query_of_url (string_of_list_byte (content.Data c))
                      (content.ContentType c)))
  /\ (content.Data c = [] ->
      QueryBuilder.Query (QueryBuilder.SetContent c BuildHTMLQuery)
      = Err ErrMissingData)
  /\ (forall path,
        c = content.webURL path -> path <> "" ->
        QueryBuilder.Query (QueryBuilder.SetContent c BuildHTMLQuery)
        = Ok (query_of_url path "text/plain")).
Proof.
  intros Hm.
  assert (Hset : QueryBuilder.SetContent c BuildHTMLQuery
                 = {| query := query_of_url
                                 (string_of_list_byte (content.Data c))
                                 (content.ContentType c);
                      err := None |}).
  { unfold QueryBuilder.SetContent. cbn [err BuildHTMLQuery].
    rewrite Hm. reflexivity. }
  assert (Hnonempty : content.Data c <> [] ->
            QueryBuilder.Query (QueryBuilder.SetContent c BuildHTMLQuery)
            = Ok (query_of_url (string_of_list_byte (content.Data c))
                               (content.ContentType c))).
  { intros Hd. rewrite Hset.
    unfold QueryBuilder.Query, QueryBuilder.Validate, Query.Validate,
      Query.Validate_content. cbn [err query query_of_url Method URL
      Query_PageParameters Query_RenderParameters].
    destruct (content.Data c) as [| b rest]; [congruence |]. reflexivity. }
  split; [exact Hnonempty | split].
  - intros Hd. rewrite Hset, Hd. reflexivity.
  - intros path -> Hp. cbn [content.Data content.webURL content.ContentType] in *.
    rewrite Hnonempty.
    + now rewrite string_of_list_byte_of_string.
    + intros H. now apply list_byte_of_string_nil in H.
Qed.

(** X10 at the URL "https://example.com". *)
Lemma Query_of_web_content_witness :
  QueryBuilder.Query
    (QueryBuilder.SetContent (content.webURL "https://example.com")
                             BuildHTMLQuery)
  = Ok (query_of_url "https://example.com" "text/plain").
Proof.
  apply (proj2 (proj2 (Query_of_web_content
                         (content.webURL "https://example.com") eq_refl))
               "https://example.com");
    [reflexivity | discriminate].
Defined.

End BuilderMore.

(** ** Validation: order and completeness *)

Section ValidationMore.

Import client.

Lemma negative_None (l : option sizes.Length) (msg : string) :
  PageParameters.negative l msg = None <-> ~ is_negative l.
Proof.
  split; [| apply negative_not_negative].
  destruct l as [v |]; cbn; [| tauto].
  destruct (sizes.Millimeters v <? 0)%float; [discriminate | intros _ H; discriminate].
Qed.

Lemma PageParameters_Validate_None (p : PageParameters) :
  PageParameters.Validate p = None
  <-> (forall d, ~ is_negative (dimension_get d p)) /\ page_size_recognized p.
Proof.
  unfold PageParameters.Validate, page_size_recognized. split.
  - intros H.
    destruct (PageParameters.negative (PaperWidth p) _) eqn:H1; [discriminate |].
    destruct (PageParameters.negative (PaperHeight p) _) eqn:H2; [discriminate |].
    destruct (PageParameters.negative (MarginTop p) _) eqn:H3; [discriminate |].
    destruct (PageParameters.negative (MarginBottom p) _) eqn:H4; [discriminate |].
    destruct (PageParameters.negative (MarginLeft p) _) eqn:H5; [discriminate |].
    destruct (PageParameters.negative (MarginRight p) _) eqn:H6; [discriminate |].
    split.
    + intros d; destruct d; cbn [dimension_get];
        eapply negative_None; eassumption.
    + destruct (PageSize p) as [ps |]; [| exact I].
      destruct (sizes.IsAPageSize ps) eqn:Hps; [| discriminate].
      now apply IsAPageSize_In.
  - intros [Hd Hp].
    rewrite (negative_not_negative _ _ (Hd DimPaperWidth)).
    rewrite (negative_not_negative _ _ (Hd DimPaperHeight)).
    rewrite (negative_not_negative _ _ (Hd DimMarginTop)).
    rewrite (negative_not_negative _ _ (Hd DimMarginBottom)).
    rewrite (negative_not_negative _ _ (Hd DimMarginLeft)).
    rewrite (negative_not_negative _ _ (Hd DimMarginRight)).
    destruct (PageSize p) as [ps |]; [| reflexivity].
    now rewrite (IsAPageSize_enumerated _ Hp).
Qed.

Lemma Validate_content_None (q : Query) :
  Query.Validate_content q = None <-> content_present q.
Proof.
  unfold Query.Validate_content, content_present.
  destruct (String.eqb_spec (Method q) "web") as [Hw | Hw].
  - destruct (String.eqb_spec (URL q) "") as [Hu | Hu].
    + split; [discriminate |].
      intros [[_ H] | [[H | H] _]]; congruence.
    + split; [intros _; now left | reflexivity].
  - destruct (String.eqb_spec (Method q) "dir") as [Hd | Hd];
      [| destruct (String.eqb_spec (Method q) "html") as [Hh | Hh]];
      cbn [orb].
    3: { split; [discriminate |]. intros [[H _] | [[H | H] _]]; congruence. }
    all: destruct (Content q) as [| b rest]; cbn [length Z.of_nat Z.eqb];
      [ split; [discriminate | intros [[H _] | [_ [H _]]]; congruence] |];
      destruct (String.eqb_spec (ContentType q) "") as [Ht | Ht];
      [ split; [discriminate | intros [[H _] | [_ [_ H]]]; congruence]
      | split; [intros _; right; repeat split; (tauto || discriminate)
               | reflexivity ] ].
Qed.

(** X11.  [PageParameters.Validate] reports the first negative dimension
    in the order paper width, paper height, top, bottom, left and right
    margin, whatever the later dimensions and the page size are; an
    unrecognized page size is reported only when no dimension is
    negative. *)
Theorem PageParameters_Validate_first_negative (p : PageParameters) :
  (forall d,
      is_negative (dimension_get d p) ->
      (forall d', (dimension_index d' < dimension_index d)%nat ->
                  ~ is_negative (dimension_get d' p)) ->
      PageParameters.Validate p
      = Some (errors_New ("negative value for " ++ dimension_name d)))
  /\ (forall ps,
        (forall d, ~ is_negative (dimension_get d p)) ->
        PageSize p = Some ps -> ~ In ps enumerated ->
        PageParameters.Validate p = Some (errors_New "invalid page size")).
Proof.
  split.
  - intros d Hneg Hbefore. unfold PageParameters.Validate.
    destruct d; cbn [dimension_get dimension_name] in *;
      repeat
        match goal with
        | |- context [PageParameters.negative ?f ?msg] =>
            first
              [ rewrite (negative_is_negative f msg Hneg); reflexivity
              | rewrite (negative_not_negative f msg);
                [| first
                     [ apply (Hbefore DimPaperWidth)
                     | apply (Hbefore DimPaperHeight)
                     | apply (Hbefore DimMarginTop)
                     | apply (Hbefore DimMarginBottom)
                     | apply (Hbefore DimMarginLeft)
                     | apply (Hbefore DimMarginRight) ]; cbn; lia ] ]
        end.
  - intros ps Hd Hps Hin. unfold PageParameters.Validate.
    rewrite (negative_not_negative _ _ (Hd DimPaperWidth)).
    rewrite (negative_not_negative _ _ (Hd DimPaperHeight)).
    rewrite (negative_not_negative _ _ (Hd DimMarginTop)).
    rewrite (negative_not_negative _ _ (Hd DimMarginBottom)).
    rewrite (negative_not_negative _ _ (Hd DimMarginLeft)).
    rewrite (negative_not_negative _ _ (Hd DimMarginRight)).
    rewrite Hps. destruct (sizes.IsAPageSize ps) eqn:H; [| reflexivity].
    apply IsAPageSize_In in H. contradiction.
Qed.

(** X11 at a negative paper height together with a negative left margin. *)
Lemma PageParameters_Validate_first_negative_witness :
  PageParameters.Validate page_two_negative
  = Some (errors_New "negative value for PaperHeight").
Proof.
  apply (proj1 (PageParameters_Validate_first_negative page_two_negative)
               DimPaperHeight).
  - vm_compute. reflexivity.
  - intros d' Hlt. destruct d'; cbn in Hlt; try lia. cbn. tauto.
Defined.

(** X12.  [Query.Validate] succeeds exactly when the content fits the
    method (a URL for "web"; content bytes and a content type for "html"
    and "dir"), no dimension is below zero millimeters, the page size is
    absent or enumerated, the wait time is at most three minutes and
    every wait-ready condition has a selector and a lookup strategy from
    [ByID] to [BySearch]. *)
Theorem Query_Validate_None (q : Query) :
  Query.Validate q = None
  <-> content_present q
      /\ (forall d, ~ is_negative (dimension_get d (Query_PageParameters q)))
      /\ page_size_recognized (Query_PageParameters q)
      /\ WaitTime (Query_RenderParameters q) <= 3 * time.Minute
      /\ Forall valid_condition (WaitReady (Query_RenderParameters q)).
Proof.
  rewrite <- Validate_content_None.
  rewrite <- RenderParameters_Validate_None.
  rewrite (and_assoc (forall d, _)), <- PageParameters_Validate_None.
  unfold Query.Validate.
  destruct (Query.Validate_content q);
    [split; [discriminate | intros [H _]; discriminate] |].
  destruct (PageParameters.Validate _);
    [split; [discriminate | intros [_ [H _]]; discriminate] |].
  destruct (RenderParameters.Validate _);
    [split; [discriminate | intros [_ [_ H]]; discriminate] |].
  tauto.
Qed.

(** X13.  [RenderParameters.Validate] checks the wait time first and then
    the wait-ready conditions in order: with a wait time of at most three
    minutes, the error is the one of the first invalid condition, wrapped
    behind "one of wait ready selector is not valid: ". *)
Theorem RenderParameters_Validate_first_invalid (rp : RenderParameters) :
  (3 * time.Minute < WaitTime rp ->
   RenderParameters.Validate rp
   = Some (errors_New "too long minimum load time. Maximum is 3 minutes"))
  /\ (forall good bad rest e,
        WaitTime rp <= 3 * time.Minute ->
        WaitReady rp = good ++ bad :: rest ->
        Forall valid_condition good ->
        BySelector.Validate bad = Some e ->
        RenderParameters.Validate rp
        = Some (fmt_Errorf_w
                  ("one of wait ready selector is not valid: " ++ Error e) e)).
Proof.
  unfold RenderParameters.Validate. split.
  - intros H. apply Z.gtb_lt in H. rewrite Z.mul_comm in H. now rewrite H.
  - intros good bad rest e Hw Hl Hgood Hbad.
    destruct (WaitTime rp >? time.Minute * 3) eqn:Hgt;
      [apply Z.gtb_lt in Hgt; lia |].
    rewrite Hl. clear Hl. induction Hgood as [| b good Hb _ IH]; cbn.
    + now rewrite Hbad.
    + apply BySelector_Validate_valid in Hb. now rewrite Hb.
Qed.

(** X13 at a valid condition followed by the empty selector. *)
Lemma RenderParameters_Validate_first_invalid_witness :
  RenderParameters.Validate
    {| WaitTime := time.Second;
       WaitReady := [{| Selector := "#ready"; By := selector.ByID |};
                     empty_selector];
       WaitVisible := [] |}
  = Some (fmt_Errorf_w
            "one of wait ready selector is not valid: provided empty selector"
            (errors_New "provided empty selector")).
Proof.
  apply (proj2 (RenderParameters_Validate_first_invalid
                  {| WaitTime := time.Second;
                     WaitReady := [{| Selector := "#ready";
                                      By := selector.ByID |};
                                   empty_selector];
                     WaitVisible := [] |})
               [{| Selector := "#ready"; By := selector.ByID |}]
               empty_selector [] (errors_New "provided empty selector")).
  - vm_compute. discriminate.
  - reflexivity.
  - constructor; [| constructor]. split; [discriminate | vm_compute; split; discriminate].
  - reflexivity.
Defined.

End ValidationMore.

(** ** The client: construction, health check and conversion *)

Section ClientMore.

Import client.

(** Options that need no default are taken as they are. *)
Lemma New_fixed (o : Options) :
  0 < Port o -> Hostname o <> "" -> DefaultTimeout o = time.Second * 30 ->
  New o = {| Client_Options := o;
             Client_Client := {| http.Timeout := time.Second * 30 |} |}.
Proof.
  destruct o as [https host port dt pre]. cbn. intros Hp Hh ->.
  unfold New, set_DefaultTimeout, set_Port, set_Hostname. cbn.
  apply Z.leb_gt in Hp. rewrite Hp. cbn.
  rewrite (proj2 (String.eqb_neq host "") Hh). reflexivity.
Qed.

Lemma New_options (o : Options) :
  Hostname (Client_Options (New o)) <> ""
  /\ 0 < Port (Client_Options (New o))
  /\ HTTPS (Client_Options (New o)) = HTTPS o
  /\ Prefix (Client_Options (New o)) = Prefix o
  /\ DefaultTimeout (Client_Options (New o)) = time.Second * 30
  /\ Client_Client (New o) = {| http.Timeout := time.Second * 30 |}.
Proof.
  destruct o as [https host port dt pre].
  unfold New, set_DefaultTimeout, set_Port, set_Hostname. cbn.
  destruct (port <=? 0) eqn:Hp; cbn;
    destruct (String.eqb_spec host "") as [Hh | Hh]; cbn;
    try (apply Z.leb_gt in Hp);
    repeat split; try discriminate; try assumption; lia.
Qed.

(** X14.  A client from [New] never has an empty hostname or a port below
    one; the scheme flag and the prefix are the caller's, and building a
    client from its own options changes nothing. *)
Theorem New_options_invariant (o : Options) :
  Hostname (Client_Options (New o)) <> ""
  /\ 0 < Port (Client_Options (New o))
  /\ HTTPS (Client_Options (New o)) = HTTPS o
  /\ Prefix (Client_Options (New o)) = Prefix o
  /\ New (Client_Options (New o)) = New o.
Proof.
  destruct (New_options o) as (Hh & Hp & Hs & Hx & Hd & Hc).
  repeat split; try assumption.
  rewrite (New_fixed _ Hp Hh Hd).
  destruct (New o) as [opts cl]. cbn in *. now rewrite Hc.
Qed.

Variable env : Env.

(** X15.  [ConvertHTML] never changes the client and makes at most one
    exchange, after the ones made before: none when the query does not
    validate (the validation error is returned) or when the request
    cannot be built, and one otherwise, also when the round trip fails,
    whose error is then returned as it is. *)
Theorem ConvertHTML_single_exchange (cli : Client) (q : Query)
        (net : list Call) :
  client_after (ConvertHTML env cli q net) = cli
  /\ (forall e,
        Query.Validate q = Some e ->
        returned (ConvertHTML env cli q net) = Err e
        /\ exchanges_after (ConvertHTML env cli q net) = net)
  /\ (forall e,
        Query.Validate q = None ->
        getGenerateRequest env cli q = Err e ->
        returned (ConvertHTML env cli q net) = Err e
        /\ exchanges_after (ConvertHTML env cli q net) = net)
  /\ (forall req,
        Query.Validate q = None ->
        getGenerateRequest env cli q = Ok req ->
        exchanges_after (ConvertHTML env cli q net)
        = net ++ [(httpClient cli q, req)]
        /\ (forall e,
              http_Do env net (httpClient cli q) req = Err e ->
              returned (ConvertHTML env cli q net) = Err e)).
Proof.
  unfold ConvertHTML, client_after, returned, exchanges_after.
  repeat split.
  - destruct (Query.Validate q); [reflexivity |].
    destruct (getGenerateRequest env cli q) as [req |]; [| reflexivity].
    destruct (http_Do env net _ req); reflexivity.
  - now rewrite H.
  - now rewrite H.
  - now rewrite H, H0.
  - now rewrite H, H0.
  - rewrite H, H0. destruct (http_Do env net _ req); reflexivity.
  - intros e He. now rewrite H, H0, He.
Qed.

(** X16.  [ConvertHTML] returns a [PDFResponse] only for a response with
    status 201 whose body decodes and is read to its end; the response
    then carries the [X-Job-ID] header and the decoded bytes. *)
Theorem ConvertHTML_success_only_created (cli : Client) (q : Query)
        (net : list Call) (pdf : PDFResponse) :
  returned (ConvertHTML env cli q net) = Ok pdf ->
  exists req resp r,
    answered env cli q net req resp
    /\ decodes env resp r
    /\ http.StatusCode resp = 201
    /\ Stream_err r = None
    /\ pdf = {| ID := http.Header_Get (http.Response_Header resp) "X-Job-ID";
                Data := Stream_bytes r |}.
Proof.
  unfold ConvertHTML, returned.
  destruct (Query.Validate q) eqn:Hv; [discriminate |].
  destruct (getGenerateRequest env cli q) as [req |] eqn:Hreq; [| discriminate].
  destruct (http_Do env net _ req) as [resp |] eqn:Hdo; [| discriminate].
  cbn [fst]. unfold ConvertHTML_response.
  destruct (reader env resp) as [r |] eqn:Hr; [| discriminate].
  cbn [io_ReadAll].
  destruct (httpErr (http.StatusCode resp)) as [k |] eqn:Hk;
    [destruct (Stream_err r); discriminate |].
  destruct (Stream_err r) eqn:He; [discriminate |].
  intros [= <-]. exists req, resp, r.
  split; [now repeat split |]. split.
  - unfold reader in Hr. unfold decodes, encoding.
    destruct (String.eqb_spec
                (http.Header_Get (http.Response_Header resp) "Content-Encoding")
                "gzip") as [Hg | _]; [left; now split |].
    destruct (String.eqb_spec
                (http.Header_Get (http.Response_Header resp) "Content-Encoding")
                "deflate") as [Hd | _];
      [right; left; split; [exact Hd | congruence] |].
    destruct (String.eqb_spec
                (http.Header_Get (http.Response_Header resp) "Content-Encoding")
                "") as [Hn | _];
      [right; right; split; [exact Hn | congruence] | discriminate].
  - split; [| now split].
    unfold httpErr, http.StatusNotFound, http.StatusBadRequest,
      http.StatusNotImplemented, http.StatusUnauthorized,
      http.StatusRequestTimeout, http.StatusCreated in Hk.
    repeat
      match type of Hk with
      | (if ?c =? ?k then _ else _) = None =>
          destruct (Z.eqb_spec c k); [first [discriminate | assumption] |]
      end.
    discriminate.
Qed.

(** X17.  [HealthCheck] makes one exchange, with the client's own
    [http.Client], and leaves the client as it is; when it is answered it
    succeeds exactly on status 200, and maps 404, 500 and 502 to
    [ErrNotFound], [ErrInternalError] and [ErrBadGateway] and every other
    status to [ErrNotImplemented]. *)
Theorem HealthCheck_status (cli : Client) (net : list Call)
        (req : http.Request) (resp : http.Response) :
  health_answered env cli net req resp ->
  snd (HealthCheck env cli net) = net ++ [(Client_Client cli, req)]
  /\ snd (fst (HealthCheck env cli net)) = cli
  /\ (fst (fst (HealthCheck env cli net)) = None
      <-> http.StatusCode resp = 200)
  /\ (http.StatusCode resp = 404 ->
      fst (fst (HealthCheck env cli net)) = Some ErrNotFound)
  /\ (http.StatusCode resp = 500 ->
      fst (fst (HealthCheck env cli net)) = Some ErrInternalError)
  /\ (http.StatusCode resp = 502 ->
      fst (fst (HealthCheck env cli net)) = Some ErrBadGateway)
  /\ (~ In (http.StatusCode resp) [200; 404; 500; 502] ->
      fst (fst (HealthCheck env cli net)) = Some ErrNotImplemented).
Proof.
  intros [Hreq Hdo]. unfold HealthCheck. rewrite Hreq, Hdo. cbn [fst snd].
  unfold http.StatusOK, http.StatusNotFound, http.StatusInternalServerError,
    http.StatusBadGateway.
  repeat split.
  - destruct (Z.eqb_spec (http.StatusCode resp) 200); [tauto |].
    destruct (http.StatusCode resp =? 404); [discriminate |].
    destruct (http.StatusCode resp =? 500); [discriminate |].
    destruct (http.StatusCode resp =? 502); discriminate.
  - now intros ->.
  - now intros ->.
  - now intros ->.
  - now intros ->.
  - cbn [In]. intros H.
    repeat
      match goal with
      | |- context [http.StatusCode resp =? ?c] =>
          rewrite (proj2 (Z.eqb_neq (http.StatusCode resp) c))
            by (intros Heq; apply H; rewrite Heq; tauto)
      end.
    reflexivity.
Qed.

End ClientMore.

(** X16 at a 201 response with a gzip body. *)
Lemma ConvertHTML_success_only_created_witness :
  exists req resp r,
    answered (env_answering response_201_gzip) client_example (query_html 0)
             [] req resp
    /\ decodes (env_answering response_201_gzip) resp r
    /\ http.StatusCode resp = 201
    /\ Stream_err r = None
    /\ {| client.ID := "job-1"; client.Data := list_byte_of_string "%PDF" |}
       = {| client.ID :=
              http.Header_Get (http.Response_Header resp) "X-Job-ID";
            client.Data := Stream_bytes r |}.
Proof.
  apply (ConvertHTML_success_only_created
           (env_answering response_201_gzip) client_example (query_html 0) []).
  vm_compute. reflexivity.
Defined.

(** X17 at a 204 response, which the health check does not accept. *)
Lemma HealthCheck_status_witness :
  fst (fst (client.HealthCheck (env_answering response_204) client_example []))
  = Some client.ErrNotImplemented.
Proof.
  apply (HealthCheck_status (env_answering response_204) client_example []
                            request_health response_204).
  - split; vm_compute; reflexivity.
  - vm_compute. intuition discriminate.
Defined.

(** ** From the builder to the wire *)

Section RequestMore.

Import client.

Variable env : Env.

(** X18.  A request built by [getGenerateRequest] is the POST request for
    "<address>/v1/pdf" whose body encodes a payload with the method,
    timeout, page and render parameters of the query; the payload carries
    the URL and neither content nor content type for "web", and the
    content and content type and no URL for "html" and "dir"; the request
    has the [Content-Type] and [Accept-Encoding] headers of the protocol
    and keeps every other header. *)
Theorem getGenerateRequest_payload (cli : Client) (q : Query)
        (req : http.Request) :
  getGenerateRequest env cli q = Ok req ->
  exists d buf req0,
    json_Encode env d = Ok buf
    /\ http_NewRequest env "POST"
         (Options.Addr (Client_Options cli) ++ "/v1/pdf") buf = Ok req0
    /\ v1_Method d = Method q
    /\ v1_TimeoutDuration d = TimeoutDuration q
    /\ v1_PageParameters d = Query_PageParameters q
    /\ v1_RenderParameters d = Query_RenderParameters q
    /\ (Method q = "web" ->
        v1_ContentURL d = URL q /\ v1_Content d = [] /\ v1_ContentType d = "")
    /\ (Method q = "html" \/ Method q = "dir" ->
        v1_ContentURL d = "" /\ v1_Content d = Content q
        /\ v1_ContentType d = ContentType q)
    /\ http.Header_Get (http.Request_Header req) "Content-Type"
       = "application/json"
    /\ http.Header_Get (http.Request_Header req) "Accept-Encoding"
       = "deflate, gzip;q=1.0, *;q=0.5"
    /\ (forall key, key <> "Content-Type" -> key <> "Accept-Encoding" ->
          http.Header_Get (http.Request_Header req) key
          = http.Header_Get (http.Request_Header req0) key)
    /\ http.Request_Method req = http.Request_Method req0
    /\ http.Request_URL req = http.Request_URL req0
    /\ http.Request_Body req = http.Request_Body req0.
Proof.
  unfold getGenerateRequest.
  match goal with
  | |- match json_Encode env ?payload with _ => _ end = _ -> _ =>
      set (d := payload)
  end.
  destruct (json_Encode env d) as [buf |] eqn:Hbuf; [| discriminate].
  destruct (http_NewRequest env _ _ buf) as [req0 |] eqn:Hreq; [| discriminate].
  intros [= <-]. exists d, buf, req0.
  split; [exact Hbuf |]. split; [exact Hreq |].
  assert (Hfields :
            v1_Method d = Method q /\ v1_TimeoutDuration d = TimeoutDuration q
            /\ v1_PageParameters d = Query_PageParameters q
            /\ v1_RenderParameters d = Query_RenderParameters q).
  { subst d. destruct (String.eqb (Method q) "web");
      [| destruct (String.eqb (Method q) "dir" || String.eqb (Method q) "html")];
      repeat split. }
  destruct Hfields as (H1 & H2 & H3 & H4).
  split; [exact H1 |]. split; [exact H2 |]. split; [exact H3 |].
  split; [exact H4 |].
  split. { subst d. intros Hm. rewrite Hm. repeat split. }
  split. { subst d. intros [Hm | Hm]; rewrite Hm; repeat split. }
  split.
  { unfold http.Request_setHeader, http.Header_Get, http.Header_Set. cbn.
    rewrite lookup_insert_ne by discriminate.
    now rewrite lookup_insert_eq. }
  split.
  { unfold http.Request_setHeader, http.Header_Get, http.Header_Set. cbn.
    now rewrite lookup_insert_eq. }
  split; [| repeat split].
  intros key Hc Ha.
  unfold http.Request_setHeader, http.Header_Get, http.Header_Set. cbn.
  rewrite lookup_insert_ne by congruence.
  now rewrite lookup_insert_ne by congruence.
Qed.


End RequestMore.

(** X15 at the query with method "html" and no content: no exchange. *)
Lemma ConvertHTML_single_exchange_witness :
  returned (client.ConvertHTML (env_answering response_201_gzip)
                               client_example query_html_empty [])
  = Err client.ErrMissingData
  /\ exchanges_after (client.ConvertHTML (env_answering response_201_gzip)
                                         client_example query_html_empty [])
     = [].
Proof.
  destruct (ConvertHTML_single_exchange (env_answering response_201_gzip)
                                        client_example query_html_empty [])
    as (_ & H & _).
  apply (H client.ErrMissingData). reflexivity.
Defined.

(** X18 at the inline-markup query on the example client. *)
Lemma getGenerateRequest_payload_witness :
  exists d buf req0,
    client.json_Encode (env_answering response_201_gzip) d = Ok buf
    /\ client.http_NewRequest (env_answering response_201_gzip) "POST"
         (client.Options.Addr (client.Client_Options client_example)
          ++ "/v1/pdf") buf = Ok req0
    /\ client.v1_Method d = "html"
    /\ client.v1_Content d = list_byte_of_string "<html></html>"
    /\ client.v1_ContentURL d = ""
    /\ http.Header_Get (http.Request_Header request_html) "Content-Type"
       = "application/json".
Proof.
  destruct (getGenerateRequest_payload
              (env_answering response_201_gzip) client_example (query_html 0)
              request_html)
    as (d & buf & req0 & H1 & H2 & H3 & _ & _ & _ & _ & H8 & H9 & _).
  - vm_compute. reflexivity.
  - exists d, buf, req0. destruct (H8 (or_introl eq_refl)) as (Hu & Hc & _).
    repeat split; assumption.
Defined.


(** ** The document assembler: margins and the query it builds *)

Section DocumentMore.

Import client.

(** X20.  [getMargins] never returns an absent margin: in relative
    positioning all four are one millimeter, whatever the document holds;
    in absolute positioning a margin of the document is kept and an
    absent one is ten millimeters. *)
Theorem getMargins_resolved (d : html.Document) (s : side) :
  side_get s (html.getMargins d) <> None
  /\ (html.IsRelative (html.position d) = true ->
      side_get s (html.getMargins d) = Some (sizes.of_Millimeter 1%float))
  /\ (html.IsRelative (html.position d) = false ->
      side_get s (html.getMargins d)
      = match side_get s (html.Document_margins d) with
        | Some l => Some l
        | None => Some (sizes.of_Millimeter 10%float)
        end).
Proof.
  unfold html.getMargins.
  destruct (html.IsRelative (html.position d)).
  - destruct s; cbn; repeat split; discriminate.
  - destruct (html.Document_margins d) as [l r b t].
    destruct s; cbn; [destruct l | destruct r | destruct b | destruct t];
      repeat split; discriminate.
Qed.

(** The loops of [extract] over the wait conditions. *)
Lemma fold_WaitReady (l : list BySelector) (q : QueryBuilder) :
  let q' :=
    fold_left (fun q sel => QueryBuilder.WaitReady (Selector sel) (By sel) q) l q in
  err q' = err q
  /\ WaitReady (Query_RenderParameters (query q'))
     = WaitReady (Query_RenderParameters (query q)) ++ l
  /\ WaitVisible (Query_RenderParameters (query q'))
     = WaitVisible (Query_RenderParameters (query q))
  /\ WaitTime (Query_RenderParameters (query q'))
     = WaitTime (Query_RenderParameters (query q))
  /\ Query_PageParameters (query q') = Query_PageParameters (query q)
  /\ TimeoutDuration (query q') = TimeoutDuration (query q)
  /\ Content (query q') = Content (query q)
  /\ ContentType (query q') = ContentType (query q)
  /\ URL (query q') = URL (query q)
  /\ Method (query q') = Method (query q).
Proof.
  cbv zeta. revert q. induction l as [| sel l IH]; intros q; cbn [fold_left].
  - rewrite app_nil_r. repeat split.
  - destruct (IH (QueryBuilder.WaitReady (Selector sel) (By sel) q))
      as (H1 & H2 & H3 & H4 & H5 & H6 & H7 & H8 & H9 & H10).
    rewrite H1, H2, H3, H4, H5, H6, H7, H8, H9, H10.
    destruct sel as [sl b]. cbn. rewrite <- app_assoc. repeat split.
Qed.

Lemma fold_WaitVisible (l : list BySelector) (q : QueryBuilder) :
  let q' :=
    fold_left (fun q sel => QueryBuilder.WaitVisible (Selector sel) (By sel) q) l q in
  err q' = err q
  /\ WaitVisible (Query_RenderParameters (query q'))
     = WaitVisible (Query_RenderParameters (query q)) ++ l
  /\ WaitReady (Query_RenderParameters (query q'))
     = WaitReady (Query_RenderParameters (query q))
  /\ WaitTime (Query_RenderParameters (query q'))
     = WaitTime (Query_RenderParameters (query q))
  /\ Query_PageParameters (query q') = Query_PageParameters (query q)
  /\ TimeoutDuration (query q') = TimeoutDuration (query q)
  /\ Content (query q') = Content (query q)
  /\ ContentType (query q') = ContentType (query q)
  /\ URL (query q') = URL (query q)
  /\ Method (query q') = Method (query q).
Proof.
  cbv zeta. revert q. induction l as [| sel l IH]; intros q; cbn [fold_left].
  - rewrite app_nil_r. repeat split.
  - destruct (IH (QueryBuilder.WaitVisible (Selector sel) (By sel) q))
      as (H1 & H2 & H3 & H4 & H5 & H6 & H7 & H8 & H9 & H10).
    rewrite H1, H2, H3, H4, H5, H6, H7, H8, H9, H10.
    destruct sel as [sl b]. cbn. rewrite <- app_assoc. repeat split.
Qed.

(** A fresh builder after [SetContent] has no page or render parameters. *)
Lemma SetContent_fresh_parameters (c : content.Content) :
  Query_PageParameters (query (QueryBuilder.SetContent c BuildHTMLQuery))
  = zero_PageParameters
  /\ Query_RenderParameters (query (QueryBuilder.SetContent c BuildHTMLQuery))
     = zero_RenderParameters
  /\ TimeoutDuration (query (QueryBuilder.SetContent c BuildHTMLQuery)) = 0.
Proof.
  unfold QueryBuilder.SetContent. cbn [err BuildHTMLQuery].
  destruct (String.eqb (content.Method c) "dir"
            || String.eqb (content.Method c) "html").
  - cbn. destruct (String.eqb (content.ContentType c) ""); repeat split.
  - destruct (String.eqb (content.Method c) "web"); cbn; repeat split.
Qed.

Lemma extract_chain_settings (c : content.Content) (d : html.Document)
      (w h : option sizes.Length) (m : html.margins) :
  let q1 := extract_chain c d w h m in
  let q0 := QueryBuilder.SetContent c BuildHTMLQuery in
  err q1 = err q0
  /\ Content (query q1) = Content (query q0)
  /\ ContentType (query q1) = ContentType (query q0)
  /\ URL (query q1) = URL (query q0)
  /\ Method (query q1) = Method (query q0)
  /\ Query_PageParameters (query q1)
     = {| PaperWidth := w; PaperHeight := h;
          PageSize := if html.pageSize d =? sizes.Undefined then None
                      else Some (html.pageSize d);
          Orientation := html.orientation d;
          MarginTop := html.Top m; MarginBottom := html.Bottom m;
          MarginLeft := html.Left m; MarginRight := html.Right m |}
  /\ Query_RenderParameters (query q1)
     = {| WaitTime := html.waitTime d; WaitReady := []; WaitVisible := [] |}
  /\ TimeoutDuration (query q1) = html.getTimeoutDuration d.
Proof.
  cbv zeta. unfold extract_chain, QueryBuilder.PageSize.
  destruct (SetContent_fresh_parameters c) as (Hp & Hr & _).
  revert Hp Hr. generalize (QueryBuilder.SetContent c BuildHTMLQuery).
  intros q0 Hp Hr.
  destruct (html.pageSize d =? sizes.Undefined); cbn; rewrite ?Hp, ?Hr;
    repeat split.
Qed.

(** X21.  The draft that [extract] builds holds every setting it was
    given: the width, height and margins passed in, the document's
    orientation, timeout and wait time, the page size unless it is
    [Undefined], and the wait-ready and wait-visible conditions of the
    document in their order; the error and the content fields are those
    of [SetContent] on a fresh builder. *)
Theorem extract_query_settings (c : content.Content) (d : html.Document)
        (w h : option sizes.Length) (m : html.margins) :
  err (html.extract_query c d w h m)
  = err (QueryBuilder.SetContent c BuildHTMLQuery)
  /\ Content (query (html.extract_query c d w h m))
     = Content (query (QueryBuilder.SetContent c BuildHTMLQuery))
  /\ ContentType (query (html.extract_query c d w h m))
     = ContentType (query (QueryBuilder.SetContent c BuildHTMLQuery))
  /\ URL (query (html.extract_query c d w h m))
     = URL (query (QueryBuilder.SetContent c BuildHTMLQuery))
  /\ Method (query (html.extract_query c d w h m))
     = Method (query (QueryBuilder.SetContent c BuildHTMLQuery))
  /\ Query_PageParameters (query (html.extract_query c d w h m))
     = {| PaperWidth := w; PaperHeight := h;
          PageSize := if html.pageSize d =? sizes.Undefined then None
                      else Some (html.pageSize d);
          Orientation := html.orientation d;
          MarginTop := html.Top m; MarginBottom := html.Bottom m;
          MarginLeft := html.Left m; MarginRight := html.Right m |}
  /\ Query_RenderParameters (query (html.extract_query c d w h m))
     = {| WaitTime := html.waitTime d; WaitReady := html.waitReady d;
          WaitVisible := html.waitVisible d |}
  /\ TimeoutDuration (query (html.extract_query c d w h m))
     = html.getTimeoutDuration d.
Proof.
  change (html.extract_query c d w h m)
    with (fold_left
            (fun q sel => QueryBuilder.WaitVisible (Selector sel) (By sel) q)
            (html.waitVisible d)
            (fold_left
               (fun q sel => QueryBuilder.WaitReady (Selector sel) (By sel) q)
               (html.waitReady d) (extract_chain c d w h m))).
  pose proof (fold_WaitVisible (html.waitVisible d)
                (fold_left
                   (fun q sel => QueryBuilder.WaitReady (Selector sel) (By sel) q)
                   (html.waitReady d) (extract_chain c d w h m))) as HV.
  pose proof (fold_WaitReady (html.waitReady d) (extract_chain c d w h m)) as HR.
  pose proof (extract_chain_settings c d w h m) as HB.
  cbv zeta in HV, HR, HB.
  destruct HV as (V1 & V2 & V3 & V4 & V5 & V6 & V7 & V8 & V9 & V10).
  destruct HR as (R1 & R2 & R3 & R4 & R5 & R6 & R7 & R8 & R9 & R10).
  destruct HB as (B1 & B2 & B3 & B4 & B5 & B6 & B7 & B8).
  repeat split; try congruence.
  destruct (Query_RenderParameters
              (query
                 (fold_left
                    (fun q sel =>
                       QueryBuilder.WaitVisible (Selector sel) (By sel) q)
                    (html.waitVisible d)
                    (fold_left
                       (fun q sel =>
                          QueryBuilder.WaitReady (Selector sel) (By sel) q)
                       (html.waitReady d) (extract_chain c d w h m)))))
    as [wt wr wv] eqn:Hq.
  cbn in V2, V3, V4. rewrite V2, V3, V4, R2, R3, R4, B7. reflexivity.
Qed.

End DocumentMore.

(** ** The document assembler: connecting and extracting *)

Section AssemblerMore.

Import client.

Variable env : Env.

Lemma HealthCheck_client (cli : Client) (net : list Call) :
  snd (fst (HealthCheck env cli net)) = cli.
Proof.
  unfold HealthCheck.
  destruct (http_NewRequest env _ _ _) as [req |]; [| reflexivity].
  destruct (http_Do env net _ req); reflexivity.
Qed.

Lemma ConvertHTML_client_exchanges (cli : Client) (q : Query) (net : list Call) :
  client_after (ConvertHTML env cli q net) = cli
  /\ (exchanges_after (ConvertHTML env cli q net) = net
      \/ exists call, exchanges_after (ConvertHTML env cli q net) = net ++ [call]).
Proof.
  unfold ConvertHTML, client_after, exchanges_after.
  destruct (Query.Validate q); [split; [reflexivity | now left] |].
  destruct (getGenerateRequest env cli q) as [req |];
    [| split; [reflexivity | now left]].
  destruct (http_Do env net _ req); (split; [reflexivity | right; eauto]).
Qed.

(** X22.  [ConnectOptions] installs the client made by [New] from the
    hostname, port and scheme flag before the health check and keeps it
    when the check fails: the error is the health check's, a document
    with content validates afterwards in either case, and the [Prefix]
    option is not used. *)
Theorem ConnectOptions_installs (o : html.Options) (net : list Call) :
  snd (fst (html.ConnectOptions env o net))
  = Some (New {| HTTPS := html.Secure o; Hostname := html.Hostname o;
                 Port := html.Port o; DefaultTimeout := 0; Prefix := "" |})
  /\ fst (fst (html.ConnectOptions env o net))
     = fst (fst (HealthCheck env
                   (New {| HTTPS := html.Secure o; Hostname := html.Hostname o;
                           Port := html.Port o; DefaultTimeout := 0;
                           Prefix := "" |}) net))
  /\ (forall d,
        html.validate (snd (fst (html.ConnectOptions env o net))) d = None
        <-> html.content d <> None)
  /\ (forall prefix,
        html.ConnectOptions env
          {| html.Hostname := html.Hostname o; html.Port := html.Port o;
             html.Secure := html.Secure o; html.Prefix := prefix |} net
        = html.ConnectOptions env o net).
Proof.
  assert (Hc : snd (fst (html.ConnectOptions env o net))
               = Some (New {| HTTPS := html.Secure o;
                              Hostname := html.Hostname o;
                              Port := html.Port o; DefaultTimeout := 0;
                              Prefix := "" |})).
  { unfold html.ConnectOptions.
    pose proof (HealthCheck_client
                  (New {| HTTPS := html.Secure o; Hostname := html.Hostname o;
                          Port := html.Port o; DefaultTimeout := 0;
                          Prefix := "" |}) net) as H.
    destruct (HealthCheck env _ net) as [[e cli'] net']. cbn in *. now subst. }
  split; [exact Hc | split; [| split]].
  - unfold html.ConnectOptions.
    destruct (HealthCheck env _ net) as [[e cli'] net']. reflexivity.
  - intros d. rewrite Hc. unfold html.validate.
    destruct (html.content d); split; congruence.
  - intros prefix. reflexivity.
Qed.

Variable Page : Type.
Variable NewPdfReader : list byte -> result (list Page).

(** X23.  [GetPdfPages] fails with [ErrNoClient] without a client and with
    [ErrContentNotDefined] without content, and with the builder's error
    when the draft of [extract] is rejected, in each case without an
    exchange; it never changes the package's client and makes at most one
    exchange. *)
Theorem GetPdfPages_guards (unihtmlClient : option Client) (d : html.Document)
        (net : list Call) :
  (unihtmlClient = None ->
   html.GetPdfPages Page NewPdfReader env unihtmlClient d net
   = (Err html.ErrNoClient, None, net))
  /\ (forall cli,
        unihtmlClient = Some cli -> html.content d = None ->
        html.GetPdfPages Page NewPdfReader env unihtmlClient d net
        = (Err html.ErrContentNotDefined, Some cli, net))
  /\ (forall cli c e,
        unihtmlClient = Some cli -> html.content d = Some c ->
        QueryBuilder.Query
          (html.extract_query c d (html.pageWidth d) (html.pageHeight d)
                              (html.getMargins d)) = Err e ->
        html.GetPdfPages Page NewPdfReader env unihtmlClient d net
        = (Err e, Some cli, net))
  /\ snd (fst (html.GetPdfPages Page NewPdfReader env unihtmlClient d net))
     = unihtmlClient
  /\ (snd (html.GetPdfPages Page NewPdfReader env unihtmlClient d net) = net
      \/ exists call,
          snd (html.GetPdfPages Page NewPdfReader env unihtmlClient d net)
          = net ++ [call]).
Proof.
  unfold html.GetPdfPages, html.validate, html.extract.
  split; [now intros -> | split; [| split]].
  - intros cli -> Hc. now rewrite Hc.
  - intros cli c e -> Hc Hq. now rewrite Hc, Hq.
  - destruct unihtmlClient as [cli |]; [| split; [reflexivity | now left]].
    destruct (html.content d) as [c |]; [| split; [reflexivity | now left]].
    destruct (QueryBuilder.Query _) as [q |]; [| split; [reflexivity | now left]].
    destruct (ConvertHTML_client_exchanges cli q net) as [Hcli Hnet].
    unfold client_after, exchanges_after in *.
    destruct (ConvertHTML env cli q net) as [[r cli'] net']. cbn in *.
    subst cli'. destruct r; (split; [reflexivity | exact Hnet]).
Qed.

End AssemblerMore.

(** X23 at the example document without a client. *)
Lemma GetPdfPages_guards_witness :
  html.GetPdfPages (list byte) (fun data => Ok [data])
                   (env_answering response_201_gzip) None document_example []
  = (Err html.ErrNoClient, None, []).
Proof.
  apply (GetPdfPages_guards (env_answering response_201_gzip) (list byte)
                            (fun data => Ok [data]) None document_example []).
  reflexivity.
Defined.

(** ** Trimming the last page *)

Section TrimHeight.

Variable img : html.Image.

(** A difference of a value with itself is never above the 3% threshold,
    on any binary64 value. *)
Lemma threshold_diag (x : float) :
  (0.03 <? abs (x - x) / html.float64_of_int html.MaxUint16)%float = false.
Proof.
  rewrite ltb_spec, div_spec, abs_spec, sub_spec.
  replace (Prim2SF (html.float64_of_int html.MaxUint16))
    with (S754_finite false 9007061815787520 (-37))
    by (vm_compute; reflexivity).
  replace (Prim2SF 0.03%float)
    with (S754_finite false 8646911284551352 (-58))
    by (vm_compute; reflexivity).
  unfold SF64sub, SFsub.
  destruct (Prim2SF x) as [s | s | | s m e].
  - destruct s; reflexivity.
  - destruct s; reflexivity.
  - reflexivity.
  - rewrite Z.sub_diag. reflexivity.
Qed.

Lemma channelDiffers_diag (c : Z) : html.channelDiffers c c = false.
Proof. apply threshold_diag. Qed.

Lemma pixelHasContent_same (isWhite : bool) (ref : Z * Z * Z) :
  html.pixelHasContent isWhite ref ref = false.
Proof.
  destruct ref as [[r g] b]. unfold html.pixelHasContent.
  rewrite !Z.eqb_refl, !channelDiffers_diag.
  destruct isWhite; reflexivity.
Qed.

Lemma pixelHasContent_white (px : Z * Z * Z) :
  html.pixelHasContent true white px = true <-> px <> white.
Proof.
  destruct px as [[cr cg] cb]. unfold html.pixelHasContent, white. cbn [negb andb orb].
  rewrite orb_false_r, negb_true_iff. split.
  - intros H [= -> -> ->]. discriminate.
  - intros H. destruct (Z.eqb_spec cr 65535); [| reflexivity].
    destruct (Z.eqb_spec cg 65535); [| reflexivity].
    destruct (Z.eqb_spec cb 65535); [| reflexivity].
    subst. now elim H.
Qed.

Lemma rowHasContent_true (isWhite : bool) (ref : Z * Z * Z) (y : Z) :
  html.rowHasContent img isWhite ref y = true
  <-> exists x,
      html.Min_X (html.Bounds img) <= x < html.Max_X (html.Bounds img)
      /\ html.pixelHasContent isWhite ref (html.At_RGBA img x y) = true.
Proof.
  unfold html.rowHasContent. rewrite existsb_exists. split.
  - intros (x & Hin & Hp). exists x. split; [| exact Hp].
    apply in_map_iff in Hin as (i & <- & Hi). apply in_seq in Hi. lia.
  - intros (x & Hx & Hp). exists x. split; [| exact Hp].
    apply in_map_iff. exists (Z.to_nat (x - html.Min_X (html.Bounds img))).
    split; [lia | apply in_seq; lia].
Qed.

Lemma rowHasContent_false (isWhite : bool) (ref : Z * Z * Z) (y : Z) :
  (forall x,
      html.Min_X (html.Bounds img) <= x < html.Max_X (html.Bounds img) ->
      html.pixelHasContent isWhite ref (html.At_RGBA img x y) = false) ->
  html.rowHasContent img isWhite ref y = false.
Proof.
  intros H. destruct (html.rowHasContent img isWhite ref y) eqn:Hr;
    [| reflexivity].
  apply rowHasContent_true in Hr as (x & Hx & Hp).
  rewrite (H x Hx) in Hp. discriminate.
Qed.

(** The outer loop over rows without content runs to its end. *)
Lemma scanRows_blank (isWhite : bool) (ref : Z * Z * Z) (n : nat)
      (y last : Z) :
  (forall k, (k < n)%nat ->
             html.rowHasContent img isWhite ref (y - Z.of_nat k) = false) ->
  html.scanRows img isWhite ref n y last
  = match n with
    | O => last
    | S m => y - Z.of_nat m
    end.
Proof.
  revert y last. induction n as [| n IH]; intros y last H; [reflexivity |].
  cbn [html.scanRows].
  pose proof (H 0%nat ltac:(lia)) as H0. rewrite Z.sub_0_r in H0. rewrite H0.
  rewrite IH.
  - destruct n; lia.
  - intros k Hk. replace (y - 1 - Z.of_nat k) with (y - Z.of_nat (S k)) by lia.
    apply H. lia.
Qed.

(** The outer loop stops at the first row with content. *)
Lemma scanRows_stop (isWhite : bool) (ref : Z * Z * Z) (k n : nat)
      (y last : Z) :
  (k < n)%nat ->
  (forall j, (j < k)%nat ->
             html.rowHasContent img isWhite ref (y - Z.of_nat j) = false) ->
  html.rowHasContent img isWhite ref (y - Z.of_nat k) = true ->
  html.scanRows img isWhite ref n y last
  = match k with
    | O => last
    | S m => y - Z.of_nat m
    end.
Proof.
  revert n y last. induction k as [| k IH]; intros n y last Hk Hblank Hrow.
  - destruct n; [lia |]. cbn [html.scanRows].
    rewrite Z.sub_0_r in Hrow. now rewrite Hrow.
  - destruct n; [lia |]. cbn [html.scanRows].
    pose proof (Hblank 0%nat ltac:(lia)) as H0. rewrite Z.sub_0_r in H0.
    rewrite H0. rewrite (IH n (y - 1) y).
    + destruct k; lia.
    + lia.
    + intros j Hj.
      replace (y - 1 - Z.of_nat j) with (y - Z.of_nat (S j)) by lia.
      apply Hblank. lia.
    + replace (y - 1 - Z.of_nat k) with (y - Z.of_nat (S k)) by lia.
      exact Hrow.
Qed.

(** X24.  For an image in which every pixel has the colour of the
    bottom-left pixel, of any colour, no row has content: the ratio is
    the height of the image over [Max.Y]. *)
Theorem detectTrimHeight_uniform :
  html.Min_Y (html.Bounds img) < html.Max_Y (html.Bounds img) ->
  (forall x y,
      in_bounds img x y ->
      html.At_RGBA img x y
      = html.At_RGBA img (html.Min_X (html.Bounds img))
                     (html.Max_Y (html.Bounds img) - 1)) ->
  html.detectTrimHeight img
  = (html.float64_of_int
       (html.Max_Y (html.Bounds img) - html.Min_Y (html.Bounds img))
     / html.float64_of_int (html.Max_Y (html.Bounds img)))%float.
Proof.
  intros Hy Hsame. unfold html.detectTrimHeight.
  destruct (html.At_RGBA img (html.Min_X (html.Bounds img))
                         (html.Max_Y (html.Bounds img) - 1))
    as [[r g] b] eqn:Href.
  rewrite scanRows_blank.
  - destruct (Z.to_nat (html.Max_Y (html.Bounds img)
                        - html.Min_Y (html.Bounds img))) as [| m] eqn:Hn;
      [lia |].
    do 2 f_equal. lia.
  - intros k Hk. apply rowHasContent_false. intros x Hx.
    rewrite Hsame by (unfold in_bounds; lia).
    apply pixelHasContent_same.
Qed.

(** X25.  With white below it, the lowest row [y0] that has a pixel that
    is not white decides the ratio: the number of rows below [y0] over
    [Max.Y].  The rows above [y0] are not looked at. *)
Theorem detectTrimHeight_white_rows (y0 : Z) :
  html.Min_Y (html.Bounds img) <= y0 < html.Max_Y (html.Bounds img) - 1 ->
  (forall x y, in_bounds img x y -> y0 < y -> html.At_RGBA img x y = white) ->
  (exists x,
      html.Min_X (html.Bounds img) <= x < html.Max_X (html.Bounds img)
      /\ html.At_RGBA img x y0 <> white) ->
  html.detectTrimHeight img
  = (html.float64_of_int (html.Max_Y (html.Bounds img) - (y0 + 1))
     / html.float64_of_int (html.Max_Y (html.Bounds img)))%float.
Proof.
  intros Hy Hwhite (x0 & Hx0 & Hpx). unfold html.detectTrimHeight.
  rewrite (Hwhite (html.Min_X (html.Bounds img))
                  (html.Max_Y (html.Bounds img) - 1))
    by (unfold in_bounds; lia).
  cbn [white]. rewrite !Z.eqb_refl. cbn [andb].
  change (65535, 65535, 65535) with white.
  rewrite (scanRows_stop true white
             (Z.to_nat (html.Max_Y (html.Bounds img) - 1 - y0))).
  - destruct (Z.to_nat (html.Max_Y (html.Bounds img) - 1 - y0)) as [| m] eqn:Hk;
      [lia |].
    do 2 f_equal. lia.
  - lia.
  - intros j Hj. apply rowHasContent_false. intros x Hx.
    rewrite Hwhite by (unfold in_bounds; lia).
    apply pixelHasContent_same.
  - apply rowHasContent_true. exists x0. split; [exact Hx0 |].
    replace (html.Max_Y (html.Bounds img) - 1
             - Z.of_nat (Z.to_nat (html.Max_Y (html.Bounds img) - 1 - y0)))
      with y0 by lia.
    now apply pixelHasContent_white.
Qed.

(** X26.  When the bottom-left pixel is white and the bottom row has a
    pixel that is not, the scan stops at once with [lastNonEmptyY] still
    zero: the ratio is [Max.Y] over [Max.Y], the value an image without
    any content has when its [Min.Y] is zero. *)
Theorem detectTrimHeight_bottom_row :
  html.Min_Y (html.Bounds img) < html.Max_Y (html.Bounds img) ->
  html.At_RGBA img (html.Min_X (html.Bounds img))
               (html.Max_Y (html.Bounds img) - 1) = white ->
  (exists x,
      html.Min_X (html.Bounds img) <= x < html.Max_X (html.Bounds img)
      /\ html.At_RGBA img x (html.Max_Y (html.Bounds img) - 1) <> white) ->
  html.detectTrimHeight img
  = (html.float64_of_int (html.Max_Y (html.Bounds img) - 0)
     / html.float64_of_int (html.Max_Y (html.Bounds img)))%float.
Proof.
  intros Hy Href (x0 & Hx0 & Hpx). unfold html.detectTrimHeight.
  rewrite Href. cbn [white]. rewrite !Z.eqb_refl. cbn [andb].
  change (65535, 65535, 65535) with white.
  rewrite (scanRows_stop true white 0%nat); [reflexivity | lia | intros j Hj; lia |].
  rewrite Z.sub_0_r. apply rowHasContent_true. exists x0.
  split; [exact Hx0 | now apply pixelHasContent_white].
Qed.

End TrimHeight.

(** X24 at the grey image: the whole height. *)
Lemma detectTrimHeight_uniform_witness :
  html.detectTrimHeight image_grey
  = (html.float64_of_int 4 / html.float64_of_int 4)%float.
Proof.
  apply (detectTrimHeight_uniform image_grey).
  - vm_compute. reflexivity.
  - intros x y _. reflexivity.
Defined.

(** X25 at the white image with a dot in row 1 of 4: two rows of four. *)
Lemma detectTrimHeight_white_rows_witness :
  html.detectTrimHeight image_dot
  = (html.float64_of_int 2 / html.float64_of_int 4)%float.
Proof.
  apply (detectTrimHeight_white_rows image_dot 1).
  - vm_compute. split; [discriminate | reflexivity].
  - intros x y _ Hy. cbn.
    destruct (Z.eqb_spec y 1); [lia |]. now rewrite andb_false_r.
  - exists 1. split; [vm_compute; split; [discriminate | reflexivity] |].
    cbn. discriminate.
Defined.

(** X26 at the white image with a dot in the bottom row. *)
Lemma detectTrimHeight_bottom_row_witness :
  html.detectTrimHeight image_border
  = (html.float64_of_int (4 - 0) / html.float64_of_int 4)%float.
Proof.
  apply (detectTrimHeight_bottom_row image_border).
  - vm_compute. reflexivity.
  - reflexivity.
  - exists 1. split; [vm_compute; split; [discriminate | reflexivity] |].
    cbn. discriminate.
Defined.

(** ** Zipping a directory *)

Section ZipDirectory.

Variable sys : content.Sys.

Lemma append_assoc (a b c : string) : ((a ++ b) ++ c = a ++ b ++ c)%string.
Proof.
  induction a as [| x a IH]; [reflexivity |].
  change (String x ((a ++ b) ++ c) = String x (a ++ b ++ c))%string.
  now f_equal.
Qed.

Lemma append_empty_r (a : string) : (a ++ "" = a)%string.
Proof.
  induction a as [| x a IH]; [reflexivity |].
  change (String x (a ++ "") = String x a)%string. now f_equal.
Qed.

Lemma append_empty_l (a : string) : ("" ++ a = a)%string.
Proof. reflexivity. Qed.

(** On an empty builder [zipBasePaths] returns the local path, the
    archive path under [basePath], and the builder empty again. *)
Lemma zipBasePaths_paths (name dirPath basePath : string) (isDir : bool) :
  content.zipBasePaths name dirPath basePath isDir ""
  = (local_path dirPath name isDir,
     (basePath ++ name ++ (if isDir then "/" else ""))%string,
     ""%string).
Proof.
  unfold content.zipBasePaths, local_path.
  destruct (strings_HasSuffix dirPath "/"), isDir; cbn [negb];
    rewrite ?append_empty_l, ?append_assoc, ?append_empty_r; reflexivity.
Qed.

Lemma flat_map_cons_app {A B : Type} (f : A -> list B) (x : A) (l : list A) :
  flat_map f (x :: l) = (f x ++ flat_map f l)%list.
Proof. reflexivity. Qed.

(** The loop over a listing, given that the recursive call does each
    directory of the listing. *)
Lemma zipPath_range_entries
      (rec : string -> string -> list (string * list byte) ->
             option (option error * list (string * list byte)))
      (dirPath basePath : string) (entries : list content.DirEntry)
      (ts : list tree) :
  (forall name, content.zip_Create sys name = None) ->
  shows_entries sys dirPath entries ts ->
  (forall name children z,
      In (dir name children) ts ->
      rec (local_path dirPath name true) (basePath ++ name ++ "/")%string z
      = Some (None,
              (z ++ flat_map (flatten (basePath ++ name ++ "/")%string)
                             children)%list)) ->
  forall z,
    content.zipPath_range sys rec dirPath basePath entries "" z
    = Some (None, (z ++ flat_map (flatten basePath) ts)%list).
Proof.
  intros Hcreate Hshow. induction Hshow as
      [ dirPath
      | dirPath name data entries ts Hread _ IH
      | dirPath name children entries ts _ _ IH ];
    intros Hrec z.
  - cbn. now rewrite app_nil_r.
  - cbn [content.zipPath_range content.Info content.IsDir].
    rewrite zipBasePaths_paths. cbv beta iota.
    rewrite Hread, Hcreate, append_empty_r.
    rewrite IH.
    + rewrite flat_map_cons_app. cbn [flatten]. now rewrite <- app_assoc.
    + intros n cs z' Hin. apply Hrec. now right.
  - cbn [content.zipPath_range content.Info content.IsDir].
    rewrite zipBasePaths_paths. cbv beta iota.
    rewrite (Hrec name children z) by now left.
    rewrite IH.
    + rewrite flat_map_cons_app. cbn [flatten]. now rewrite <- app_assoc.
    + intros n cs z' Hin. apply Hrec. now right.
Qed.

Lemma height_In (t : tree) (ts : list tree) :
  In t ts -> (height t <= list_max (map height ts))%nat.
Proof.
  induction ts as [| u ts IH]; [contradiction |].
  change (list_max (map height (u :: ts)))
    with (Nat.max (height u) (list_max (map height ts))).
  intros [-> | Hin]; [apply Nat.le_max_l |].
  etransitivity; [apply IH; exact Hin | apply Nat.le_max_r].
Qed.

Lemma shows_entries_dir (dirPath : string) (entries : list content.DirEntry)
      (ts : list tree) (name : string) (children : list tree) :
  shows_entries sys dirPath entries ts ->
  In (dir name children) ts ->
  shows sys (local_path dirPath name true) children.
Proof.
  induction 1 as [| ? ? ? ? ? _ _ IH | ? ? ? ? ? Hsub _ IH]; cbn.
  - contradiction.
  - intros [Heq | Hin]; [discriminate | now apply IH].
  - intros [[= <- <-] | Hin]; [exact Hsub | now apply IH].
Qed.

Lemma zipPath_shows (depth : nat) :
  (forall name, content.zip_Create sys name = None) ->
  forall dirPath ts basePath z,
    shows sys dirPath ts ->
    (list_max (map height ts) < depth)%nat ->
    content.zipPath sys depth dirPath basePath z
    = Some (None, (z ++ flat_map (flatten basePath) ts)%list).
Proof.
  intros Hcreate. induction depth as [| depth IH];
    intros dirPath ts basePath z Hshow Hh; [lia |].
  destruct Hshow as [dirPath entries ts Hread Hentries].
  cbn [content.zipPath]. rewrite Hread.
  apply zipPath_range_entries; [exact Hcreate | exact Hentries |].
  intros name children z' Hin. apply IH.
  - now apply (shows_entries_dir dirPath entries ts).
  - pose proof (height_In _ _ Hin) as Hle. cbn [height] in Hle. lia.
Qed.

(** X27.  For a directory that the file system shows as the tree [ts],
    and a writer that accepts every name, the walk to any depth above the
    height of the tree writes one entry per file, named by its path
    relative to the directory with "/" between the parts, in listing
    order and depth first, after the entries the writer held; directories
    add no entry of their own.  [NewZipDirectory] then returns the content
    of method "dir" whose data is the closed archive of these entries. *)
Theorem zipPath_writes_tree (dirPath : string) (ts : list tree) (depth : nat) :
  (forall name, content.zip_Create sys name = None) ->
  shows sys dirPath ts ->
  (list_max (map height ts) < depth)%nat ->
  (forall basePath z,
      content.zipPath sys depth dirPath basePath z
      = Some (None, (z ++ flat_map (flatten basePath) ts)%list))
  /\ (forall buffer,
        content.zip_Close sys (flat_map (flatten "") ts) = Ok buffer ->
        content.NewZipDirectory sys depth dirPath
        = Some (Ok (content.zipDirectory buffer))).
Proof.
  intros Hcreate Hshow Hh. split.
  - intros basePath z. now apply zipPath_shows.
  - intros buffer Hclose. unfold content.NewZipDirectory.
    rewrite (zipPath_shows depth Hcreate dirPath ts "" [] Hshow Hh).
    cbn [app]. now rewrite Hclose.
Qed.

(** A result of the loop does not depend on the depth the recursive call
    is allowed, once it has one. *)
Lemma zipPath_range_mono
      (rec rec' : string -> string -> list (string * list byte) ->
                  option (option error * list (string * list byte)))
      (dirPath basePath : string) :
  (forall p b z r, rec p b z = Some r -> rec' p b z = Some r) ->
  forall entries builder z r,
    content.zipPath_range sys rec dirPath basePath entries builder z = Some r ->
    content.zipPath_range sys rec' dirPath basePath entries builder z = Some r.
Proof.
  intros Hrec. induction entries as [| entry rest IH]; intros builder z r;
    [exact (fun H => H) |].
  cbn [content.zipPath_range].
  destruct (content.Info entry) as [info |]; [| exact (fun H => H)].
  destruct (content.zipBasePaths info dirPath basePath (content.IsDir entry)
                                 builder) as [[filePath zipName] builder'].
  destruct (content.IsDir entry).
  - destruct (rec filePath zipName z) as [[[e |] z'] |] eqn:Hr;
      [| | discriminate]; rewrite (Hrec _ _ _ _ Hr);
      [exact (fun H => H) | apply IH].
  - destruct (content.os_ReadFile sys filePath); [| exact (fun H => H)].
    destruct (content.zip_Create sys zipName); [exact (fun H => H) | apply IH].
Qed.

(** X28.  A walk that ends at some depth ends in the same way at every
    greater depth.  When the directory itself cannot be listed, the walk
    writes nothing and [NewZipDirectory] fails with "reading directory
    '<path>' failed: ..." wrapping the error; and a content that
    [NewZipDirectory] returns has the method "dir", the type
    "application/zip" and the bytes of a closed archive. *)
Theorem zipPath_depth_and_errors (dirPath : string) (depth : nat) :
  (forall basePath z r depth',
      content.zipPath sys depth dirPath basePath z = Some r ->
      (depth <= depth')%nat ->
      content.zipPath sys depth' dirPath basePath z = Some r)
  /\ (forall err,
        content.os_ReadDir sys dirPath = Err err ->
        content.NewZipDirectory sys (S depth) dirPath
        = Some (Err (fmt_Errorf_w
                       ("reading directory '" ++ dirPath ++ "' failed: "
                        ++ Error err) err)))
  /\ (forall c,
        content.NewZipDirectory sys depth dirPath = Some (Ok c) ->
        content.Method c = "dir"
        /\ content.ContentType c = "application/zip"
        /\ exists z, content.zip_Close sys z = Ok (content.Data c)).
Proof.
  split; [| split].
  - revert dirPath. induction depth as [| d IH];
      intros dirPath basePath z r depth' H Hle; [discriminate |].
    destruct depth' as [| d']; [lia |].
    cbn [content.zipPath] in *.
    destruct (content.os_ReadDir sys dirPath) as [entries |]; [| exact H].
    apply (zipPath_range_mono (content.zipPath sys d)); [| exact H].
    intros p b z' r' Hr. apply (IH p b z' r' d' Hr). lia.
  - intros err Hread. unfold content.NewZipDirectory. cbn [content.zipPath].
    now rewrite Hread.
  - intros c. unfold content.NewZipDirectory.
    destruct (content.zipPath sys depth dirPath "" []) as [[[e |] z] |];
      try discriminate.
    destruct (content.zip_Close sys z) as [buffer |] eqn:Hclose;
      [| discriminate].
    intros [= <-]. repeat split. now exists z.
Qed.

End ZipDirectory.

(** X27 at the directory "site" with "b.txt" and "c/d.txt". *)
Lemma zipPath_writes_tree_witness :
  content.zipPath site_sys 2 "site" "" []
  = Some (None, [("b.txt"%string, list_byte_of_string "B");
                 ("c/d.txt"%string, list_byte_of_string "D")]).
Proof.
  apply (proj1 (zipPath_writes_tree site_sys "site" site_tree 2
                  (fun _ => eq_refl)
                  ltac:(repeat econstructor)
                  ltac:(vm_compute; lia))
               ""%string []).
Defined.

(** X28 at a directory that does not exist. *)
Lemma zipPath_depth_and_errors_witness :
  content.NewZipDirectory site_sys 1 "nowhere"
  = Some (Err (fmt_Errorf_w
                 "reading directory 'nowhere' failed: open nowhere: no such file or directory"
                 (errors_New "open nowhere: no such file or directory"))).
Proof.
  apply (proj1 (proj2 (zipPath_depth_and_errors site_sys "nowhere" 0))
               (errors_New "open nowhere: no such file or directory")).
  reflexivity.
Defined.
